(** * CalorieFlow: the local data store, the date utilities, the PIN gate and
    the analytics aggregation, embedded from the modules [Utils]
    ([js/utils.js]), [Storage], [Auth] and from [App.updateAnalytics]
    ([js/charts.js]).

    Conventions of the embedding.
    - A JavaScript number that the code computes with is a [number]: [NaN]
      or an exact integer.  This is the arithmetic of the code as long as
      every value is an integer of magnitude at most 2^53, which binary64
      holds exactly; time values (at most 8.64e15) and the days, dates and
      months read from them always are.
    - Two results of the code can leave that range: a calorie total, since
      [parseInt] reads digit strings of any length, and the difference of
      two dates far apart.  For the first, [Binary64] has the numbers with
      their rounding and their infinities, and the total computed with
      them; the second is stated for differences up to 2^53.
    - A string is the sequence of its code units, taken below 256.
    - A [Date] object is its time value (milliseconds since the epoch, UTC),
      a [number]; [NaN] is the Invalid Date.
    - The platform supplies the local time zone, the string grammar of
      [Date.parse] and the quota of [localStorage]; everything is stated for
      an arbitrary [Platform].  The time zone is a constant offset: daylight
      saving transitions are not modelled.
    - An object stored as JSON is a finite map from property names to JSON
      scalars; a property that is absent reads as [undefined] ([None]). *)

From Stdlib Require Import ZArith QArith Qabs String Ascii List Lia Permutation Sorted.
From stdpp Require Import base option list gmap strings.

Local Open Scope Z_scope.

(** ** Numbers *)

Inductive number : Type :=
  | NaN
  | Num (z : Z).

(** [a + b] and [a - b] on numbers. *)
Definition num_add (a b : number) : number :=
  match a, b with
  | Num x, Num y => Num (x + y)
  | _, _ => NaN
  end.

Definition num_sub (a b : number) : number :=
  match a, b with
  | Num x, Num y => Num (x - y)
  | _, _ => NaN
  end.

(** [a >= b] and [a <= b]: false as soon as one side is [NaN]. *)
Definition num_ge (a b : number) : bool :=
  match a, b with
  | Num x, Num y => y <=? x
  | _, _ => false
  end.

Definition num_le (a b : number) : bool :=
  match a, b with
  | Num x, Num y => x <=? y
  | _, _ => false
  end.

(** [a === b] on numbers: [NaN] is not equal to itself. *)
Definition num_strict_eq (a b : number) : bool :=
  match a, b with
  | Num x, Num y => x =? y
  | _, _ => false
  end.

(** [x || 0] where [x] is a number: [NaN] and [0] are falsy. *)
Definition or_zero (x : number) : number :=
  match x with
  | NaN => Num 0
  | Num z => if z =? 0 then Num 0 else Num z
  end.

(** ** JSON values and the store *)

Inductive jsval : Type :=
  | JNull
  | JBool (b : bool)
  | JNum (q : Q)
  | JStr (s : string).

(** A stored record: property name to value. *)
Abbreviation obj := (gmap string jsval).

(** [{ ...a, ...b }]: the properties of [b] win. *)
Definition spread (a b : obj) : obj := b ∪ a.

(** What [localStorage] holds under a key.  [Storage.set] writes
    [JSON.stringify value] and [Storage.get] reads it back with
    [JSON.parse]; on arrays of records and on records of JSON scalars the
    two are inverse, so the store keeps the value itself.  [SText] is a
    string written as it is (the PIN hash). *)
Inductive stored : Type :=
  | SText (s : string)
  | SArray (l : list obj)
  | SObject (o : obj).

Abbreviation localStorage := (gmap string stored).

(** ** The platform *)

Class Platform : Type := {
  (** Offset of local time from UTC, in milliseconds. *)
  LocalTZA : Z;
  (** [Date.parse]: the time value a string denotes, or [NaN]. *)
  Date_parse : string -> number;
  (** Whether [localStorage.setItem key value] is accepted, given what is
      stored; a refused write raises [QuotaExceededError]. *)
  setItem_fits : localStorage -> string -> stored -> bool
}.

(** [localStorage.setItem(key, value)]: [None] when it throws. *)
Definition localStorage_setItem `{Platform} (ls : localStorage) (key : string)
    (value : stored) : option localStorage :=
  if setItem_fits ls key value then Some (<[key := value]> ls) else None.

(** ** ECMAScript date arithmetic (ECMA-262, Date objects) *)

Module ES.

Definition msPerDay : Z := 86400000.
Definition msPerHour : Z := 3600000.
Definition msPerMinute : Z := 60000.
Definition msPerSecond : Z := 1000.
Definition maxTime : Z := 8640000000000000.

Definition Day (t : Z) : Z := t / msPerDay.
Definition TimeWithinDay (t : Z) : Z := t mod msPerDay.

Definition DaysInYear (y : Z) : Z :=
  if negb (y mod 4 =? 0) then 365
  else if negb (y mod 100 =? 0) then 366
  else if negb (y mod 400 =? 0) then 365
  else 366.

Definition DayFromYear (y : Z) : Z :=
  365 * (y - 1970) + (y - 1969) / 4 - (y - 1901) / 100 + (y - 1601) / 400.

Definition TimeFromYear (y : Z) : Z := msPerDay * DayFromYear y.

(** The largest [y] with [TimeFromYear y <= t]: an estimate from the mean
    length of a Gregorian year, moved by one year when it is off. *)
Definition YearFromTime (t : Z) : Z :=
  let d := Day t in
  let y := 1970 + (d * 400) / 146097 in
  if d <? DayFromYear y then y - 1
  else if DayFromYear (y + 1) <=? d then y + 1
  else y.

Definition InLeapYear (t : Z) : Z :=
  if DaysInYear (YearFromTime t) =? 366 then 1 else 0.

Definition DayWithinYear (t : Z) : Z := Day t - DayFromYear (YearFromTime t).

(** Day within the year on which month [m] (0 = January) starts. *)
Definition monthStartDay (m leap : Z) : Z :=
  match m with
  | 0 => 0
  | 1 => 31
  | 2 => 59 + leap
  | 3 => 90 + leap
  | 4 => 120 + leap
  | 5 => 151 + leap
  | 6 => 181 + leap
  | 7 => 212 + leap
  | 8 => 243 + leap
  | 9 => 273 + leap
  | 10 => 304 + leap
  | _ => 334 + leap
  end.

Definition MonthFromTime (t : Z) : Z :=
  let d := DayWithinYear t in
  let leap := InLeapYear t in
  if d <? 31 then 0
  else if d <? 59 + leap then 1
  else if d <? 90 + leap then 2
  else if d <? 120 + leap then 3
  else if d <? 151 + leap then 4
  else if d <? 181 + leap then 5
  else if d <? 212 + leap then 6
  else if d <? 243 + leap then 7
  else if d <? 273 + leap then 8
  else if d <? 304 + leap then 9
  else if d <? 334 + leap then 10
  else 11.

Definition DateFromTime (t : Z) : Z :=
  DayWithinYear t - monthStartDay (MonthFromTime t) (InLeapYear t) + 1.

(** 0 = Sunday; 1 January 1970 was a Thursday. *)
Definition WeekDay (t : Z) : Z := (Day t + 4) mod 7.

Definition MakeTime (hour min sec ms : Z) : Z :=
  hour * msPerHour + min * msPerMinute + sec * msPerSecond + ms.

(** Day number of day [date] of month [month] of [year]; months outside
    0..11 carry into the year. *)
Definition MakeDay (year month date : Z) : Z :=
  let ym := year + month / 12 in
  let mn := month mod 12 in
  let leap := if DaysInYear ym =? 366 then 1 else 0 in
  DayFromYear ym + monthStartDay mn leap + date - 1.

Definition MakeDate (day time : Z) : Z := day * msPerDay + time.

Definition TimeClip (t : Z) : number :=
  if Z.abs t <=? maxTime then Num t else NaN.

End ES.

Section Dates.
Context `{Platform}.

Definition LocalTime (t : Z) : Z := t + LocalTZA.
Definition UTC (t : Z) : Z := t - LocalTZA.

(** [d.getDay()], [d.getDate()]. *)
Definition getDay (d : number) : number :=
  match d with
  | NaN => NaN
  | Num t => Num (ES.WeekDay (LocalTime t))
  end.

Definition getDate (d : number) : number :=
  match d with
  | NaN => NaN
  | Num t => Num (ES.DateFromTime (LocalTime t))
  end.

(** [d.setDate(dt)]: the new time value of [d]. *)
Definition setDate (d dt : number) : number :=
  match d, dt with
  | Num tv, Num n =>
      let t := LocalTime tv in
      ES.TimeClip (UTC (ES.MakeDate
        (ES.MakeDay (ES.YearFromTime t) (ES.MonthFromTime t) n)
        (ES.TimeWithinDay t)))
  | _, _ => NaN
  end.

(** [d.setHours(h, m, s, ms)]: the new time value of [d]. *)
Definition setHours (d : number) (h m s ms : Z) : number :=
  match d with
  | NaN => NaN
  | Num tv =>
      let t := LocalTime tv in
      ES.TimeClip (UTC (ES.MakeDate (ES.Day t) (ES.MakeTime h m s ms)))
  end.

(** [d.getFullYear()], [d.getMonth()]. *)
Definition getFullYear (d : number) : number :=
  match d with
  | NaN => NaN
  | Num t => Num (ES.YearFromTime (LocalTime t))
  end.

Definition getMonth (d : number) : number :=
  match d with
  | NaN => NaN
  | Num t => Num (ES.MonthFromTime (LocalTime t))
  end.

(** [new Date(year, month, date)]: local midnight of that day; a year from
    0 to 99 stands for 1900 + year. *)
Definition new_Date_ymd (year month date : number) : number :=
  match year, month, date with
  | Num y, Num m, Num dt =>
      let yr := if (0 <=? y) && (y <=? 99) then 1900 + y else y in
      ES.TimeClip (UTC (ES.MakeDate (ES.MakeDay yr m dt) (ES.MakeTime 0 0 0 0)))
  | _, _, _ => NaN
  end.

End Dates.

(** ** Text of numbers *)

Definition digit_char (d : Z) : ascii :=
  ascii_of_nat (Z.to_nat (if d <? 10 then 48 + d else 87 + d)).

Fixpoint to_radix_go (fuel : nat) (r n : Z) (acc : string) : string :=
  match fuel with
  | O => acc
  | S f =>
      let acc' := String (digit_char (n mod r)) acc in
      if n / r =? 0 then acc' else to_radix_go f r (n / r) acc'
  end.

(** [n.toString(r)] for an integer [n >= 0] and [2 <= r <= 36]. *)
Definition to_radix (r n : Z) : string :=
  to_radix_go (S (Z.to_nat (Z.log2 n))) r n "".

(** [n.toString()] for an integer [n]. *)
Definition Number_toString (n : Z) : string :=
  if n <? 0 then String "-" (to_radix 10 (- n)) else to_radix 10 n.

(** [String(n).padStart(w, "0")] for [n >= 0]. *)
Definition pad0 (w : nat) (n : Z) : string :=
  let s := to_radix 10 n in
  String.concat "" (repeat "0"%string (w - String.length s)) ++ s.

Section DateObjects.
Context `{Platform}.

(** [Math.trunc] of a stored number. *)
Definition trunc (q : Q) : Z := Z.quot (Qnum q) (Z.pos (Qden q)).

(** [new Date(v)] for a stored property [v] ([None] is [undefined]): a
    string is parsed, anything else is converted to a number, which is
    refused beyond the range of time values and truncated within it. *)
Definition new_Date (v : option jsval) : number :=
  match v with
  | None => NaN
  | Some JNull => Num 0
  | Some (JBool b) => Num (if b then 1 else 0)
  | Some (JNum q) =>
      if Qle_bool (Qabs q) (inject_Z ES.maxTime) then Num (trunc q) else NaN
  | Some (JStr s) => Date_parse s
  end.

(** What [d.toDateString()] shows: ["Invalid Date"], or the weekday, month,
    day of the month and year of [d] in local time.  The text determines
    these four and is determined by them. *)
Inductive date_string : Type :=
  | InvalidDate
  | DateString (weekday month date year : Z).

#[global] Instance date_string_eq_dec : EqDecision date_string.
Proof. solve_decision. Defined.

Definition toDateString (d : number) : date_string :=
  match d with
  | NaN => InvalidDate
  | Num tv =>
      let t := LocalTime tv in
      DateString (ES.WeekDay t) (ES.MonthFromTime t) (ES.DateFromTime t)
                 (ES.YearFromTime t)
  end.

(** [d.toISOString()] for a valid [d]. *)
Definition toISOString (t : Z) : string :=
  let y := ES.YearFromTime t in
  let tod := ES.TimeWithinDay t in
  let year :=
    if (0 <=? y) && (y <=? 9999) then pad0 4 y
    else String (if y <? 0 then "-"%char else "+"%char) (pad0 6 (Z.abs y)) in
  year ++ "-" ++ pad0 2 (ES.MonthFromTime t + 1)
       ++ "-" ++ pad0 2 (ES.DateFromTime t)
       ++ "T" ++ pad0 2 (tod / ES.msPerHour)
       ++ ":" ++ pad0 2 (tod mod ES.msPerHour / ES.msPerMinute)
       ++ ":" ++ pad0 2 (tod mod ES.msPerMinute / ES.msPerSecond)
       ++ "." ++ pad0 3 (tod mod ES.msPerSecond) ++ "Z".

End DateObjects.

(** ** Array.prototype.sort *)

Section Sort.
Context {A : Type} (comparefn : A -> A -> number).

(** A comparator result that is [NaN] counts as [+0]. *)
Definition SortCompare (x y : A) : Z :=
  match comparefn x y with
  | NaN => 0
  | Num v => v
  end.

Fixpoint sort_insert (x : A) (l : list A) : list A :=
  match l with
  | [] => [x]
  | y :: l' =>
      if SortCompare x y <=? 0 then x :: y :: l' else y :: sort_insert x l'
  end.

(** The sort is stable.  With a comparator that orders the elements
    consistently every stable sort returns this list; with one that does not
    (an Invalid Date among the entries) the order is left to the
    implementation and this is one admissible outcome. *)
Definition Array_sort (l : list A) : list A := foldr sort_insert [] l.

End Sort.

(** [l.findIndex(p)]: [None] is [-1]. *)
Definition findIndex {A : Type} (P : A -> Prop) `{forall x, Decision (P x)}
    (l : list A) : option nat :=
  fst <$> list_find P l.

(** [v === id] for a string [id]. *)
Definition strict_eq_str (v : option jsval) (id : string) : Prop :=
  v = Some (JStr id).

#[global] Instance Q_eq_dec : EqDecision Q.
Proof. solve_decision. Defined.

#[global] Instance jsval_eq_dec : EqDecision jsval.
Proof. solve_decision. Defined.

#[global] Instance strict_eq_str_dec v id : Decision (strict_eq_str v id).
Proof. unfold strict_eq_str. apply _. Defined.

(** ** parseInt *)

(** The white space and line terminators that [parseInt] skips, among the
    code units below 256: TAB, LF, VT, FF, CR, the space and the no-break
    space. *)
Definition is_white (c : ascii) : bool :=
  let n := nat_of_ascii c in
  ((9 <=? n) && (n <=? 13) || (n =? 32) || (n =? 160))%nat.

Fixpoint skip_white (s : string) : string :=
  match s with
  | String c s' => if is_white c then skip_white s' else s
  | EmptyString => s
  end.

(** Value of a digit in a radix up to 36, if [c] is one. *)
Definition digit_value (c : ascii) : option Z :=
  let n := Z.of_nat (nat_of_ascii c) in
  if (48 <=? n) && (n <=? 57) then Some (n - 48)
  else if (97 <=? n) && (n <=? 122) then Some (n - 87)
  else if (65 <=? n) && (n <=? 90) then Some (n - 55)
  else None.

(** The longest prefix of [s] made of digits of radix [r], read as a number
    on top of [acc]; [seen] tells whether a digit was read. *)
Fixpoint read_digits (r : Z) (s : string) (seen : bool) (acc : Z) : number :=
  match s with
  | String c s' =>
      match digit_value c with
      | Some d =>
          if d <? r then read_digits r s' true (acc * r + d)
          else if seen then Num acc else NaN
      | None => if seen then Num acc else NaN
      end
  | EmptyString => if seen then Num acc else NaN
  end.

Definition num_neg (x : number) : number :=
  match x with
  | NaN => NaN
  | Num z => Num (- z)
  end.

(** [parseInt(s)] with no radix: white space, a sign, an optional [0x] or
    [0X], then digits. *)
Definition parseInt_string (s : string) : number :=
  let s := skip_white s in
  let '(neg, s) :=
    match s with
    | String "-" s' => (true, s')
    | String "+" s' => (false, s')
    | _ => (false, s)
    end in
  let '(r, s) :=
    match s with
    | String "0" (String "x" s') => (16, s')
    | String "0" (String "X" s') => (16, s')
    | _ => (10, s)
    end in
  let v := read_digits r s false 0 in
  if neg then num_neg v else v.

Fixpoint leading_digit_big (fuel : nat) (n : Z) : Z :=
  match fuel with
  | O => n
  | S f => if n <? 10 then n else leading_digit_big f (n / 10)
  end.

Fixpoint leading_digit_small (fuel : nat) (a b : Z) : Z :=
  match fuel with
  | O => 0
  | S f => if b <=? a then a / b else leading_digit_small f (a * 10) b
  end.

(** [parseInt(q)] is [parseInt(String(q))].  From [1e-6] up to [1e21] the
    text is positional and the digits before the point are read: [q]
    truncated.  Outside, the text is in exponent notation and only its
    first digit, the leading digit of [q], is read. *)
Definition parseInt_number (q : Q) : number :=
  let a := Z.abs (Qnum q) in
  let b := Z.pos (Qden q) in
  let sign := Z.sgn (Qnum q) in
  if a =? 0 then Num 0
  else if a * 10 ^ 6 <? b then
    Num (sign * leading_digit_small (S (Z.to_nat (Z.log2 b))) a b)
  else if 10 ^ 21 * b <=? a then
    Num (sign * leading_digit_big (Z.to_nat (Z.log2 (a / b))) (a / b))
  else Num (Z.quot (Qnum q) b).

(** [parseInt(v)] for a stored property; [undefined], [null] and the
    booleans read as text without digits. *)
Definition parseInt (v : option jsval) : number :=
  match v with
  | Some (JStr s) => parseInt_string s
  | Some (JNum q) => parseInt_number q
  | _ => NaN
  end.

(** ** js/utils.js *)

Module Utils.
Section Utils.
Context `{Platform}.

(** [getWeekStart(date)]; [new Date(date)] copies the time value of a
    [Date] argument. *)
Definition getWeekStart (date : number) : number :=
  let d := date in
  let day := getDay d in
  let diff :=
    num_add (num_sub (getDate d) day)
            (if num_strict_eq day (Num 0) then Num (-6) else Num 1) in
  setDate d diff.

Definition getWeekEnd (date : number) : number :=
  let start := getWeekStart date in
  let end_ := start in
  setDate end_ (num_add (getDate end_) (Num 6)).

Definition addDays (date : number) (days : Z) : number :=
  let d := date in
  setDate d (num_add (getDate d) (Num days)).

Definition getMonthStart (date : number) : number :=
  let d := date in
  new_Date_ymd (getFullYear d) (getMonth d) (Num 1).

Definition getMonthEnd (date : number) : number :=
  let d := date in
  new_Date_ymd (getFullYear d) (num_add (getMonth d) (Num 1)) (Num 0).

(** [Math.ceil(a / b)] for integers [a] and [b > 0]. *)
Definition ceil_div (a b : Z) : Z := - ((- a) / b).

(** The difference and the quotient are those of the integers: what the
    code computes when the two dates are at most 2^53 milliseconds apart.
    Beyond, the difference is rounded to binary64 before it is divided. *)
Definition getDaysBetween (start end_ : number) : number :=
  match num_sub end_ start with
  | NaN => NaN
  | Num diff =>
      let diffTime := Z.abs diff in
      Num (ceil_div diffTime (1000 * 60 * 60 * 24) + 1)
  end.

(** [s.split('T')[0]]: the text before the first [T]. *)
Fixpoint split_T_0 (s : string) : string :=
  match s with
  | EmptyString => EmptyString
  | String c s' =>
      if Ascii.eqb c "T" then EmptyString else String c (split_T_0 s')
  end.

(** [formatDateForInput(date)], which is also [formatDate(date, 'iso')];
    [None] when [toISOString] throws a [RangeError] on the Invalid Date. *)
Definition formatDateForInput (date : number) : option string :=
  match date with
  | NaN => None
  | Num t => Some (split_T_0 (toISOString t))
  end.

(** [getToday()], [now] being the clock reading of [new Date()]. *)
Definition getToday (now : Z) : string := split_T_0 (toISOString now).

End Utils.

(** The total with the additions of the integers: what the code computes as
    long as the calories and their running sum stay within 2^53.
    [Binary64.calculateTotalCalories] is the total on every input. *)
Definition calculateTotalCalories (entries : list obj) : number :=
  fold_left
    (fun sum (e : obj) => num_add sum (or_zero (parseInt (e !! "calories"))))
    entries (Num 0).

End Utils.

(** ** Numbers in binary64 *)

Module Binary64.

(** A number whose value is an integer, as the code holds it: [NaN], an
    infinity, or an integer that binary64 represents. *)
Inductive float : Type :=
  | NaN
  | Infinity (negative : bool)
  | Int (z : Z).

(** The number for the integer [x]: [x] itself up to 53 bits; beyond, [x]
    rounded to 53 significant bits, to the nearest and on a tie to the even
    one, and an infinity when that reaches 2^1024. *)
Definition of_Z (x : Z) : float :=
  let a := Z.abs x in
  let e := Z.log2 a - 52 in
  if e <=? 0 then Int x
  else
    let ulp := 2 ^ e in
    let q := a / ulp in
    let r := a mod ulp in
    let up := (ulp <? 2 * r) || ((2 * r =? ulp) && Z.odd q) in
    let m := (if up then q + 1 else q) * ulp in
    if 2 ^ 1024 <=? m then Infinity (x <? 0) else Int (Z.sgn x * m).

(** [a + b]: the exact sum, rounded; opposite infinities give [NaN]. *)
Definition add (a b : float) : float :=
  match a, b with
  | Int x, Int y => of_Z (x + y)
  | Infinity s, Int _ => Infinity s
  | Int _, Infinity s => Infinity s
  | Infinity s, Infinity s' => if Bool.eqb s s' then Infinity s else NaN
  | _, _ => NaN
  end.

(** [x || 0]: [NaN] and [0] are falsy, an infinity is not. *)
Definition or_zero (x : float) : float :=
  match x with
  | NaN => Int 0
  | Infinity s => Infinity s
  | Int z => if z =? 0 then Int 0 else Int z
  end.

(** [parseInt(v)]: the number for the integer that the digits denote, the
    nearest one when the integer has more than 53 bits. *)
Definition parseInt (v : option jsval) : float :=
  match parseInt v with
  | Num z => of_Z z
  | _ => NaN
  end.

Definition calculateTotalCalories (entries : list obj) : float :=
  fold_left
    (fun sum (e : obj) => add sum (or_zero (parseInt (e !! "calories"))))
    entries (Int 0).

End Binary64.

(** ** js/storage.js *)

Module Storage.

Module KEYS.
Definition FOOD_ENTRIES : string := "calorieflow_food_entries".
Definition WEIGHT_ENTRIES : string := "calorieflow_weight_entries".
Definition RECIPES : string := "calorieflow_recipes".
Definition SETTINGS : string := "calorieflow_settings".
End KEYS.

Section Storage.
Context `{Platform}.

(** [get(key)]: the parsed value, [None] for [null].  Text that was not
    written by [set] does not parse as JSON: the error is caught and the
    result is [null]. *)
Definition get (ls : localStorage) (key : string) : option stored :=
  match ls !! key with
  | Some (SText _) => None
  | data => data
  end.

(** [set(key, value)]: the store afterwards and the boolean returned; a
    refused write is caught and leaves the store as it was. *)
Definition set (ls : localStorage) (key : string) (value : stored)
    : localStorage * bool :=
  match localStorage_setItem ls key value with
  | Some ls' => (ls', true)
  | None => (ls, false)
  end.

(** [get(key) || []] for a key that holds an array. *)
Definition get_array (ls : localStorage) (key : string) : list obj :=
  match get ls key with
  | Some (SArray l) => l
  | _ => []
  end.

Definition getFoodEntries (ls : localStorage) : list obj :=
  get_array ls KEYS.FOOD_ENTRIES.

(** The operations that read the clock take [now], the value of
    [Date.now()]; they return the store afterwards and the value returned. *)
Definition saveFoodEntry (ls : localStorage) (now : Z) (entry : obj)
    : localStorage * obj :=
  let entries := getFoodEntries ls in
  let entry := <["id" := JStr (Number_toString now)]> entry in
  let entry := <["createdAt" := JStr (toISOString now)]> entry in
  let entries := entries ++ [entry] in
  let ls := fst (set ls KEYS.FOOD_ENTRIES (SArray entries)) in
  (ls, entry).

(** [None] is the [null] returned when no record has the id. *)
Definition updateFoodEntry (ls : localStorage) (id : string) (updates : obj)
    : localStorage * option obj :=
  let entries := getFoodEntries ls in
  match findIndex (fun e : obj => strict_eq_str (e !! "id") id) entries with
  | Some index =>
      let entries :=
        alter (fun e => spread e updates) index entries in
      let ls := fst (set ls KEYS.FOOD_ENTRIES (SArray entries)) in
      (ls, entries !! index)
  | None => (ls, None)
  end.

Definition deleteFoodEntry (ls : localStorage) (id : string)
    : localStorage * bool :=
  let entries := getFoodEntries ls in
  let filtered :=
    filter (fun e : obj => ~ strict_eq_str (e !! "id") id) entries in
  let ls := fst (set ls KEYS.FOOD_ENTRIES (SArray filtered)) in
  (ls, true).

Definition getFoodEntriesByDate (ls : localStorage) (date : number)
    : list obj :=
  let entries := getFoodEntries ls in
  let targetDate := toDateString date in
  filter (fun e : obj => toDateString (new_Date (e !! "date")) = targetDate)
         entries.

Definition getFoodEntriesByDateRange (ls : localStorage)
    (startDate endDate : number) : list obj :=
  let entries := getFoodEntries ls in
  let start := setHours startDate 0 0 0 0 in
  let end_ := setHours endDate 23 59 59 999 in
  filter (fun e : obj =>
            let entryDate := new_Date (e !! "date") in
            num_ge entryDate start && num_le entryDate end_)
         entries.

Definition getWeightEntries (ls : localStorage) : list obj :=
  get_array ls KEYS.WEIGHT_ENTRIES.

Definition saveWeightEntry (ls : localStorage) (now : Z) (entry : obj)
    : localStorage * obj :=
  let entries := getWeightEntries ls in
  let entry := <["id" := JStr (Number_toString now)]> entry in
  let entry := <["createdAt" := JStr (toISOString now)]> entry in
  let existingIndex :=
    findIndex (fun e : obj =>
                 toDateString (new_Date (e !! "date"))
                 = toDateString (new_Date (entry !! "date")))
              entries in
  let entries :=
    match existingIndex with
    | Some i => alter (fun e => spread e entry) i entries
    | None => entries ++ [entry]
    end in
  let entries :=
    Array_sort (fun a b : obj =>
                  num_sub (new_Date (a !! "date")) (new_Date (b !! "date")))
               entries in
  let ls := fst (set ls KEYS.WEIGHT_ENTRIES (SArray entries)) in
  (ls, entry).

Definition deleteWeightEntry (ls : localStorage) (id : string)
    : localStorage * bool :=
  let entries := getWeightEntries ls in
  let filtered :=
    filter (fun e : obj => ~ strict_eq_str (e !! "id") id) entries in
  let ls := fst (set ls KEYS.WEIGHT_ENTRIES (SArray filtered)) in
  (ls, true).

(** [None] is [null]. *)
Definition getLatestWeight (ls : localStorage) : option obj :=
  let entries := getWeightEntries ls in
  if bool_decide (length entries = 0%nat) then None
  else entries !! (length entries - 1)%nat.

Definition getRecipes (ls : localStorage) : list obj :=
  get_array ls KEYS.RECIPES.

Definition saveRecipe (ls : localStorage) (now : Z) (recipe : obj)
    : localStorage * obj :=
  let recipes := getRecipes ls in
  let recipe := <["id" := JStr (Number_toString now)]> recipe in
  let recipe := <["createdAt" := JStr (toISOString now)]> recipe in
  let recipes := recipes ++ [recipe] in
  let ls := fst (set ls KEYS.RECIPES (SArray recipes)) in
  (ls, recipe).

Definition updateRecipe (ls : localStorage) (id : string) (updates : obj)
    : localStorage * option obj :=
  let recipes := getRecipes ls in
  match findIndex (fun r : obj => strict_eq_str (r !! "id") id) recipes with
  | Some index =>
      let recipes :=
        alter (fun r => spread r updates) index recipes in
      let ls := fst (set ls KEYS.RECIPES (SArray recipes)) in
      (ls, recipes !! index)
  | None => (ls, None)
  end.

Definition deleteRecipe (ls : localStorage) (id : string)
    : localStorage * bool :=
  let recipes := getRecipes ls in
  let filtered :=
    filter (fun r : obj => ~ strict_eq_str (r !! "id") id) recipes in
  let ls := fst (set ls KEYS.RECIPES (SArray filtered)) in
  (ls, true).

(** [None] is [undefined]. *)
Definition getRecipeById (ls : localStorage) (id : string) : option obj :=
  let recipes := getRecipes ls in
  snd <$> list_find (fun r : obj => strict_eq_str (r !! "id") id) recipes.

Definition defaultSettings : obj :=
  {[ "calorieGoal" := JNum 2000; "weightUnit" := JStr "kg" ]}.

Definition getSettings (ls : localStorage) : obj :=
  match get ls KEYS.SETTINGS with
  | Some (SObject o) => o
  | _ => defaultSettings
  end.

Definition saveSettings (ls : localStorage) (settings : obj) : localStorage :=
  let current := getSettings ls in
  fst (set ls KEYS.SETTINGS (SObject (spread current settings))).

End Storage.
End Storage.

(** ** js/auth.js *)

Module Auth.

Definition STORAGE_KEY : string := "calorieflow_pin_hash".

(** [ToInt32]: wrap to a signed 32-bit integer. *)
Definition ToInt32 (z : Z) : Z := (z + 2 ^ 31) mod 2 ^ 32 - 2 ^ 31.

(** One round of the loop of [hashPin], [char] being [pin.charCodeAt(i)]. *)
Definition hashStep (hash char : Z) : Z :=
  let hash := ToInt32 (Z.shiftl (ToInt32 hash) 5) - hash + char in
  Z.land (ToInt32 hash) (ToInt32 hash).

(** A PIN is a string of code units below 256. *)
Definition charCodes (pin : string) : list Z :=
  (fun c => Z.of_nat (nat_of_ascii c)) <$> list_ascii_of_string pin.

Definition hashPin (pin : string) : string :=
  let hash := fold_left hashStep (charCodes pin) 0 in
  "cf_" ++ to_radix 36 (Z.abs hash) ++ "_"
        ++ Number_toString (Z.of_nat (String.length pin)).

(** The object returned by [setPin]. *)
Record pin_result : Type := { success : bool; error : option string }.

(** How a call ends: it returns a value or an exception escapes it. *)
Inductive completion (A : Type) : Type :=
  | Return (a : A)
  | Throw.
Arguments Return {A} a.
Arguments Throw {A}.

Section Auth.
Context `{Platform}.

Definition isPinSet (ls : localStorage) : bool :=
  bool_decide (is_Some (ls !! STORAGE_KEY)).

Definition setPin (ls : localStorage) (pin : string)
    : localStorage * completion pin_result :=
  if (String.length pin <? 4)%nat then
    (ls, Return {| success := false;
                   error := Some "PIN must be at least 4 characters"%string |})
  else
    let hash := hashPin pin in
    match localStorage_setItem ls STORAGE_KEY (SText hash) with
    | Some ls' => (ls', Return {| success := true; error := None |})
    | None => (ls, Throw)
    end.

Definition verifyPin (ls : localStorage) (pin : string) : bool :=
  match ls !! STORAGE_KEY with
  | Some (SText storedHash) =>
      if bool_decide (storedHash = ""%string) then false
      else bool_decide (hashPin pin = storedHash)
  | _ => false
  end.

(** [sessionStorage]: key to text.  [removeItem] and [getItem] never
    throw. *)
Definition SESSION_KEY : string := "calorieflow_authenticated".

Definition isAuthenticated (ss : gmap string string) : bool :=
  bool_decide (ss !! SESSION_KEY = Some "true"%string).

Definition logout (ss : gmap string string) : gmap string string :=
  delete SESSION_KEY ss.

Definition resetPin (ls : localStorage) (ss : gmap string string)
    : localStorage * gmap string string :=
  let ls := delete STORAGE_KEY ls in
  (ls, logout ss).

End Auth.
End Auth.

(** ** App.updateAnalytics: the monthly series *)

Module App.
Section App.
Context `{Platform}.




Definition weekDays (now1 now3 : Z) : number :=
  let weekStart := Utils.getWeekStart (Num now1) in
  Utils.getDaysBetween weekStart (Num now3).




(** The submit handler of the recipe form, with what it reads from the
    page: the hidden id, the four text fields and the image, [None] when no
    file was chosen, else its data URL. *)
Definition recipeFormSubmit (ls : localStorage) (now : Z)
    (id name calories ingredients instructions : string)
    (image : option string) : localStorage :=
  let image := match image with Some url => JStr url | None => JNull end in
  let recipe : obj :=
    {[ "name" := JStr name; "calories" := JStr calories;
       "ingredients" := JStr ingredients;
       "instructions" := JStr instructions; "image" := image ]} in
  if bool_decide (id = EmptyString) then fst (Storage.saveRecipe ls now recipe)
  else fst (Storage.updateRecipe ls id recipe).

(** The two handlers of the day buttons of the food log, on
    [currentLogDate]: [None] when [formatDateForInput] throws. *)
Definition prevDay (currentLogDate : string) : option string :=
  let d := Utils.addDays (new_Date (Some (JStr currentLogDate))) (-1) in
  Utils.formatDateForInput d.

Definition nextDay (currentLogDate : string) : option string :=
  let d := Utils.addDays (new_Date (Some (JStr currentLogDate))) 1 in
  Utils.formatDateForInput d.

End App.
End App.


(** ** A concrete platform, for the scenarios *)

(** The date-only form [YYYY-MM-DD] of the ISO grammar of [Date.parse], the
    form in which the application stores a date ([Utils.getToday], the value
    of a date input): midnight UTC of that day.  Any other text is taken as
    not a date. *)
Definition iso_date_parse (s : string) : number :=
  match list_ascii_of_string s with
  | [y1; y2; y3; y4; "-"%char; m1; m2; "-"%char; d1; d2] =>
      match (fun c => d ← digit_value c; guard (d < 10);; Some d)
              <$> [y1; y2; y3; y4; m1; m2; d1; d2] with
      | [Some a; Some b; Some c; Some d; Some e; Some f; Some g; Some h] =>
          let y := 1000 * a + 100 * b + 10 * c + d in
          let m := 10 * e + f in
          let dd := 10 * g + h in
          let first := ES.MakeDay y (m - 1) 1 in
          let next := ES.MakeDay y m 1 in
          if (1 <=? m) && (m <=? 12) && (1 <=? dd) && (dd <=? next - first)
          then Num (ES.MakeDate (first + dd - 1) 0)
          else NaN
      | _ => NaN
      end
  | _ => NaN
  end.

(** A browser whose local time is UTC and whose store takes every write. *)
Definition utc_browser : Platform :=
  {| LocalTZA := 0;
     Date_parse := iso_date_parse;
     setItem_fits := fun _ _ _ => true |}.

(** The same browser five hours west of Greenwich. *)
Definition western_browser : Platform :=
  {| LocalTZA := -18000000;
     Date_parse := iso_date_parse;
     setItem_fits := fun _ _ _ => true |}.

(** * Vocabulary of the properties *)

Section Vocabulary.
Context `{Platform}.
Import ES Storage.

(** The calories an entry counts for, in the words of the claim:
    [parseInt] of its [calories] property, and 0 when that is not a number. *)
Definition calories_or_zero (e : obj) : Z :=
  match parseInt (e !! "calories") with
  | NaN => 0
  | Num z => z
  end.

Definition sum_calories (entries : list obj) : Z :=
  foldr (fun e acc => calories_or_zero e + acc) 0 entries.

(** The term that the total adds for an entry, as the code holds it. *)
Definition calories_term (e : obj) : Binary64.float :=
  Binary64.or_zero (Binary64.parseInt (e !! "calories")).

(** The magnitudes of the calories of the entries, added up. *)
Definition sum_magnitudes (entries : list obj) : Z :=
  foldr (fun e acc => Z.abs (calories_or_zero e) + acc) 0 entries.

(** No record of [l] has the id. *)
Definition no_id (id : string) (l : list obj) : Prop :=
  Forall (fun e : obj => e !! "id" <> Some (JStr id)) l.

(** [e], at index [i], is the first record of [l] with the id. *)
Definition first_with_id (id : string) (l : list obj) (i : nat) (e : obj)
    : Prop :=
  l !! i = Some e /\ e !! "id" = Some (JStr id)
  /\ forall j e', l !! j = Some e' -> (j < i)%nat -> e' !! "id" <> Some (JStr id).

(** The shape shared by the three deletions. *)
Definition delete_in (key : string) (ls : localStorage) (id : string)
    : localStorage * bool :=
  let filtered :=
    filter (fun e : obj => ~ strict_eq_str (e !! "id") id) (get_array ls key) in
  (fst (set ls key (SArray filtered)), true).

(** The shape shared by the two updates. *)
Definition update_in (key : string) (ls : localStorage) (id : string)
    (updates : obj) : localStorage * option obj :=
  let entries := get_array ls key in
  match findIndex (fun e : obj => strict_eq_str (e !! "id") id) entries with
  | Some index =>
      let entries := alter (fun e => spread e updates) index entries in
      (fst (set ls key (SArray entries)), entries !! index)
  | None => (ls, None)
  end.

(** What an update of the first record [e] with the id, at index [i],
    returns and leaves in the store. *)
Definition update_found (key : string) (ls : localStorage) (id : string)
    (updates : obj) (i : nat) (e : obj) : Prop :=
  let merged := spread e updates in
  let entries' := <[i := merged]> (get_array ls key) in
  let ls' := fst (update_in key ls id updates) in
  snd (update_in key ls id updates) = Some merged
  /\ (forall k, merged !! k
                = match updates !! k with Some v => Some v | None => e !! k end)
  /\ (setItem_fits ls key (SArray entries') = true ->
         get_array ls' key = entries')
  /\ (setItem_fits ls key (SArray entries') = false -> ls' = ls).

(** [new Date(e.date)], its calendar day, and the comparator of the sort. *)
Definition dateOf (e : obj) : number := new_Date (e !! "date").
Definition dayOf (e : obj) : date_string := toDateString (dateOf e).
Definition by_date (a b : obj) : number := num_sub (dateOf a) (dateOf b).

(** The entry as [saveWeightEntry] stores it: with its id and timestamp. *)
Definition stamped (now : Z) (entry : obj) : obj :=
  <["createdAt" := JStr (toISOString now)]>
    (<["id" := JStr (Number_toString now)]> entry).

(** The collection after the merge or the push, before the sort. *)
Definition upsert (entries : list obj) (entry : obj) : list obj :=
  match findIndex (fun e : obj => dayOf e = dayOf entry) entries with
  | Some i => alter (fun e => spread e entry) i entries
  | None => entries ++ [entry]
  end.

Definition unique_days (l : list obj) : Prop := NoDup (dayOf <$> l).

(** A run of saves: each with the clock reading at its time. *)
Definition save_all (ls : localStorage) (saves : list (Z * obj))
    : localStorage :=
  foldl (fun ls s => fst (saveWeightEntry ls s.1 s.2)) ls saves.

(** A write to the weight collection. *)
Inductive weight_write : Type :=
  | SaveWeight (now : Z) (entry : obj)
  | DeleteWeight (id : string).

Definition apply_write (ls : localStorage) (w : weight_write) : localStorage :=
  match w with
  | SaveWeight now entry => fst (saveWeightEntry ls now entry)
  | DeleteWeight id => fst (deleteWeightEntry ls id)
  end.

(** The entry has a date: its [date] property denotes one. *)
Definition dated (e : obj) : Prop := dateOf e <> NaN.

Definition dated_write (w : weight_write) : Prop :=
  match w with
  | SaveWeight _ entry => dated entry
  | DeleteWeight _ => True
  end.

(** [a] is dated no later than [b]. *)
Definition date_le (a b : obj) : Prop :=
  match dateOf a, dateOf b with
  | Num x, Num y => x <= y
  | _, _ => False
  end.

(** Every entry has a date and the dates never decrease along the list. *)
Definition sorted_by_date (l : list obj) : Prop :=
  Forall dated l /\ StronglySorted date_le l.

(** The order as the claim has it for any write, read on the entries that
    have a date: along the list no date is later than one that follows it,
    and none is later than that of the entry [getLatestWeight] returns. *)
Definition in_date_order (l : list obj) : Prop :=
  forall i j a b ta tb,
    (i < j)%nat -> l !! i = Some a -> l !! j = Some b ->
    dateOf a = Num ta -> dateOf b = Num tb -> ta <= tb.

Definition latest_is_last (ls : localStorage) : Prop :=
  forall latest e tl te,
    getLatestWeight ls = Some latest -> e ∈ getWeightEntries ls ->
    dateOf latest = Num tl -> dateOf e = Num te -> te <= tl.

Definition weights_in_date_order (ls : localStorage) : Prop :=
  in_date_order (getWeightEntries ls) /\ latest_is_last ls.

Definition time_of (e : obj) : Z :=
  match dateOf e with
  | Num t => t
  | NaN => 0
  end.

(** [d] is a date from [s0] to [e0], both included. *)
Definition within (s0 e0 : Z) (d : number) : bool :=
  match d with
  | Num t => (s0 <=? t) && (t <=? e0)
  | NaN => false
  end.

(** Local midnight of the day of [t], and the last millisecond of that
    day, as time values. *)
Definition startOfDay (t : Z) : Z := t - TimeWithinDay (LocalTime t).
Definition endOfDay (t : Z) : Z := startOfDay t + (msPerDay - 1).



End Vocabulary.

(** ** Concrete inputs *)

(** The two saves of the scenario, with the clock readings of 10:00 and
    of 11:00 UTC on 1 January 2024. *)
Definition scenario_saves : list (Z * obj) :=
  [ (1704103200000,
     {[ "date" := JStr "2024-01-01"; "weight" := JNum 70 ]});
    (1704106800000,
     {[ "date" := JStr "2024-01-01"; "weight" := JNum 69.5 ]}) ].

(** Noon UTC on 10 January 2024, and a store holding one entry of 500
    calories dated that day. *)
Definition noon_jan10 : Z := 1704888000000.


(** Saves out of order, a second save for a day and a deletion. *)
Definition sample_writes : list weight_write :=
  [ SaveWeight 1704448800000
      {[ "date" := JStr "2024-01-05"; "weight" := JNum 71 ]};
    SaveWeight 1704452400000
      {[ "date" := JStr "2024-01-01"; "weight" := JNum 70 ]};
    SaveWeight 1704456000000
      {[ "date" := JStr "2024-01-03"; "weight" := JNum 70.5 ]};
    SaveWeight 1704459600000
      {[ "date" := JStr "2024-01-01"; "weight" := JNum 69.5 ]};
    DeleteWeight "1704448800000" ].

Definition sample_foods : localStorage :=
  {[ Storage.KEYS.FOOD_ENTRIES :=
       SArray [ {[ "id" := JStr "1"; "name" := JStr "Egg";
                   "calories" := JNum 70; "date" := JStr "2024-01-10" ]};
                {[ "id" := JStr "2"; "name" := JStr "Toast";
                   "calories" := JNum 120; "date" := JStr "2024-01-10" ]};
                {[ "id" := JStr "3"; "name" := JStr "Soup";
                   "calories" := JNum 200; "date" := JStr "2024-01-09" ]};
                {[ "id" := JStr "4"; "name" := JStr "Rice";
                   "calories" := JNum 300; "date" := JStr "2024-01-12" ]};
                {[ "id" := JStr "5"; "name" := JStr "Cake";
                   "calories" := JNum 400; "date" := JStr "2024-01-13" ]} ] ]}.

Definition toast : obj :=
  {[ "id" := JStr "2"; "name" := JStr "Toast";
     "calories" := JNum 120; "date" := JStr "2024-01-10" ]}.

(** Three saves, the second with text that is no date. *)
Definition unsorting_saves : list weight_write :=
  [ SaveWeight 1704448800000
      {[ "date" := JStr "2024-01-05"; "weight" := JNum 71 ]};
    SaveWeight 1704452400000
      {[ "date" := JStr "kcal"; "weight" := JNum 70.5 ]};
    SaveWeight 1704456000000
      {[ "date" := JStr "2024-01-01"; "weight" := JNum 70 ]} ].

(** ['9'.repeat(400)], and two entries whose calories are that text and
    its negative: integers beyond the range of binary64. *)
Definition nines : string := String.concat "" (repeat "9"%string 400).

Definition opposite_infinities : list obj :=
  [ {[ "name" := JStr "Feast"; "calories" := JStr nines ]};
    {[ "name" := JStr "Fast"; "calories" := JStr ("-" ++ nines) ]} ].

(** * Vocabulary of the further properties *)

Section FurtherVocabulary.
Context `{Platform}.
Import ES.

(** Length of month [m] in a year that is leap ([leap = 1]) or not. *)
Definition daysInMonth (m leap : Z) : Z :=
  match m with
  | 0 | 2 | 4 | 6 | 7 | 9 | 11 => 31
  | 1 => 28 + leap
  | _ => 30
  end.

Definition leapOf (y : Z) : Z := if DaysInYear y =? 366 then 1 else 0.

(** Local midnight of day [d], as a time value. *)
Definition localMidnight (d : Z) : Z := UTC (d * msPerDay).

(** The first and the last day of the local month of [t]. *)
Definition firstDayOfMonth (t : Z) : Z :=
  Day (LocalTime t) - (DateFromTime (LocalTime t) - 1).

Definition lastDayOfMonth (t : Z) : Z :=
  firstDayOfMonth t
  + daysInMonth (MonthFromTime (LocalTime t)) (InLeapYear (LocalTime t)) - 1.

(** [d] is a date on the local day [D]. *)
Definition on_day (D : Z) (d : number) : bool :=
  match d with
  | Num t => Day (LocalTime t) =? D
  | NaN => false
  end.

(** [d] is the Invalid Date. *)
Definition is_NaN (d : number) : bool :=
  match d with
  | NaN => true
  | Num _ => false
  end.

(** Days from the Monday of the week to the local day of [t]. *)
Definition daysSinceMonday (t : Z) : Z :=
  if WeekDay (LocalTime t) =? 0 then 6 else WeekDay (LocalTime t) - 1.





(** The text [YYYY-MM-DD] of a year, a month and a date given by their
    digits. *)
Definition ymd_text (y m d : Z) : string :=
  String (digit_char (y / 1000))
    (String (digit_char (y / 100 mod 10))
      (String (digit_char (y / 10 mod 10))
        (String (digit_char (y mod 10))
          (String "-"
            (String (digit_char (m / 10))
              (String (digit_char (m mod 10))
                (String "-"
                  (String (digit_char (d / 10))
                    (String (digit_char (d mod 10)) EmptyString))))))))).

(** The platform reads the date-only text of the ISO grammar as the
    standard has it. *)
Definition reads_iso_dates : Prop :=
  forall t, 0 <= YearFromTime t <= 9999 ->
            Date_parse (Utils.getToday t) = iso_date_parse (Utils.getToday t).

(** [x] has every property of [e], with the same value. *)
Definition carries (e x : obj) : Prop :=
  forall k v, e !! k = Some v -> x !! k = Some v.

(** The text after the first underscore of [s]. *)
Fixpoint after_underscore (s : string) : string :=
  match s with
  | EmptyString => EmptyString
  | String c s' => if Ascii.eqb c "_" then s' else after_underscore s'
  end.

End FurtherVocabulary.

(** ** Further concrete inputs *)

(** The weight entries stored by the first three sample writes. *)
Definition sample_weights : localStorage :=
  foldl (@apply_write utc_browser) ∅ (take 3 sample_writes).

Definition sample_recipes : localStorage :=
  {[ Storage.KEYS.RECIPES :=
       SArray [ {[ "id" := JStr "11"; "name" := JStr "Soup";
                   "image" := JStr "data:image/png;base64,AAAA" ]};
                {[ "id" := JStr "12"; "name" := JStr "Stew" ]};
                {[ "id" := JStr "11"; "name" := JStr "Pie" ]} ] ]}.

Definition soup : obj :=
  {[ "id" := JStr "11"; "name" := JStr "Soup";
     "image" := JStr "data:image/png;base64,AAAA" ]}.

(** * Properties *)

(** ** Date arithmetic *)

Module ESFacts.
Import ES.

(** The closed form of [DayFromYear] agrees with the lengths of the years,
    and [YearFromTime] is the year the day falls in. *)
Lemma DayFromYear_next y : DayFromYear (y + 1) = DayFromYear y + DaysInYear y.
Proof.
  unfold DayFromYear, DaysInYear.
  destruct (Z.eqb_spec (y mod 4) 0) as [A|A]; cbn [negb];
    [|Z.div_mod_to_equations; lia].
  destruct (Z.eqb_spec (y mod 100) 0) as [B|B]; cbn [negb];
    [|Z.div_mod_to_equations; lia].
  destruct (Z.eqb_spec (y mod 400) 0) as [C|C]; cbn [negb];
    Z.div_mod_to_equations; lia.
Qed.

Lemma year_estimate d :
  let y := 1970 + d * 400 / 146097 in
  DayFromYear (y - 1) <= d < DayFromYear (y + 2).
Proof. intros y. unfold DayFromYear, y. Z.div_mod_to_equations. lia. Qed.

Lemma YearFromTime_spec t :
  DayFromYear (YearFromTime t) <= Day t < DayFromYear (YearFromTime t + 1).
Proof.
  unfold YearFromTime.
  pose proof (year_estimate (Day t)) as Hest. cbv zeta in Hest.
  set (y := 1970 + Day t * 400 / 146097) in *.
  destruct (Z.ltb_spec (Day t) (DayFromYear y)) as [Hlt|Hge].
  - replace (y - 1 + 1) with y by lia. lia.
  - destruct (Z.leb_spec (DayFromYear (y + 1)) (Day t)) as [Hle|Hgt].
    + replace (y + 1 + 1) with (y + 2) by lia. lia.
    + lia.
Qed.

Lemma DaysInYear_cases y : DaysInYear y = 365 \/ DaysInYear y = 366.
Proof.
  unfold DaysInYear.
  repeat match goal with |- context [if ?b then _ else _] => destruct b end;
    auto.
Qed.

Lemma DayWithinYear_range t :
  0 <= DayWithinYear t < DaysInYear (YearFromTime t).
Proof.
  unfold DayWithinYear. pose proof (YearFromTime_spec t) as Hy.
  rewrite DayFromYear_next in Hy. lia.
Qed.

Lemma MonthFromTime_range t : 0 <= MonthFromTime t <= 11.
Proof.
  unfold MonthFromTime.
  repeat match goal with |- context [if ?b then _ else _] => destruct b end;
    lia.
Qed.

(** The day number of a time is recovered from its year, month and date. *)
Lemma MakeDay_DateFromTime t k :
  MakeDay (YearFromTime t) (MonthFromTime t) (DateFromTime t + k) = Day t + k.
Proof.
  pose proof (MonthFromTime_range t) as Hm.
  unfold MakeDay.
  rewrite (Z.div_small (MonthFromTime t) 12), (Z.mod_small (MonthFromTime t) 12)
    by lia.
  rewrite Z.add_0_r.
  fold (InLeapYear t).
  unfold DateFromTime, DayWithinYear. lia.
Qed.

Lemma DateFromTime_range t : 1 <= DateFromTime t <= 31.
Proof.
  pose proof (DayWithinYear_range t) as Hd.
  unfold DateFromTime, MonthFromTime, InLeapYear in *.
  destruct (DaysInYear_cases (YearFromTime t)) as [E|E]; rewrite E in *;
    cbn [Z.eqb Pos.eqb] in *;
    repeat match goal with
           | |- context [if ?a <? ?b then _ else _] =>
               destruct (Z.ltb_spec a b)
           end; cbn [monthStartDay]; lia.
Qed.

Lemma MakeDate_shift t k :
  MakeDate (Day t + k) (TimeWithinDay t) = t + k * msPerDay.
Proof.
  unfold MakeDate, Day, TimeWithinDay.
  pose proof (Z.div_mod t msPerDay) as Hdm.
  unfold msPerDay in *. lia.
Qed.

Lemma Day_shift t k : Day (t + k * msPerDay) = Day t + k.
Proof. unfold Day. apply Z.div_add. unfold msPerDay. lia. Qed.

Lemma TimeWithinDay_shift t k :
  TimeWithinDay (t + k * msPerDay) = TimeWithinDay t.
Proof. unfold TimeWithinDay. apply Z.mod_add. unfold msPerDay. lia. Qed.

Lemma WeekDay_shift t k : WeekDay (t + k * msPerDay) = (WeekDay t + k) mod 7.
Proof.
  unfold WeekDay. rewrite Day_shift, Zplus_mod_idemp_l. f_equal. lia.
Qed.

Lemma WeekDay_range t : 0 <= WeekDay t < 7.
Proof. unfold WeekDay. apply Z.mod_pos_bound. lia. Qed.

Lemma TimeWithinDay_range t : 0 <= TimeWithinDay t < msPerDay.
Proof. unfold TimeWithinDay. apply Z.mod_pos_bound. unfold msPerDay. lia. Qed.

(** A time is its day and its time within the day. *)
Lemma Day_TimeWithinDay t : t = Day t * msPerDay + TimeWithinDay t.
Proof.
  unfold Day, TimeWithinDay. pose proof (Z.div_mod t msPerDay).
  unfold msPerDay in *. lia.
Qed.

Lemma TimeClip_Num t s : TimeClip t = Num s -> s = t /\ Z.abs t <= maxTime.
Proof.
  unfold TimeClip. destruct (Z.leb_spec (Z.abs t) maxTime); intros [=]; auto.
Qed.

End ESFacts.

Section DateFacts.
Context `{Platform}.
Import ES ESFacts.

Lemma LocalTime_shift t k : LocalTime (t + k) = LocalTime t + k.
Proof. unfold LocalTime. lia. Qed.

(** [d.setDate(d.getDate() + k)] moves [d] by [k] days. *)
Lemma setDate_getDate t k :
  setDate (Num t) (num_add (getDate (Num t)) (Num k))
  = TimeClip (t + k * msPerDay).
Proof.
  unfold setDate, getDate, num_add.
  rewrite MakeDay_DateFromTime, MakeDate_shift.
  unfold UTC, LocalTime. f_equal. lia.
Qed.

Lemma addDays_Num t k : Utils.addDays (Num t) k = TimeClip (t + k * msPerDay).
Proof. apply setDate_getDate. Qed.

(** [setHours] keeps the local day and sets the time within it. *)
Lemma setHours_Num t h m s ms :
  setHours (Num t) h m s ms
  = TimeClip (t - TimeWithinDay (LocalTime t) + MakeTime h m s ms).
Proof.
  unfold setHours, UTC, MakeDate. f_equal.
  pose proof (Day_TimeWithinDay (LocalTime t)) as E.
  unfold LocalTime in *. lia.
Qed.

End DateFacts.

(** ** Week boundaries *)

Section WeekFacts.
Context `{Platform}.
Import ES ESFacts.

Lemma getWeekStart_Num t :
  Utils.getWeekStart (Num t)
  = TimeClip (t - (if WeekDay (LocalTime t) =? 0 then 6
                   else WeekDay (LocalTime t) - 1) * msPerDay).
Proof.
  unfold Utils.getWeekStart.
  set (wd := WeekDay (LocalTime t)).
  replace (num_add (num_sub (getDate (Num t)) (getDay (Num t)))
             (if num_strict_eq (getDay (Num t)) (Num 0) then Num (-6) else Num 1))
    with (num_add (getDate (Num t))
                  (Num (- (if wd =? 0 then 6 else wd - 1)))).
  - rewrite setDate_getDate. f_equal. destruct (wd =? 0); lia.
  - cbn. fold wd. destruct (Z.eqb_spec wd 0); cbn; f_equal; lia.
Qed.

Lemma getWeekEnd_Num t :
  Utils.getWeekEnd (Num t)
  = match Utils.getWeekStart (Num t) with
    | Num s => TimeClip (s + 6 * msPerDay)
    | NaN => NaN
    end.
Proof.
  unfold Utils.getWeekEnd.
  destruct (Utils.getWeekStart (Num t)) as [|s]; [reflexivity|].
  apply setDate_getDate.
Qed.

(** C7: [getWeekStart d] is [d] moved back by 6 days when [d] falls on a
    Sunday and by (weekday - 1) days otherwise, the time of day kept; when
    that is a date, it falls on a Monday, at most 6 days before [d]; and
    [getWeekEnd d] is [getWeekStart d] moved forward by 6 days. *)
Theorem C7_week_start_is_monday_week_end_six_days_later (t : Z) :
  let wd := WeekDay (LocalTime t) in
  let back := if wd =? 0 then 6 else wd - 1 in
  Utils.getWeekStart (Num t) = TimeClip (t - back * msPerDay)
  /\ match Utils.getWeekStart (Num t) with
     | Num s =>
         WeekDay (LocalTime s) = 1
         /\ Day (LocalTime s) = Day (LocalTime t) - back
         /\ 0 <= back <= 6
         /\ TimeWithinDay (LocalTime s) = TimeWithinDay (LocalTime t)
         /\ Utils.getWeekEnd (Num t) = TimeClip (s + 6 * msPerDay)
     | NaN => Utils.getWeekEnd (Num t) = NaN
     end.
Proof.
  intros wd back.
  pose proof (getWeekStart_Num t) as Hs. fold wd back in Hs.
  split; [exact Hs|].
  pose proof (getWeekEnd_Num t) as He.
  destruct (Utils.getWeekStart (Num t)) as [|s]; [exact He|].
  symmetry in Hs. apply TimeClip_Num in Hs as [-> _].
  pose proof (WeekDay_range (LocalTime t)) as Hwd. fold wd in Hwd.
  replace (LocalTime (t - back * msPerDay))
    with (LocalTime t + (- back) * msPerDay) by (unfold LocalTime; lia).
  rewrite WeekDay_shift, Day_shift, TimeWithinDay_shift. fold wd.
  assert (Hb : 0 <= back <= 6 /\ (wd + - back) mod 7 = 1).
  { subst back. destruct (Z.eqb_spec wd 0) as [E|Hne];
      [rewrite E; split; [lia|reflexivity]|].
    split; [lia|]. replace (wd + - (wd - 1)) with 1 by lia. reflexivity. }
  repeat split; try exact He; lia.
Qed.

End WeekFacts.

(** ** Calorie totals *)

Lemma or_zero_parseInt (e : obj) :
  or_zero (parseInt (e !! "calories")) = Num (calories_or_zero e).
Proof.
  unfold calories_or_zero, or_zero.
  destruct (parseInt (e !! "calories")) as [|z]; [reflexivity|].
  destruct (Z.eqb_spec z 0); congruence.
Qed.

Lemma fold_calories (entries : list obj) (acc : Z) :
  fold_left
    (fun sum (e : obj) => num_add sum (or_zero (parseInt (e !! "calories"))))
    entries (Num acc)
  = Num (acc + sum_calories entries).
Proof.
  unfold sum_calories.
  revert acc. induction entries as [|e entries IH]; intros acc; cbn.
  - f_equal. lia.
  - rewrite or_zero_parseInt. cbn. rewrite IH. f_equal. lia.
Qed.

Lemma calculateTotalCalories_sum (entries : list obj) :
  Utils.calculateTotalCalories entries = Num (sum_calories entries).
Proof. unfold Utils.calculateTotalCalories. apply (fold_calories entries 0). Qed.

(** *** Rounding to binary64 *)

Section Binary64Facts.

(** Where the rounding starts: the last place is [ulp], and the 53 bits
    are the quotient. *)
Lemma rounding_frame a :
  0 < Z.log2 a - 52 ->
  let ulp := 2 ^ (Z.log2 a - 52) in
  0 < ulp /\ 2 ^ 52 * ulp <= a < 2 ^ 53 * ulp
  /\ a = ulp * (a / ulp) + a mod ulp /\ 0 <= a mod ulp < ulp
  /\ 2 ^ 52 <= a / ulp < 2 ^ 53.
Proof.
  intros He ulp.
  assert (Ha : 0 < a).
  { destruct (Z.lt_trichotomy a 0) as [N|[N|N]]; [..|exact N].
    - rewrite Z.log2_nonpos in He by lia. lia.
    - subst a. cbn in He. lia. }
  assert (Hu : 0 < ulp) by (apply Z.pow_pos_nonneg; lia).
  pose proof (Z.log2_spec a Ha) as [Hlo Hhi].
  assert (E1 : 2 ^ Z.log2 a = 2 ^ 52 * ulp).
  { unfold ulp. rewrite <- Z.pow_add_r by lia. f_equal. lia. }
  assert (E2 : 2 ^ Z.succ (Z.log2 a) = 2 ^ 53 * ulp).
  { unfold ulp. rewrite <- Z.pow_add_r by lia. f_equal. lia. }
  rewrite E1 in Hlo. rewrite E2 in Hhi.
  pose proof (Z.div_mod a ulp ltac:(lia)) as Hdm.
  pose proof (Z.mod_pos_bound a ulp Hu) as Hr.
  repeat apply conj; try lia.
  - apply Z.div_le_lower_bound; lia.
  - apply Z.div_lt_upper_bound; lia.
Qed.

(** Up to 2^53 every integer is a number. *)
Lemma of_Z_safe x : Z.abs x <= 2 ^ 53 -> Binary64.of_Z x = Binary64.Int x.
Proof.
  intros Hx. unfold Binary64.of_Z.
  destruct (Z.eq_dec (Z.abs x) (2 ^ 53)) as [E|E].
  - assert (x = 2 ^ 53 \/ x = - 2 ^ 53) as [-> | ->] by lia;
      vm_compute; reflexivity.
  - destruct (Z.leb_spec (Z.log2 (Z.abs x) - 52) 0) as [L|L]; [reflexivity|].
    exfalso.
    assert (Hpos : 0 < Z.abs x).
    { destruct (Z.eq_dec (Z.abs x) 0) as [E0|E0]; [|lia].
      rewrite E0 in L. cbn in L. lia. }
    assert (Hlt : Z.abs x < 2 ^ 53) by (clear L; lia).
    apply Z.log2_lt_pow2 in Hlt; lia.
Qed.

Lemma of_Z_not_NaN x : Binary64.of_Z x <> Binary64.NaN.
Proof.
  unfold Binary64.of_Z. destruct (_ <=? 0); [discriminate|].
  destruct (2 ^ 1024 <=? _); discriminate.
Qed.

(** The largest number is 2^1024 - 2^971: an integer rounds to an infinity
    from halfway between it and 2^1024 on, and to a number below. *)
Lemma of_Z_finite x :
  Z.abs x < 2 ^ 1024 - 2 ^ 970 -> exists m, Binary64.of_Z x = Binary64.Int m.
Proof.
  intros Hx. unfold Binary64.of_Z.
  destruct (Z.leb_spec (Z.log2 (Z.abs x) - 52) 0) as [L|L]; [eauto|].
  destruct (rounding_frame (Z.abs x) L) as (Hu & [Hlo Hhi] & Hdm & Hr & Hq).
  set (a := Z.abs x) in *. set (ulp := 2 ^ (Z.log2 a - 52)) in *.
  set (q := a / ulp) in *. set (r := a mod ulp) in *.
  destruct (Z.leb_spec (2 ^ 1024) ((if (ulp <? 2 * r) || (2 * r =? ulp) && Z.odd q
                                     then q + 1 else q) * ulp)) as [O|O];
    [exfalso|eauto].
  assert (Hl : Z.log2 a < 1024).
  { apply Z.log2_lt_pow2; [lia|]. lia. }
  assert (Hule : ulp <= 2 ^ 971).
  { unfold ulp. apply Z.pow_le_mono_r; lia. }
  destruct ((ulp <? 2 * r) || (2 * r =? ulp) && Z.odd q) eqn:Up.
  - assert (Hr2 : ulp <= 2 * r).
    { apply orb_true_iff in Up as [U|U]; [apply Z.ltb_lt in U; lia|].
      apply andb_true_iff in U as [U _]. apply Z.eqb_eq in U. lia. }
    assert (q = 2 ^ 53 - 1 \/ q <= 2 ^ 53 - 2) as [Eq|Eq] by lia.
    + rewrite Eq in *. nia.
    + assert (ulp * q <= ulp * (2 ^ 53 - 2))
        by (apply Z.mul_le_mono_nonneg_l; lia).
      lia.
  - lia.
Qed.

Lemma of_Z_overflow x :
  2 ^ 1024 - 2 ^ 970 <= Z.abs x ->
  Binary64.of_Z x = Binary64.Infinity (x <? 0).
Proof.
  intros Hx. unfold Binary64.of_Z.
  assert (Ha : 0 < Z.abs x) by lia.
  assert (Hl : 1023 <= Z.log2 (Z.abs x)).
  { apply Z.log2_le_pow2; [exact Ha|]. lia. }
  destruct (Z.leb_spec (Z.log2 (Z.abs x) - 52) 0) as [L|L]; [lia|].
  destruct (rounding_frame (Z.abs x) L) as (Hu & [Hlo Hhi] & Hdm & Hr & Hq).
  set (a := Z.abs x) in *. set (ulp := 2 ^ (Z.log2 a - 52)) in *.
  set (q := a / ulp) in *. set (r := a mod ulp) in *.
  assert (Hule : 2 ^ 971 <= ulp).
  { unfold ulp. apply Z.pow_le_mono_r; lia. }
  destruct (Z.leb_spec (2 ^ 1024) ((if (ulp <? 2 * r) || (2 * r =? ulp) && Z.odd q
                                     then q + 1 else q) * ulp)) as [O|O];
    [reflexivity|exfalso].
  destruct (Z.eq_dec ulp (2 ^ 971)) as [Eu|Eu].
  - rewrite Eu in *.
    assert (Eq : q = 2 ^ 53 - 1) by lia.
    assert (Hr2 : 2 ^ 970 <= r) by lia.
    rewrite Eq in O.
    destruct (Z.ltb_spec (2 ^ 971) (2 * r)) as [U|U]; cbn [orb] in O; [lia|].
    assert (Er : 2 * r = 2 ^ 971) by lia.
    rewrite Er, Z.eqb_refl in O.
    change (Z.odd (2 ^ 53 - 1)) with true in O. cbn [orb andb] in O.
    clear - O. lia.
  - assert (2 * 2 ^ 971 <= ulp).
    { unfold ulp in *.
      assert (972 <= Z.log2 a - 52).
      { destruct (Z.eq_dec (Z.log2 a - 52) 971) as [E|E]; [|lia].
        rewrite E in Eu. lia. }
      change (2 * 2 ^ 971) with (2 ^ 972). apply Z.pow_le_mono_r; lia. }
    assert (2 ^ 52 * ulp <= q * ulp) by (apply Z.mul_le_mono_nonneg_r; lia).
    destruct ((ulp <? 2 * r) || (2 * r =? ulp) && Z.odd q); lia.
Qed.

Lemma of_Z_nonneg x :
  0 <= x ->
  Binary64.of_Z x = Binary64.Infinity false
  \/ exists m, 0 <= m /\ Binary64.of_Z x = Binary64.Int m.
Proof.
  intros Hx. unfold Binary64.of_Z.
  destruct (Z.leb_spec (Z.log2 (Z.abs x) - 52) 0) as [L|L]; [right; eauto|].
  destruct (2 ^ 1024 <=? _).
  - left. f_equal. lia.
  - right. eexists. split; [|reflexivity].
    rewrite Z.abs_eq in * by exact Hx.
    set (ulp := 2 ^ (Z.log2 x - 52)).
    assert (0 < ulp) by (apply Z.pow_pos_nonneg; lia).
    assert (0 <= x / ulp) by (apply Z.div_pos; lia).
    destruct (_ || _); nia.
Qed.

Lemma or_zero_not_NaN x : Binary64.or_zero x <> Binary64.NaN.
Proof.
  destruct x as [|s|z]; cbn; [discriminate..|].
  destruct (z =? 0); discriminate.
Qed.

(** *** The terms and the total *)

Lemma calories_term_exact (e : obj) :
  Z.abs (calories_or_zero e) <= 2 ^ 53 ->
  calories_term e = Binary64.Int (calories_or_zero e).
Proof.
  unfold calories_term, calories_or_zero, Binary64.parseInt.
  destruct (parseInt (e !! "calories")) as [|z]; [reflexivity|].
  intros Hz. rewrite of_Z_safe by exact Hz. cbn.
  destruct (Z.eqb_spec z 0); congruence.
Qed.

Lemma calories_term_finite (e : obj) :
  Z.abs (calories_or_zero e) < 2 ^ 1024 - 2 ^ 970 ->
  exists m, calories_term e = Binary64.Int m.
Proof.
  unfold calories_term, calories_or_zero, Binary64.parseInt.
  destruct (parseInt (e !! "calories")) as [|z]; [intros _; by exists 0|].
  intros Hz. destruct (of_Z_finite z Hz) as [m ->]. cbn.
  destruct (m =? 0); eauto.
Qed.

Lemma calories_term_nonneg (e : obj) :
  0 <= calories_or_zero e ->
  calories_term e = Binary64.Infinity false
  \/ exists m, 0 <= m /\ calories_term e = Binary64.Int m.
Proof.
  unfold calories_term, calories_or_zero, Binary64.parseInt.
  destruct (parseInt (e !! "calories")) as [|z].
  - intros _. right. exists 0. split; [lia|reflexivity].
  - intros Hz. destruct (of_Z_nonneg z Hz) as [-> | (m & Hm & ->)].
    + by left.
    + right. cbn.
      destruct (Z.eqb_spec m 0); [exists 0|exists m]; (split; [lia|reflexivity]).
Qed.

Lemma fold_terms (entries : list obj) (acc : Binary64.float) :
  fold_left
    (fun sum (e : obj) =>
       Binary64.add sum (Binary64.or_zero (Binary64.parseInt (e !! "calories"))))
    entries acc
  = foldl Binary64.add acc (calories_term <$> entries).
Proof.
  revert acc. induction entries as [|e entries IH]; intros acc; [reflexivity|].
  cbn. apply IH.
Qed.

Lemma sum_magnitudes_nonneg entries : 0 <= sum_magnitudes entries.
Proof. unfold sum_magnitudes. induction entries; cbn; lia. Qed.

Lemma fold_terms_exact (entries : list obj) (acc : Z) :
  Z.abs acc + sum_magnitudes entries <= 2 ^ 53 ->
  foldl Binary64.add (Binary64.Int acc) (calories_term <$> entries)
  = Binary64.Int (acc + sum_calories entries).
Proof.
  revert acc. induction entries as [|e entries IH]; intros acc Hb.
  - cbn. f_equal. unfold sum_calories. cbn. lia.
  - pose proof (sum_magnitudes_nonneg entries) as Hn.
    change (sum_magnitudes (e :: entries))
      with (Z.abs (calories_or_zero e) + sum_magnitudes entries) in Hb.
    change (sum_calories (e :: entries))
      with (calories_or_zero e + sum_calories entries).
    cbn [fmap list_fmap foldl].
    rewrite calories_term_exact by lia. cbn [Binary64.add].
    rewrite of_Z_safe by lia. rewrite IH by lia. f_equal. lia.
Qed.

Lemma fold_terms_finite (entries : list obj) (acc : Binary64.float) :
  acc <> Binary64.NaN ->
  Forall (fun e => Z.abs (calories_or_zero e) < 2 ^ 1024 - 2 ^ 970) entries ->
  foldl Binary64.add acc (calories_term <$> entries) <> Binary64.NaN.
Proof.
  revert acc. induction entries as [|e entries IH]; intros acc Ha Hf; [exact Ha|].
  apply Forall_cons in Hf as [He Hf]. cbn [fmap list_fmap foldl].
  apply IH; [|exact Hf].
  destruct (calories_term_finite e He) as [z ->].
  destruct acc as [|s|x]; cbn; [congruence|discriminate|apply of_Z_not_NaN].
Qed.

Lemma fold_terms_nonneg (entries : list obj) (acc : Binary64.float) :
  (acc = Binary64.Infinity false \/ exists m, 0 <= m /\ acc = Binary64.Int m) ->
  Forall (fun e => 0 <= calories_or_zero e) entries ->
  foldl Binary64.add acc (calories_term <$> entries) <> Binary64.NaN.
Proof.
  revert acc. induction entries as [|e entries IH]; intros acc Ha Hf.
  - destruct Ha as [-> | (m & _ & ->)]; discriminate.
  - apply Forall_cons in Hf as [He Hf]. cbn [fmap list_fmap foldl].
    apply IH; [|exact Hf].
    destruct (calories_term_nonneg e He) as [-> | (c & Hc & ->)];
      destruct Ha as [-> | (m & Hm & ->)]; cbn; auto.
    apply of_Z_nonneg. lia.
Qed.

(** C10, as the code has it: the total is the sum, taken from the left in
    binary64, of one term an entry: [parseInt] of its [calories] property,
    and 0 when the property is missing or does not parse, so that no term
    is [NaN].  When the magnitudes of the calories add up to at most 2^53
    the total is their sum in the integers.  It is a number, not [NaN],
    when every calories value is below 2^1024 - 2^970 in magnitude, the
    least integer that rounds to an infinity, and also when none is
    negative. *)
Theorem C10_total_is_binary64_sum_and_a_number_for_finite_calories
    (entries : list obj) :
  Binary64.calculateTotalCalories entries
  = foldl Binary64.add (Binary64.Int 0) (calories_term <$> entries)
  /\ (forall e : obj,
        parseInt (e !! "calories") = NaN -> calories_term e = Binary64.Int 0)
  /\ (forall e : obj,
        e !! "calories" = None -> calories_term e = Binary64.Int 0)
  /\ (forall (e : obj) (z : Z),
        parseInt (e !! "calories") = Num z ->
        calories_term e = Binary64.or_zero (Binary64.of_Z z))
  /\ (forall e : obj, calories_term e <> Binary64.NaN)
  /\ (sum_magnitudes entries <= 2 ^ 53 ->
      Binary64.calculateTotalCalories entries
      = Binary64.Int (sum_calories entries)
      /\ Utils.calculateTotalCalories entries = Num (sum_calories entries))
  /\ (Forall (fun e => Z.abs (calories_or_zero e) < 2 ^ 1024 - 2 ^ 970) entries ->
      Binary64.calculateTotalCalories entries <> Binary64.NaN)
  /\ (Forall (fun e => 0 <= calories_or_zero e) entries ->
      Binary64.calculateTotalCalories entries <> Binary64.NaN).
Proof.
  assert (E : Binary64.calculateTotalCalories entries
              = foldl Binary64.add (Binary64.Int 0) (calories_term <$> entries))
    by apply fold_terms.
  split; [exact E|]. rewrite E.
  split; [|split; [|split; [|split; [|split; [|split]]]]].
  - intros e He. unfold calories_term, Binary64.parseInt. by rewrite He.
  - intros e He. unfold calories_term, Binary64.parseInt. by rewrite He.
  - intros e z He. unfold calories_term, Binary64.parseInt. by rewrite He.
  - intros e. apply or_zero_not_NaN.
  - intros Hb. split.
    + rewrite fold_terms_exact by (cbn; lia). f_equal.
    + apply calculateTotalCalories_sum.
  - intros Hf. apply fold_terms_finite; [discriminate|exact Hf].
  - intros Hf. apply fold_terms_nonneg; [|exact Hf].
    right. exists 0. split; [lia|reflexivity].
Qed.

End Binary64Facts.

(** ** The store *)

Section StoreFacts.
Context `{Platform}.
Import Storage.

Lemma spread_lookup (e updates : obj) (k : string) :
  spread e updates !! k
  = match updates !! k with Some v => Some v | None => e !! k end.
Proof.
  unfold spread. rewrite lookup_union.
  destruct (updates !! k), (e !! k); reflexivity.
Qed.

Lemma get_array_insert (ls : localStorage) key (l : list obj) :
  get_array (<[key := SArray l]> ls) key = l.
Proof. unfold get_array, get. by rewrite lookup_insert_eq. Qed.

Lemma get_array_insert_ne (ls : localStorage) key key' v :
  key <> key' -> get_array (<[key := v]> ls) key' = get_array ls key'.
Proof. intros. unfold get_array, get. by rewrite lookup_insert_ne. Qed.

(** What a write leaves behind: the value, or the old store. *)
Lemma set_spec (ls : localStorage) key v :
  (setItem_fits ls key v = true /\ set ls key v = (<[key := v]> ls, true))
  \/ (setItem_fits ls key v = false /\ set ls key v = (ls, false)).
Proof.
  unfold set, localStorage_setItem.
  destruct (setItem_fits ls key v); auto.
Qed.

(** Writing the array that is already read under a key changes no array. *)
Lemma set_same_array (ls : localStorage) key key' :
  get_array (fst (set ls key (SArray (get_array ls key)))) key'
  = get_array ls key'.
Proof.
  destruct (set_spec ls key (SArray (get_array ls key))) as [[_ ->]|[_ ->]];
    [|reflexivity].
  cbn. destruct (decide (key = key')) as [<-|Hne].
  - apply get_array_insert.
  - by apply get_array_insert_ne.
Qed.

Lemma findIndex_first id (l : list obj) i e :
  first_with_id id l i e ->
  findIndex (fun e : obj => strict_eq_str (e !! "id") id) l = Some i.
Proof.
  intros (Hi & He & Hfirst). unfold findIndex.
  assert (list_find (fun e : obj => strict_eq_str (e !! "id") id) l
          = Some (i, e)) as ->; [|reflexivity].
  apply list_find_Some. repeat split; auto.
Qed.

Lemma findIndex_none id (l : list obj) :
  no_id id l ->
  findIndex (fun e : obj => strict_eq_str (e !! "id") id) l = None.
Proof.
  intros Hno. unfold findIndex.
  assert (list_find (fun e : obj => strict_eq_str (e !! "id") id) l = None)
    as ->; [|reflexivity].
  apply list_find_None. exact Hno.
Qed.

Lemma filter_no_id id (l : list obj) :
  no_id id l ->
  filter (fun e : obj => ~ strict_eq_str (e !! "id") id) l = l.
Proof.
  intros Hno. induction Hno as [|e l He _ IH]; [reflexivity|].
  rewrite filter_cons_True by exact He. by rewrite IH.
Qed.

Lemma filter_id_idemp id (l : list obj) :
  let P := fun e : obj => ~ strict_eq_str (e !! "id") id in
  filter P (filter P l) = filter P l.
Proof.
  intros P. induction l as [|e l IH]; [reflexivity|].
  destruct (decide (P e)) as [Hp|Hp].
  - rewrite (filter_cons_True P) by exact Hp.
    rewrite (filter_cons_True P) by exact Hp. by rewrite IH.
  - rewrite (filter_cons_False P) by exact Hp. exact IH.
Qed.

Lemma delete_in_absent key ls id :
  no_id id (get_array ls key) ->
  get_array (fst (delete_in key ls id)) key = get_array ls key.
Proof.
  intros Hno. unfold delete_in. cbn [fst].
  rewrite (filter_no_id _ _ Hno). apply set_same_array.
Qed.

Lemma delete_in_idemp key ls id :
  fst (delete_in key (fst (delete_in key ls id)) id)
  = fst (delete_in key ls id).
Proof.
  unfold delete_in. cbn [fst].
  set (P := fun e : obj => ~ strict_eq_str (e !! "id") id).
  destruct (set_spec ls key (SArray (filter P (get_array ls key))))
    as [[_ E]|[_ E]]; rewrite E; cbn [fst].
  - rewrite get_array_insert, (filter_id_idemp id).
    destruct (set_spec (<[key:=SArray (filter P (get_array ls key))]> ls) key
                (SArray (filter P (get_array ls key)))) as [[_ E']|[_ E']];
      fold P in E' |- *; rewrite E'; cbn [fst]; [|reflexivity].
    apply insert_insert_eq.
  - by rewrite E.
Qed.

(** C8: deleting an id that no record has reports success and leaves the
    collection as it was; deleting twice leaves the store as deleting once
    does.  The same for the three collections. *)
Theorem C8_delete_absent_id_is_noop_and_delete_is_idempotent
    (ls : localStorage) (id : string) :
  (no_id id (getFoodEntries ls) ->
     snd (deleteFoodEntry ls id) = true
     /\ getFoodEntries (fst (deleteFoodEntry ls id)) = getFoodEntries ls)
  /\ fst (deleteFoodEntry (fst (deleteFoodEntry ls id)) id)
     = fst (deleteFoodEntry ls id)
  /\ snd (deleteFoodEntry (fst (deleteFoodEntry ls id)) id) = true
  /\ (no_id id (getWeightEntries ls) ->
        snd (deleteWeightEntry ls id) = true
        /\ getWeightEntries (fst (deleteWeightEntry ls id))
           = getWeightEntries ls)
  /\ fst (deleteWeightEntry (fst (deleteWeightEntry ls id)) id)
     = fst (deleteWeightEntry ls id)
  /\ (no_id id (getRecipes ls) ->
        snd (deleteRecipe ls id) = true
        /\ getRecipes (fst (deleteRecipe ls id)) = getRecipes ls)
  /\ fst (deleteRecipe (fst (deleteRecipe ls id)) id)
     = fst (deleteRecipe ls id).
Proof.
  repeat apply conj; try reflexivity; try (intros Hno; split; [reflexivity|]).
  - exact (delete_in_absent KEYS.FOOD_ENTRIES ls id Hno).
  - exact (delete_in_idemp KEYS.FOOD_ENTRIES ls id).
  - exact (delete_in_absent KEYS.WEIGHT_ENTRIES ls id Hno).
  - exact (delete_in_idemp KEYS.WEIGHT_ENTRIES ls id).
  - exact (delete_in_absent KEYS.RECIPES ls id Hno).
  - exact (delete_in_idemp KEYS.RECIPES ls id).
Qed.

Lemma update_in_found key ls id updates i e :
  first_with_id id (get_array ls key) i e ->
  update_found key ls id updates i e.
Proof.
  intros Hfirst. pose proof Hfirst as (Hi & _ & _).
  unfold update_found, update_in.
  rewrite (findIndex_first _ _ _ _ Hfirst). cbn [fst snd].
  assert (alter (fun e => spread e updates) i (get_array ls key)
          = <[i := spread e updates]> (get_array ls key)) as ->.
  { apply list_eq. intros j. destruct (decide (i = j)) as [<-|Hne].
    - rewrite list_lookup_alter_eq, Hi.
      rewrite list_lookup_insert_eq by (eapply lookup_lt_Some; eauto).
      reflexivity.
    - rewrite list_lookup_alter_ne, list_lookup_insert_ne by done.
      reflexivity. }
  repeat apply conj.
  - apply list_lookup_insert_eq. eapply lookup_lt_Some; eauto.
  - apply spread_lookup.
  - intros Hfit. unfold set, localStorage_setItem. rewrite Hfit. cbn.
    apply get_array_insert.
  - intros Hfit. unfold set, localStorage_setItem. rewrite Hfit. reflexivity.
Qed.

Lemma update_in_absent key ls id updates :
  no_id id (get_array ls key) -> update_in key ls id updates = (ls, None).
Proof.
  intros Hno. unfold update_in. by rewrite (findIndex_none _ _ Hno).
Qed.

(** C5: an update with the id of a stored record returns that record with
    the updates spread over it, the updates winning on a shared key, and
    writes it in place of the record; with an id that no record has it
    returns [null] and the store is the one it started from.  For food
    entries and for recipes. *)
Theorem C5_update_merges_found_record_and_returns_null_otherwise
    (ls : localStorage) (id : string) (updates : obj) :
  (forall i e, first_with_id id (getFoodEntries ls) i e ->
     let merged := spread e updates in
     let entries' := <[i := merged]> (getFoodEntries ls) in
     let ls' := fst (updateFoodEntry ls id updates) in
     snd (updateFoodEntry ls id updates) = Some merged
     /\ (forall k, merged !! k
                   = match updates !! k with Some v => Some v | None => e !! k end)
     /\ (setItem_fits ls KEYS.FOOD_ENTRIES (SArray entries') = true ->
            getFoodEntries ls' = entries')
     /\ (setItem_fits ls KEYS.FOOD_ENTRIES (SArray entries') = false ->
            ls' = ls))
  /\ (no_id id (getFoodEntries ls) ->
        updateFoodEntry ls id updates = (ls, None))
  /\ (forall i r, first_with_id id (getRecipes ls) i r ->
        let merged := spread r updates in
        let recipes' := <[i := merged]> (getRecipes ls) in
        let ls' := fst (updateRecipe ls id updates) in
        snd (updateRecipe ls id updates) = Some merged
        /\ (forall k, merged !! k
                      = match updates !! k with Some v => Some v | None => r !! k end)
        /\ (setItem_fits ls KEYS.RECIPES (SArray recipes') = true ->
               getRecipes ls' = recipes')
        /\ (setItem_fits ls KEYS.RECIPES (SArray recipes') = false ->
               ls' = ls))
  /\ (no_id id (getRecipes ls) -> updateRecipe ls id updates = (ls, None)).
Proof.
  repeat apply conj.
  - intros i e Hfirst.
    exact (update_in_found KEYS.FOOD_ENTRIES ls id updates i e Hfirst).
  - exact (update_in_absent KEYS.FOOD_ENTRIES ls id updates).
  - intros i r Hfirst.
    exact (update_in_found KEYS.RECIPES ls id updates i r Hfirst).
  - exact (update_in_absent KEYS.RECIPES ls id updates).
Qed.

(** ** Settings *)

Lemma getSettings_unsaved ls :
  ls !! KEYS.SETTINGS = None -> getSettings ls = defaultSettings.
Proof. intros E. unfold getSettings, get. by rewrite E. Qed.

Lemma getSettings_saved ls o :
  getSettings (<[KEYS.SETTINGS := SObject o]> ls) = o.
Proof. unfold getSettings, get. by rewrite lookup_insert_eq. Qed.

Lemma saveSettings_spec ls settings :
  (setItem_fits ls KEYS.SETTINGS (SObject (spread (getSettings ls) settings))
   = true
   /\ getSettings (saveSettings ls settings) = spread (getSettings ls) settings)
  \/ (setItem_fits ls KEYS.SETTINGS
        (SObject (spread (getSettings ls) settings)) = false
      /\ saveSettings ls settings = ls).
Proof.
  unfold saveSettings.
  destruct (set_spec ls KEYS.SETTINGS
              (SObject (spread (getSettings ls) settings))) as [[Hf ->]|[Hf ->]];
    [left|right; split; [exact Hf|reflexivity]].
  split; [exact Hf|]. apply getSettings_saved.
Qed.

(** C6: with nothing saved the settings are [calorieGoal: 2000] and
    [weightUnit: 'kg']; after [saveSettings] a key that the update does not
    mention reads as before, and a key that it mentions reads as the update
    says once the write is taken; so saving [calorieGoal: 1800] over the
    defaults leaves [weightUnit] at ['kg']. *)
Theorem C6_settings_default_and_partial_update_keeps_other_keys
    (ls : localStorage) (update : obj) :
  (ls !! KEYS.SETTINGS = None ->
     getSettings ls
     = {[ "calorieGoal" := JNum 2000; "weightUnit" := JStr "kg" ]})
  /\ (forall k, update !! k = None ->
        getSettings (saveSettings ls update) !! k = getSettings ls !! k)
  /\ (forall k v, update !! k = Some v ->
        setItem_fits ls KEYS.SETTINGS (SObject (spread (getSettings ls) update))
        = true ->
        getSettings (saveSettings ls update) !! k = Some v)
  /\ (ls !! KEYS.SETTINGS = None ->
        getSettings (saveSettings ls {[ "calorieGoal" := JNum 1800 ]})
          !! "weightUnit" = Some (JStr "kg")).
Proof.
  assert (Hframe : forall (u : obj) k, u !! k = None ->
            getSettings (saveSettings ls u) !! k = getSettings ls !! k).
  { intros u k Hk.
    destruct (saveSettings_spec ls u) as [[_ ->]|[_ ->]]; [|reflexivity].
    by rewrite spread_lookup, Hk. }
  repeat apply conj.
  - apply getSettings_unsaved.
  - apply Hframe.
  - intros k v Hk Hfit.
    destruct (saveSettings_spec ls update) as [[_ ->]|[Hno _]]; [|congruence].
    by rewrite spread_lookup, Hk.
  - intros Hnone. rewrite Hframe by reflexivity.
    by rewrite (getSettings_unsaved ls Hnone).
Qed.

End StoreFacts.

(** ** The PIN *)

Section AuthFacts.
Context `{Platform}.
Import Auth.

(** C9: a PIN of fewer than 4 characters is answered with
    [success: false] and an error text; nothing is thrown and the store,
    the stored hash with it, is untouched.  A PIN of at least 4 characters
    whose hash the store takes is stored hashed and answered with
    [success: true]; the other keys of the store keep their values. *)
Theorem C9_set_pin_rejects_short_pin_and_stores_hash_otherwise
    (ls : localStorage) (pin : string) :
  ((String.length pin < 4)%nat ->
     exists msg,
       setPin ls pin
       = (ls, Return {| success := false; error := Some msg |}))
  /\ ((4 <= String.length pin)%nat ->
      setItem_fits ls STORAGE_KEY (SText (hashPin pin)) = true ->
      snd (setPin ls pin) = Return {| success := true; error := None |}
      /\ fst (setPin ls pin) !! STORAGE_KEY = Some (SText (hashPin pin))
      /\ forall key, key <> STORAGE_KEY ->
           fst (setPin ls pin) !! key = ls !! key).
Proof.
  split.
  - intros Hshort. unfold setPin.
    destruct (Nat.ltb_spec (String.length pin) 4) as [_|Hge]; [|lia].
    eexists. reflexivity.
  - intros Hlong Hfit. unfold setPin, localStorage_setItem.
    destruct (Nat.ltb_spec (String.length pin) 4) as [Hlt|_]; [lia|].
    rewrite Hfit. cbn [fst snd].
    repeat apply conj.
    + reflexivity.
    + apply lookup_insert_eq.
    + intros key Hne. by apply lookup_insert_ne.
Qed.

End AuthFacts.

(** ** Sorting *)

Section SortFacts.
Context {A : Type} (comparefn : A -> A -> number).

Lemma sort_insert_Permutation x l : sort_insert comparefn x l ≡ₚ x :: l.
Proof.
  induction l as [|y l IH]; cbn; [reflexivity|].
  destruct (SortCompare comparefn x y <=? 0); [reflexivity|].
  rewrite IH. apply Permutation_swap.
Qed.

Lemma Array_sort_Permutation l : Array_sort comparefn l ≡ₚ l.
Proof.
  induction l as [|x l IH]; cbn; [reflexivity|].
  rewrite sort_insert_Permutation. by rewrite IH.
Qed.

Lemma Array_sort_length l : length (Array_sort comparefn l) = length l.
Proof. apply Permutation_length, Array_sort_Permutation. Qed.

(** When the comparator is the difference of an integer key, the result is
    ordered by the key. *)
Context (key : A -> Z).
Hypothesis comparefn_key : forall x y, comparefn x y = Num (key x - key y).

Lemma sort_insert_sorted x l :
  StronglySorted (fun a b => key a <= key b) l ->
  StronglySorted (fun a b => key a <= key b) (sort_insert comparefn x l).
Proof.
  induction 1 as [|y l Hs IH Hall]; cbn.
  - repeat constructor.
  - unfold SortCompare. rewrite comparefn_key.
    destruct (Z.leb_spec (key x - key y) 0) as [Hle|Hgt].
    + constructor; [by constructor|].
      constructor; [lia|].
      eapply Forall_impl; [exact Hall|]. cbn. intros z Hz. lia.
    + constructor; [exact IH|].
      rewrite sort_insert_Permutation.
      constructor; [lia|exact Hall].
Qed.

Lemma Array_sort_sorted l :
  StronglySorted (fun a b => key a <= key b) (Array_sort comparefn l).
Proof.
  induction l as [|x l IH]; cbn; [constructor|].
  by apply sort_insert_sorted.
Qed.

End SortFacts.

Lemma sort_insert_ext {A} (c1 c2 : A -> A -> number) x l :
  Forall (fun y => c1 x y = c2 x y) l ->
  sort_insert c1 x l = sort_insert c2 x l.
Proof.
  induction 1 as [|y l Hy _ IH]; cbn; [reflexivity|].
  unfold SortCompare. rewrite Hy, IH. reflexivity.
Qed.

(** The sort looks at the comparator on the elements of the list only. *)
Lemma Array_sort_ext {A} (c1 c2 : A -> A -> number) l :
  (forall x y, x ∈ l -> y ∈ l -> c1 x y = c2 x y) ->
  Array_sort c1 l = Array_sort c2 l.
Proof.
  induction l as [|x l IH]; intros Hext; [reflexivity|].
  change (sort_insert c1 x (Array_sort c1 l)
          = sort_insert c2 x (Array_sort c2 l)).
  rewrite IH by (intros; apply Hext; by constructor).
  apply sort_insert_ext, Forall_forall. intros y Hy.
  apply Hext; [by constructor|].
  constructor. by rewrite <- (Array_sort_Permutation c2 l).
Qed.

(** ** Weight entries *)

Section WeightFacts.
Context `{Platform}.
Import Storage.

Lemma saveWeightEntry_unfold ls now entry :
  saveWeightEntry ls now entry
  = (fst (set ls KEYS.WEIGHT_ENTRIES
            (SArray (Array_sort by_date
                       (upsert (getWeightEntries ls) (stamped now entry))))),
     stamped now entry).
Proof. reflexivity. Qed.

Lemma stamped_date now entry : stamped now entry !! "date" = entry !! "date".
Proof.
  unfold stamped. rewrite !lookup_insert_ne by done. reflexivity.
Qed.

Lemma dateOf_stamped now entry : dateOf (stamped now entry) = dateOf entry.
Proof. unfold dateOf. by rewrite stamped_date. Qed.

Lemma dayOf_stamped now entry : dayOf (stamped now entry) = dayOf entry.
Proof. unfold dayOf. by rewrite dateOf_stamped. Qed.

(** Spreading an entry of the same day over a record keeps the day, and
    gives the date of the entry when the entry has one. *)
Lemma dateOf_spread (e entry : obj) :
  dateOf (spread e entry)
  = match entry !! "date" with Some _ => dateOf entry | None => dateOf e end.
Proof.
  unfold dateOf. rewrite spread_lookup.
  destruct (entry !! "date"); reflexivity.
Qed.

Lemma dayOf_spread (e entry : obj) :
  dayOf e = dayOf entry -> dayOf (spread e entry) = dayOf e.
Proof.
  intros E. unfold dayOf in *. rewrite dateOf_spread.
  destruct (entry !! "date"); [by symmetry|reflexivity].
Qed.

(** The collection read after a save: sorted upsert, or the old one when
    the write was refused. *)
Lemma saveWeightEntry_entries ls now entry :
  let new :=
    Array_sort by_date (upsert (getWeightEntries ls) (stamped now entry)) in
  (setItem_fits ls KEYS.WEIGHT_ENTRIES (SArray new) = true
   /\ getWeightEntries (fst (saveWeightEntry ls now entry)) = new)
  \/ (setItem_fits ls KEYS.WEIGHT_ENTRIES (SArray new) = false
      /\ fst (saveWeightEntry ls now entry) = ls).
Proof.
  intros new. rewrite saveWeightEntry_unfold. cbn [fst]. fold new.
  destruct (set_spec ls KEYS.WEIGHT_ENTRIES (SArray new)) as [[Hf ->]|[Hf ->]].
  - left. split; [exact Hf|]. apply get_array_insert.
  - right. split; [exact Hf|reflexivity].
Qed.

Lemma deleteWeightEntry_entries ls id :
  let filtered :=
    filter (fun e : obj => ~ strict_eq_str (e !! "id") id)
           (getWeightEntries ls) in
  getWeightEntries (fst (deleteWeightEntry ls id)) = filtered
  \/ fst (deleteWeightEntry ls id) = ls.
Proof.
  intros filtered. unfold deleteWeightEntry. cbn [fst]. fold filtered.
  destruct (set_spec ls KEYS.WEIGHT_ENTRIES (SArray filtered))
    as [[_ ->]|[_ ->]]; [left|right; reflexivity].
  apply get_array_insert.
Qed.

(** *** One entry per calendar day *)

Lemma fmap_alter_same {B} (f : obj -> B) (g : obj -> obj) i (l : list obj) :
  (forall e, l !! i = Some e -> f (g e) = f e) ->
  f <$> alter g i l = f <$> l.
Proof.
  intros Hsame. apply list_eq. intros j.
  rewrite !list_lookup_fmap.
  destruct (decide (i = j)) as [<-|Hne].
  - rewrite list_lookup_alter_eq.
    destruct (l !! i) as [e|] eqn:E; cbn; [|reflexivity].
    f_equal. by apply Hsame.
  - by rewrite list_lookup_alter_ne.
Qed.

Lemma upsert_days (l : list obj) (entry : obj) :
  match findIndex (fun e : obj => dayOf e = dayOf entry) l with
  | Some _ => dayOf <$> upsert l entry = dayOf <$> l
  | None => dayOf <$> upsert l entry = (dayOf <$> l) ++ [dayOf entry]
            /\ dayOf entry ∉ dayOf <$> l
  end.
Proof.
  unfold upsert, findIndex.
  destruct (list_find (fun e : obj => dayOf e = dayOf entry) l)
    as [[i e]|] eqn:Hfind; cbn.
  - apply list_find_Some in Hfind as (Hi & He & _).
    apply fmap_alter_same. intros e' He'.
    assert (e' = e) as -> by congruence.
    by apply dayOf_spread.
  - split; [by rewrite fmap_app|].
    apply list_find_None in Hfind.
    intros (e & He & Hin)%list_elem_of_fmap.
    rewrite Forall_forall in Hfind. by apply (Hfind e).
Qed.

Lemma upsert_unique (l : list obj) (entry : obj) :
  unique_days l -> unique_days (upsert l entry).
Proof.
  unfold unique_days. intros Hnd.
  pose proof (upsert_days l entry) as Hd.
  destruct (findIndex (fun e : obj => dayOf e = dayOf entry) l).
  - by rewrite Hd.
  - destruct Hd as [-> Hfresh].
    apply NoDup_app. repeat split; [exact Hnd| |apply NoDup_singleton].
    intros d Hd ->%list_elem_of_singleton. contradiction.
Qed.

Lemma saveWeightEntry_unique ls now entry :
  unique_days (getWeightEntries ls) ->
  unique_days (getWeightEntries (fst (saveWeightEntry ls now entry))).
Proof.
  intros Hu.
  destruct (saveWeightEntry_entries ls now entry) as [[_ ->]|[_ ->]];
    [|exact Hu].
  unfold unique_days. rewrite Array_sort_Permutation.
  by apply upsert_unique.
Qed.

Lemma save_all_unique saves ls :
  unique_days (getWeightEntries ls) ->
  unique_days (getWeightEntries (save_all ls saves)).
Proof.
  revert ls. induction saves as [|[now entry] saves IH]; intros ls Hu;
    [exact Hu|].
  cbn. apply IH. by apply saveWeightEntry_unique.
Qed.

Lemma getWeightEntries_empty : getWeightEntries ∅ = [].
Proof. reflexivity. Qed.

End WeightFacts.

Section WeightUpsert.
Context `{Platform}.
Import Storage.

(** Saving an entry for a day that a record [e], at index [i], already has:
    the record is replaced by the spread and the collection sorted again. *)
Lemma saveWeightEntry_replaces ls now entry i e :
  getWeightEntries ls !! i = Some e ->
  dayOf e = dayOf entry ->
  (forall j e', getWeightEntries ls !! j = Some e' -> (j < i)%nat ->
                dayOf e' <> dayOf entry) ->
  let entry' := stamped now entry in
  let new := Array_sort by_date (<[i := spread e entry']> (getWeightEntries ls)) in
  setItem_fits ls KEYS.WEIGHT_ENTRIES (SArray new) = true ->
  getWeightEntries (fst (saveWeightEntry ls now entry)) = new
  /\ length new = length (getWeightEntries ls).
Proof.
  intros Hi He Hfirst entry' new Hfit.
  assert (Hup : upsert (getWeightEntries ls) entry'
                = <[i := spread e entry']> (getWeightEntries ls)).
  { unfold upsert, findIndex.
    assert (list_find (fun e0 : obj => dayOf e0 = dayOf entry')
              (getWeightEntries ls) = Some (i, e)) as ->.
    { apply list_find_Some. unfold entry'. rewrite dayOf_stamped.
      repeat split; auto. }
    cbn. apply list_eq. intros j. destruct (decide (i = j)) as [<-|Hne].
    - rewrite list_lookup_alter_eq, Hi.
      rewrite list_lookup_insert_eq by (eapply lookup_lt_Some; eauto).
      reflexivity.
    - rewrite list_lookup_alter_ne, list_lookup_insert_ne by done.
      reflexivity. }
  split.
  - destruct (saveWeightEntry_entries ls now entry) as [[_ E]|[Hno _]].
    + rewrite E. fold entry'. by rewrite Hup.
    + fold entry' in Hno. rewrite Hup in Hno. fold new in Hno. congruence.
  - unfold new. by rewrite Array_sort_length, length_insert.
Qed.

End WeightUpsert.

(** C1: after any run of saves from the empty store no two stored weight
    entries fall on the same calendar day; a save for a day that is already
    there puts the spread of the new entry over the old record in its
    place, the new fields winning, and the collection keeps its length; the
    two saves of the scenario leave one record, of weight 69.5. *)
Theorem C1_weight_entries_one_per_day_and_save_replaces :
  (forall (P : Platform) (saves : list (Z * obj)),
     NoDup (dayOf <$> Storage.getWeightEntries (save_all ∅ saves)))
  /\ (forall (P : Platform) ls now entry i e,
        Storage.getWeightEntries ls !! i = Some e ->
        dayOf e = dayOf entry ->
        (forall j e', Storage.getWeightEntries ls !! j = Some e' ->
                      (j < i)%nat -> dayOf e' <> dayOf entry) ->
        let entry' := stamped now entry in
        let new :=
          Array_sort by_date
            (<[i := spread e entry']> (Storage.getWeightEntries ls)) in
        setItem_fits ls Storage.KEYS.WEIGHT_ENTRIES (SArray new) = true ->
        Storage.getWeightEntries (fst (Storage.saveWeightEntry ls now entry))
        = new
        /\ length new = length (Storage.getWeightEntries ls)
        /\ forall k, spread e entry' !! k
                     = match entry' !! k with
                       | Some v => Some v
                       | None => e !! k
                       end)
  /\ Storage.getWeightEntries (@save_all utc_browser ∅ scenario_saves)
     = [ {[ "date" := JStr "2024-01-01"; "weight" := JNum 69.5;
            "id" := JStr "1704106800000";
            "createdAt" := JStr "2024-01-01T11:00:00.000Z" ]} ].
Proof.
  repeat apply conj.
  - intros P saves. apply save_all_unique.
    rewrite getWeightEntries_empty. constructor.
  - intros P ls now entry i e Hi He Hfirst entry' new Hfit.
    destruct (saveWeightEntry_replaces ls now entry i e Hi He Hfirst Hfit)
      as [E L].
    repeat apply conj; [exact E|exact L|].
    intros k. apply spread_lookup.
  - vm_compute. reflexivity.
Qed.

(** *** Order by date *)

Section WeightOrder.
Context `{Platform}.
Import Storage.

Lemma by_date_dated a b :
  dated a -> dated b -> by_date a b = Num (time_of a - time_of b).
Proof.
  unfold dated, by_date, time_of.
  destruct (dateOf a), (dateOf b); intros; cbn; congruence.
Qed.

Lemma date_le_time a b :
  dated a -> dated b -> time_of a <= time_of b -> date_le a b.
Proof.
  unfold dated, date_le, time_of.
  destruct (dateOf a), (dateOf b); intros; cbn; congruence || lia.
Qed.

Lemma date_le_refl a : dated a -> date_le a a.
Proof. intros Ha. apply date_le_time; auto; lia. Qed.

Lemma StronglySorted_dated (l : list obj) :
  Forall dated l ->
  StronglySorted (fun x y => time_of x <= time_of y) l ->
  StronglySorted date_le l.
Proof.
  intros Hd Hs. induction Hs as [|x l Hs IH Hall]; [constructor|].
  apply Forall_cons in Hd as [Hx Hd].
  constructor; [by apply IH|].
  rewrite Forall_forall in *. intros y Hy.
  apply date_le_time; auto.
Qed.

Lemma Array_sort_by_date (l : list obj) :
  Forall dated l -> sorted_by_date (Array_sort by_date l).
Proof.
  intros Hd. split.
  - by rewrite Array_sort_Permutation.
  - apply StronglySorted_dated; [by rewrite Array_sort_Permutation|].
    rewrite (Array_sort_ext by_date
               (fun a b => Num (time_of a - time_of b))).
    + apply (Array_sort_sorted _ time_of). reflexivity.
    + rewrite Forall_forall in Hd. intros x y Hx Hy.
      apply by_date_dated; auto.
Qed.

Lemma upsert_dated (l : list obj) (entry : obj) :
  Forall dated l -> dated entry -> Forall dated (upsert l entry).
Proof.
  intros Hl He. unfold upsert.
  destruct (findIndex _ l) as [i|].
  - apply Forall_alter; [exact Hl|].
    intros e _ _. unfold dated in *. rewrite dateOf_spread.
    destruct (entry !! "date") eqn:E; [exact He|].
    exfalso. apply He. unfold dateOf. by rewrite E.
  - apply Forall_app. split; [exact Hl|by constructor].
Qed.

Lemma filter_sorted_by_date (P : obj -> Prop) `{forall e, Decision (P e)}
    (l : list obj) :
  sorted_by_date l -> sorted_by_date (filter P l).
Proof.
  intros [Hd Hs]. split.
  - rewrite Forall_forall in *. intros e [_ He]%list_elem_of_filter. auto.
  - clear Hd. induction Hs as [|x l Hs IH Hall]; [constructor|].
    destruct (decide (P x)).
    + rewrite filter_cons_True by done. constructor; [exact IH|].
      rewrite Forall_forall in *. intros e [_ He]%list_elem_of_filter. auto.
    + by rewrite filter_cons_False.
Qed.

Lemma apply_write_sorted ls w :
  sorted_by_date (getWeightEntries ls) -> dated_write w ->
  sorted_by_date (getWeightEntries (apply_write ls w)).
Proof.
  intros Hs Hw. destruct w as [now entry|id];
    cbn [apply_write dated_write] in *.
  - destruct (saveWeightEntry_entries ls now entry) as [[_ ->]|[_ ->]];
      [|exact Hs].
    apply Array_sort_by_date, upsert_dated; [apply Hs|].
    unfold dated. by rewrite dateOf_stamped.
  - destruct (deleteWeightEntry_entries ls id) as [-> | ->]; [|exact Hs].
    by apply filter_sorted_by_date.
Qed.

Lemma apply_writes_sorted writes ls :
  sorted_by_date (getWeightEntries ls) -> Forall dated_write writes ->
  sorted_by_date (getWeightEntries (foldl apply_write ls writes)).
Proof.
  revert ls. induction writes as [|w writes IH]; intros ls Hs Hw; [exact Hs|].
  apply Forall_cons in Hw as [Hw Hws].
  cbn. apply IH; [|exact Hws]. by apply apply_write_sorted.
Qed.

Lemma getLatestWeight_last ls : getLatestWeight ls = last (getWeightEntries ls).
Proof.
  unfold getLatestWeight. rewrite last_lookup.
  destruct (getWeightEntries ls) as [|e l]; cbn; [reflexivity|].
  by rewrite Nat.sub_0_r.
Qed.

Lemma sorted_last_latest (l : list obj) latest :
  sorted_by_date l -> last l = Some latest ->
  forall e, e ∈ l -> date_le e latest.
Proof.
  intros [Hd Hs]. revert latest.
  induction Hs as [|x l Hs IH Hall]; intros latest Hlast e He.
  - inversion He.
  - apply Forall_cons in Hd as [Hx Hd].
    destruct l as [|y l'].
    + cbn in Hlast. injection Hlast as <-.
      apply list_elem_of_singleton in He as ->. by apply date_le_refl.
    + change (last (y :: l') = Some latest) in Hlast.
      apply elem_of_cons in He as [->|He].
      * rewrite Forall_forall in Hall. apply Hall.
        rewrite last_lookup in Hlast.
        by eapply list_elem_of_lookup_2.
      * by apply IH.
Qed.

(** C2: start from a weight collection ordered by date (the empty one is)
    and apply any run of saves of dated entries and of deletions: the
    collection read afterwards is ordered by date, never decreasing, and
    [getLatestWeight] returns its last element, which no entry is dated
    after, or [null] when it is empty. *)
Theorem C2_weight_entries_sorted_after_every_write
    (ls0 : localStorage) (writes : list weight_write) :
  sorted_by_date (getWeightEntries ls0) ->
  Forall dated_write writes ->
  let ls := foldl apply_write ls0 writes in
  let entries := getWeightEntries ls in
  StronglySorted date_le entries
  /\ Forall dated entries
  /\ getLatestWeight ls = last entries
  /\ (entries = [] -> getLatestWeight ls = None)
  /\ (forall latest, getLatestWeight ls = Some latest ->
        forall e, e ∈ entries -> date_le e latest).
Proof.
  intros Hs0 Hw ls entries.
  pose proof (apply_writes_sorted writes ls0 Hs0 Hw) as Hs.
  fold ls entries in Hs.
  pose proof (getLatestWeight_last ls) as Hlast. fold entries in Hlast.
  repeat apply conj.
  - apply Hs.
  - apply Hs.
  - exact Hlast.
  - intros E. rewrite Hlast, E. reflexivity.
  - intros latest Hl. rewrite Hlast in Hl.
    by apply sorted_last_latest.
Qed.

(** A collection ordered by date is in the order of the claim. *)
Lemma StronglySorted_lookup_lt {A} (R : A -> A -> Prop) (l : list A) i j a b :
  StronglySorted R l -> (i < j)%nat ->
  l !! i = Some a -> l !! j = Some b -> R a b.
Proof.
  intros Hs. revert i j.
  induction Hs as [|x l Hs IH Hall]; intros i j Hij Hi Hj.
  - by rewrite lookup_nil in Hi.
  - destruct j as [|j]; [lia|]. cbn in Hj.
    destruct i as [|i].
    + cbn in Hi. injection Hi as <-. rewrite Forall_forall in Hall.
      apply Hall. by eapply list_elem_of_lookup_2.
    + cbn in Hi. apply (IH i j); [lia|done|done].
Qed.

Lemma sorted_in_date_order (ls : localStorage) :
  sorted_by_date (getWeightEntries ls) -> weights_in_date_order ls.
Proof.
  intros Hs. split.
  - intros i j a b ta tb Hij Hi Hj Ea Eb.
    pose proof (StronglySorted_lookup_lt _ _ _ _ _ _ (proj2 Hs) Hij Hi Hj)
      as Hle.
    unfold date_le in Hle. by rewrite Ea, Eb in Hle.
  - intros latest e tl te Hl He El Ee.
    rewrite getLatestWeight_last in Hl.
    pose proof (sorted_last_latest _ _ Hs Hl e He) as Hle.
    unfold date_le in Hle. by rewrite El, Ee in Hle.
Qed.

End WeightOrder.

(** ** Date ranges *)

Section RangeFacts.
Context `{Platform}.
Import ES ESFacts Storage.

Lemma startOfDay_bounds t : startOfDay t <= t < startOfDay t + msPerDay.
Proof.
  unfold startOfDay. pose proof (TimeWithinDay_range (LocalTime t)). lia.
Qed.

Lemma LocalTime_startOfDay t :
  LocalTime (startOfDay t) = Day (LocalTime t) * msPerDay.
Proof.
  unfold startOfDay. pose proof (Day_TimeWithinDay (LocalTime t)) as E.
  unfold LocalTime in *. lia.
Qed.

Lemma Day_startOfDay t : Day (LocalTime (startOfDay t)) = Day (LocalTime t).
Proof.
  rewrite LocalTime_startOfDay. unfold Day.
  apply Z.div_mul. unfold msPerDay. lia.
Qed.

Lemma TimeWithinDay_startOfDay t : TimeWithinDay (LocalTime (startOfDay t)) = 0.
Proof.
  rewrite LocalTime_startOfDay. unfold TimeWithinDay.
  apply Z.mod_mul. unfold msPerDay. lia.
Qed.

Lemma Day_endOfDay t : Day (LocalTime (endOfDay t)) = Day (LocalTime t).
Proof.
  unfold endOfDay. rewrite LocalTime_shift, LocalTime_startOfDay.
  unfold Day, msPerDay.
  rewrite Z.add_comm, Z.div_add by lia. reflexivity.
Qed.

Lemma TimeWithinDay_endOfDay t :
  TimeWithinDay (LocalTime (endOfDay t)) = MakeTime 23 59 59 999.
Proof.
  unfold endOfDay. rewrite LocalTime_shift, LocalTime_startOfDay.
  unfold TimeWithinDay, msPerDay.
  rewrite Z.add_comm, Z.mod_add by lia. reflexivity.
Qed.


Lemma setHours_start t : setHours (Num t) 0 0 0 0 = TimeClip (startOfDay t).
Proof. rewrite setHours_Num. unfold startOfDay, MakeTime. f_equal. lia. Qed.

Lemma setHours_end t : setHours (Num t) 23 59 59 999 = TimeClip (endOfDay t).
Proof.
  rewrite setHours_Num. unfold endOfDay, startOfDay. reflexivity.
Qed.

Lemma TimeClip_in_range t : Z.abs t <= maxTime -> TimeClip t = Num t.
Proof.
  intros Hr. unfold TimeClip. destruct (Z.leb_spec (Z.abs t) maxTime); [done|lia].
Qed.

(** The range query between two dates whose day bounds are dates. *)
Lemma getFoodEntriesByDateRange_Num ls start end_ :
  Z.abs (startOfDay start) <= maxTime ->
  Z.abs (endOfDay end_) <= maxTime ->
  getFoodEntriesByDateRange ls (Num start) (Num end_)
  = filter (fun e : obj => within (startOfDay start) (endOfDay end_) (dateOf e))
           (getFoodEntries ls).
Proof.
  intros Hs He. unfold getFoodEntriesByDateRange.
  rewrite setHours_start, setHours_end, !TimeClip_in_range by assumption.
  apply list_filter_iff. intros e. fold (dateOf e).
  destruct (dateOf e); reflexivity.
Qed.

(** C3: the range query returns, in their order, the entries whose date lies
    from 00:00:00.000 local time of the day of [start] to 23:59:59.999 local
    time of the day of [end_], both included; an entry dated [start] or
    [end_] is returned, one dated a day before [start] or a day after
    [end_] is not. *)
Theorem C3_date_range_is_inclusive_of_both_days
    (ls : localStorage) (start end_ : Z) :
  let s0 := startOfDay start in
  let e0 := endOfDay end_ in
  let result := getFoodEntriesByDateRange ls (Num start) (Num end_) in
  Z.abs s0 <= maxTime -> Z.abs e0 <= maxTime -> start <= end_ ->
  (setHours (Num start) 0 0 0 0 = Num s0
   /\ Day (LocalTime s0) = Day (LocalTime start)
   /\ TimeWithinDay (LocalTime s0) = MakeTime 0 0 0 0)
  /\ (setHours (Num end_) 23 59 59 999 = Num e0
      /\ Day (LocalTime e0) = Day (LocalTime end_)
      /\ TimeWithinDay (LocalTime e0) = MakeTime 23 59 59 999)
  /\ result
     = filter (fun e : obj => within s0 e0 (dateOf e)) (getFoodEntries ls)
  /\ forall e, e ∈ getFoodEntries ls ->
       (dateOf e = Num start -> e ∈ result)
       /\ (dateOf e = Num end_ -> e ∈ result)
       /\ (dateOf e = Num (start - msPerDay) -> e ∉ result)
       /\ (dateOf e = Num (end_ + msPerDay) -> e ∉ result).
Proof.
  intros s0 e0 result Hs He Hle.
  pose proof (getFoodEntriesByDateRange_Num ls start end_ Hs He) as Hres.
  fold s0 e0 result in Hres.
  pose proof (startOfDay_bounds start) as Bs. fold s0 in Bs.
  pose proof (startOfDay_bounds end_) as Be.
  assert (Be' : e0 - (msPerDay - 1) <= end_ <= e0)
    by (unfold e0, endOfDay; lia).
  repeat apply conj.
  - rewrite setHours_start. by apply TimeClip_in_range.
  - apply Day_startOfDay.
  - apply TimeWithinDay_startOfDay.
  - rewrite setHours_end. by apply TimeClip_in_range.
  - apply Day_endOfDay.
  - apply TimeWithinDay_endOfDay.
  - exact Hres.
  - intros e Hin. rewrite Hres.
    repeat apply conj; intros Hd; rewrite list_elem_of_filter, Hd;
      unfold within, msPerDay in *.
    + split; [|exact Hin]. apply Is_true_true, andb_true_iff. lia.
    + split; [|exact Hin]. apply Is_true_true, andb_true_iff. lia.
    + intros [Hw _]. apply Is_true_true, andb_true_iff in Hw. lia.
    + intros [Hw _]. apply Is_true_true, andb_true_iff in Hw. lia.
Qed.

End RangeFacts.

(** ** The monthly series *)

Section MonthFacts.
Context `{Platform}.
Import ES ESFacts Storage.




End MonthFacts.


(** C2 as written fails, for a save whose date is no date: after the saves
    for 5 January, for the text "kcal" and for 1 January the collection
    holds them in that order.  The comparator returns [NaN] next to the
    undated entry, the sort leaves the three where they are, the entry of
    5 January comes before that of 1 January, and [getLatestWeight]
    returns the entry of 1 January. *)
Lemma C2_save_without_a_date_breaks_the_order :
  let P := utc_browser in
  let ls := foldl apply_write ∅ unsorting_saves in
  (fun e : obj => e !! "date") <$> Storage.getWeightEntries ls
  = [ Some (JStr "2024-01-05"); Some (JStr "kcal"); Some (JStr "2024-01-01") ]
  /\ (fun e : obj => e !! "date") <$> Storage.getLatestWeight ls
     = Some (Some (JStr "2024-01-01"))
  /\ ~ in_date_order (Storage.getWeightEntries ls)
  /\ ~ latest_is_last ls
  /\ ~ weights_in_date_order ls.
Proof.
  intros P ls.
  assert (Ho : ~ in_date_order (Storage.getWeightEntries ls)).
  { intros Ho.
    specialize (Ho 0%nat 2%nat
      (stamped 1704448800000
         {[ "date" := JStr "2024-01-05"; "weight" := JNum 71 ]})
      (stamped 1704456000000
         {[ "date" := JStr "2024-01-01"; "weight" := JNum 70 ]})
      1704412800000 1704067200000).
    assert (1704412800000 <= 1704067200000); [|lia].
    apply Ho; [lia|vm_compute; reflexivity..]. }
  assert (Hl : ~ latest_is_last ls).
  { intros Hl.
    specialize (Hl
      (stamped 1704456000000
         {[ "date" := JStr "2024-01-01"; "weight" := JNum 70 ]})
      (stamped 1704448800000
         {[ "date" := JStr "2024-01-05"; "weight" := JNum 71 ]})
      1704067200000 1704412800000).
    assert (1704412800000 <= 1704067200000); [|lia].
    apply Hl; [vm_compute; reflexivity| |vm_compute; reflexivity..].
    apply (list_elem_of_lookup_2 _ 0%nat). vm_compute. reflexivity. }
  repeat apply conj; [vm_compute; reflexivity|vm_compute; reflexivity| | |].
  - exact Ho.
  - exact Hl.
  - intros [Ho' _]. exact (Ho Ho').
Qed.

(** C10 as written fails, for calories that are digit strings beyond the
    range of binary64: [parseInt] reads 400 nines as [Infinity] and the same
    with a minus sign as [-Infinity], neither is falsy, and their sum, the
    total, is [NaN]. *)
Lemma C10_total_of_opposite_infinities_is_NaN :
  Binary64.parseInt (Some (JStr nines)) = Binary64.Infinity false
  /\ Binary64.parseInt (Some (JStr ("-" ++ nines))) = Binary64.Infinity true
  /\ Binary64.calculateTotalCalories opposite_infinities = Binary64.NaN
  /\ ~ (forall entries : list obj,
          Binary64.calculateTotalCalories entries <> Binary64.NaN).
Proof.
  assert (E : Binary64.calculateTotalCalories opposite_infinities = Binary64.NaN)
    by (vm_compute; reflexivity).
  repeat apply conj; try (vm_compute; reflexivity).
  intros Hall. exact (Hall _ E).
Qed.

(** ** Scenarios *)

(** Wednesday 3 January 2024, 15:30 UTC: the week starts on Monday
    1 January, two days before, and ends on Sunday 7 January. *)
Example weekStart_of_a_wednesday :
  @Utils.getWeekStart utc_browser (Num 1704295800000) = Num 1704123000000
  /\ @Utils.getWeekEnd utc_browser (Num 1704295800000) = Num 1704641400000
  /\ @toDateString utc_browser (Num 1704295800000) = DateString 3 0 3 2024
  /\ @toDateString utc_browser (Num 1704123000000) = DateString 1 0 1 2024.
Proof. repeat split; vm_compute; reflexivity. Qed.

(** Sunday 7 January 2024, 15:30 UTC: the week starts six days before. *)
Example weekStart_of_a_sunday :
  @Utils.getWeekStart utc_browser (Num 1704641400000) = Num 1704123000000
  /\ @toDateString utc_browser (Num 1704641400000) = DateString 0 0 7 2024.
Proof. repeat split; vm_compute; reflexivity. Qed.

(** The entries of 10 January are the egg and the toast: 190 calories. *)
Example calories_of_a_day :
  let day := @Storage.getFoodEntriesByDate utc_browser sample_foods
               (iso_date_parse "2024-01-10") in
  (fun e : obj => e !! "name") <$> day
  = [Some (JStr "Egg"); Some (JStr "Toast")]
  /\ Utils.calculateTotalCalories day = Num 190.
Proof. split; vm_compute; reflexivity. Qed.

(** From 10 to 12 January, five hours west of Greenwich: the entries of the
    10th and of the 12th are returned, those of the 9th and of the 13th are
    not. *)
Example range_of_three_days :
  (fun e : obj => e !! "name")
    <$> @Storage.getFoodEntriesByDateRange western_browser sample_foods
          (iso_date_parse "2024-01-10") (iso_date_parse "2024-01-12")
  = [Some (JStr "Egg"); Some (JStr "Toast"); Some (JStr "Rice")].
Proof. vm_compute. reflexivity. Qed.

(** The sample writes leave the entries of 1 and of 3 January, in that
    order, the first with the weight saved last. *)
Example weights_after_sample_writes :
  (fun e : obj => (e !! "date", e !! "weight"))
    <$> Storage.getWeightEntries (foldl (@apply_write utc_browser) ∅ sample_writes)
  = [ (Some (JStr "2024-01-01"), Some (JNum 69.5));
      (Some (JStr "2024-01-03"), Some (JNum 70.5)) ].
Proof. vm_compute. reflexivity. Qed.

Example hash_of_1234 : Auth.hashPin "1234" = "cf_wcoy_4"%string.
Proof. vm_compute. reflexivity. Qed.

Example parseInt_samples :
  parseInt (Some (JStr "12px")) = Num 12
  /\ parseInt (Some (JStr "  -0x1F")) = Num (-31)
  /\ parseInt (Some (JStr (String (ascii_of_nat 160) "12"))) = Num 12
  /\ parseInt (Some (JStr "kcal")) = NaN
  /\ parseInt (Some (JNum 69.5)) = Num 69
  /\ parseInt (Some JNull) = NaN
  /\ parseInt None = NaN.
Proof. repeat split; vm_compute; reflexivity. Qed.

(** ** The properties at concrete inputs *)

Lemma C1_witness :
  let P := utc_browser in
  let ls := save_all ∅ (take 1 scenario_saves) in
  let entry : obj := {[ "date" := JStr "2024-01-01"; "weight" := JNum 69.5 ]} in
  length (Storage.getWeightEntries
            (fst (Storage.saveWeightEntry ls 1704106800000 entry)))
  = 1%nat.
Proof.
  intros P ls entry.
  destruct C1_weight_entries_one_per_day_and_save_replaces as (_ & Hrep & _).
  destruct (Hrep P ls 1704106800000 entry 0%nat
              (stamped 1704103200000
                 {[ "date" := JStr "2024-01-01"; "weight" := JNum 70 ]}))
    as (E & L & _).
  - vm_compute. reflexivity.
  - vm_compute. reflexivity.
  - intros j e' _ Hj. lia.
  - reflexivity.
  - rewrite E, L. vm_compute. reflexivity.
Defined.

Lemma C2_witness :
  let P := utc_browser in
  let ls := foldl apply_write ∅ sample_writes in
  sorted_by_date (Storage.getWeightEntries ∅)
  /\ Forall dated_write sample_writes
  /\ StronglySorted date_le (Storage.getWeightEntries ls)
  /\ Storage.getLatestWeight ls = last (Storage.getWeightEntries ls).
Proof.
  intros P ls.
  assert (H0 : sorted_by_date (Storage.getWeightEntries ∅))
    by (split; constructor).
  assert (Hw : Forall dated_write sample_writes)
    by (repeat constructor; vm_compute; discriminate).
  destruct (C2_weight_entries_sorted_after_every_write ∅ sample_writes H0 Hw)
    as (Hs & _ & Hl & _).
  exact (conj H0 (conj Hw (conj Hs Hl))).
Defined.

Lemma C3_witness :
  let P := western_browser in
  let start := 1704844800000 in
  let end_ := 1705017600000 in
  Z.abs (startOfDay start) <= ES.maxTime
  /\ Z.abs (endOfDay end_) <= ES.maxTime
  /\ start <= end_
  /\ Storage.getFoodEntriesByDateRange sample_foods (Num start) (Num end_)
     = filter (fun e : obj => within (startOfDay start) (endOfDay end_) (dateOf e))
              (Storage.getFoodEntries sample_foods).
Proof.
  intros P start end_.
  assert (Hs : Z.abs (startOfDay start) <= ES.maxTime) by (by vm_compute).
  assert (He : Z.abs (endOfDay end_) <= ES.maxTime) by (by vm_compute).
  assert (Hle : start <= end_) by (by vm_compute).
  destruct (C3_date_range_is_inclusive_of_both_days sample_foods start end_
              Hs He Hle) as (_ & _ & Hres & _).
  exact (conj Hs (conj He (conj Hle Hres))).
Defined.


Lemma C5_witness :
  let P := utc_browser in
  let updates : obj := {[ "calories" := JNum 130 ]} in
  first_with_id "2" (Storage.getFoodEntries sample_foods) 1 toast
  /\ snd (Storage.updateFoodEntry sample_foods "2" updates)
     = Some (spread toast updates)
  /\ no_id "9" (Storage.getFoodEntries sample_foods)
  /\ Storage.updateFoodEntry sample_foods "9" updates = (sample_foods, None).
Proof.
  intros P updates.
  assert (Hfirst : first_with_id "2" (Storage.getFoodEntries sample_foods) 1 toast).
  { repeat apply conj; [reflexivity|reflexivity|].
    intros j e' Hj Hlt. assert (j = 0%nat) as -> by lia.
    vm_compute in Hj. injection Hj as <-. vm_compute. discriminate. }
  assert (Hno : no_id "9" (Storage.getFoodEntries sample_foods))
    by (repeat constructor; vm_compute; discriminate).
  destruct (C5_update_merges_found_record_and_returns_null_otherwise
              sample_foods "9" updates) as (_ & Habsent & _).
  destruct (C5_update_merges_found_record_and_returns_null_otherwise
              sample_foods "2" updates) as (Hfound & _).
  destruct (Hfound 1%nat toast Hfirst) as (Hret & _).
  exact (conj Hfirst (conj Hret (conj Hno (Habsent Hno)))).
Defined.

Lemma C6_witness :
  let P := utc_browser in
  (∅ : localStorage) !! Storage.KEYS.SETTINGS = None
  /\ Storage.getSettings
       (Storage.saveSettings ∅ {[ "calorieGoal" := JNum 1800 ]})
     !! "weightUnit" = Some (JStr "kg").
Proof.
  intros P.
  destruct (C6_settings_default_and_partial_update_keeps_other_keys
              ∅ {[ "calorieGoal" := JNum 1800 ]}) as (_ & _ & _ & Hkg).
  split; [reflexivity|]. apply Hkg. reflexivity.
Defined.

Lemma C8_witness :
  let P := utc_browser in
  no_id "9" (Storage.getFoodEntries sample_foods)
  /\ snd (Storage.deleteFoodEntry sample_foods "9") = true
  /\ Storage.getFoodEntries (fst (Storage.deleteFoodEntry sample_foods "9"))
     = Storage.getFoodEntries sample_foods.
Proof.
  intros P.
  assert (Hno : no_id "9" (Storage.getFoodEntries sample_foods))
    by (repeat constructor; vm_compute; discriminate).
  destruct (C8_delete_absent_id_is_noop_and_delete_is_idempotent
              sample_foods "9") as (Habsent & _).
  destruct (Habsent Hno) as [Ht Hsame].
  exact (conj Hno (conj Ht Hsame)).
Defined.

Lemma C9_witness :
  let P := utc_browser in
  (String.length "123" < 4)%nat
  /\ (exists msg,
        Auth.setPin ∅ "123"
        = (∅, Auth.Return {| Auth.success := false; Auth.error := Some msg |}))
  /\ (4 <= String.length "1234")%nat
  /\ setItem_fits ∅ Auth.STORAGE_KEY (SText (Auth.hashPin "1234")) = true
  /\ fst (Auth.setPin ∅ "1234") !! Auth.STORAGE_KEY
     = Some (SText (Auth.hashPin "1234")).
Proof.
  intros P.
  assert (Hshort : (String.length "123" < 4)%nat) by (cbn; lia).
  assert (Hlong : (4 <= String.length "1234")%nat) by (cbn; lia).
  assert (Hfit : setItem_fits ∅ Auth.STORAGE_KEY (SText (Auth.hashPin "1234"))
                 = true) by reflexivity.
  destruct (C9_set_pin_rejects_short_pin_and_stores_hash_otherwise ∅ "123")
    as (Hrej & _).
  destruct (C9_set_pin_rejects_short_pin_and_stores_hash_otherwise ∅ "1234")
    as (_ & Hacc).
  destruct (Hacc Hlong Hfit) as (_ & Hstored & _).
  exact (conj Hshort (conj (Hrej Hshort) (conj Hlong (conj Hfit Hstored)))).
Defined.

Lemma C10_witness :
  let P := utc_browser in
  let entries := Storage.getFoodEntries sample_foods in
  sum_magnitudes entries <= 2 ^ 53
  /\ Forall (fun e => Z.abs (calories_or_zero e) < 2 ^ 1024 - 2 ^ 970) entries
  /\ Forall (fun e => 0 <= calories_or_zero e) entries
  /\ Binary64.calculateTotalCalories entries = Binary64.Int 1090
  /\ Binary64.calculateTotalCalories entries <> Binary64.NaN.
Proof.
  intros P entries.
  assert (Hb : sum_magnitudes entries <= 2 ^ 53) by (vm_compute; discriminate).
  assert (Hf : Forall (fun e => Z.abs (calories_or_zero e) < 2 ^ 1024 - 2 ^ 970)
                      entries)
    by (repeat constructor; vm_compute; reflexivity).
  assert (Hn : Forall (fun e => 0 <= calories_or_zero e) entries)
    by (repeat constructor; vm_compute; discriminate).
  destruct (C10_total_is_binary64_sum_and_a_number_for_finite_calories entries)
    as (_ & _ & _ & _ & _ & Hsafe & Hfin & _).
  destruct (Hsafe Hb) as [E _].
  exact (conj Hb (conj Hf (conj Hn (conj E (Hfin Hf))))).
Defined.

(** * Further properties of the code *)

(** ** The calendar *)

Module CalendarFacts.
Import ES ESFacts.

Lemma DayFromYear_mono y1 y2 : y1 <= y2 -> DayFromYear y1 <= DayFromYear y2.
Proof. intros Hle. unfold DayFromYear. Z.div_mod_to_equations. lia. Qed.

(** The year of a time is the one year whose days contain its day. *)
Lemma YearFromTime_unique t y :
  DayFromYear y <= Day t < DayFromYear (y + 1) -> YearFromTime t = y.
Proof.
  intros Hy. pose proof (YearFromTime_spec t) as Hs.
  destruct (Z.lt_trichotomy (YearFromTime t) y) as [Hlt|[E|Hgt]]; [|exact E|].
  - pose proof (DayFromYear_mono (YearFromTime t + 1) y ltac:(lia)). lia.
  - pose proof (DayFromYear_mono (y + 1) (YearFromTime t) ltac:(lia)). lia.
Qed.

(** Year, month, date and weekday are functions of the day. *)
Lemma YearFromTime_Day t t' : Day t = Day t' -> YearFromTime t = YearFromTime t'.
Proof. unfold YearFromTime. by intros ->. Qed.

Lemma MonthFromTime_Day t t' :
  Day t = Day t' -> MonthFromTime t = MonthFromTime t'.
Proof.
  intros E. unfold MonthFromTime, DayWithinYear, InLeapYear.
  by rewrite (YearFromTime_Day t t' E), E.
Qed.

Lemma DateFromTime_Day t t' : Day t = Day t' -> DateFromTime t = DateFromTime t'.
Proof.
  intros E. unfold DateFromTime, DayWithinYear, InLeapYear.
  by rewrite (MonthFromTime_Day t t' E), (YearFromTime_Day t t' E), E.
Qed.

Lemma WeekDay_Day t t' : Day t = Day t' -> WeekDay t = WeekDay t'.
Proof. unfold WeekDay. by intros ->. Qed.

(** And the day is recovered from year, month and date. *)
Lemma Day_of_components t t' :
  YearFromTime t = YearFromTime t' -> MonthFromTime t = MonthFromTime t' ->
  DateFromTime t = DateFromTime t' -> Day t = Day t'.
Proof.
  intros Ey Em Ed.
  pose proof (MakeDay_DateFromTime t 0) as H1.
  pose proof (MakeDay_DateFromTime t' 0) as H2.
  rewrite Ey, Em, Ed in H1. lia.
Qed.

Lemma leapOf_cases y :
  (leapOf y = 0 /\ DaysInYear y = 365) \/ (leapOf y = 1 /\ DaysInYear y = 366).
Proof.
  unfold leapOf. destruct (DaysInYear_cases y) as [-> | ->]; cbn; auto.
Qed.

(** The time whose day is day [k] (from 0) of month [m] of year [y] has
    that year, month and date. *)
Lemma components_of_day t y m k :
  0 <= m <= 11 -> 0 <= k < daysInMonth m (leapOf y) ->
  Day t = DayFromYear y + monthStartDay m (leapOf y) + k ->
  YearFromTime t = y /\ MonthFromTime t = m /\ DateFromTime t = k + 1.
Proof.
  intros Hm Hk Hd.
  assert (Hy : YearFromTime t = y).
  { apply YearFromTime_unique. rewrite DayFromYear_next.
    destruct (leapOf_cases y) as [[El Ey]|[El Ey]]; rewrite El in *; rewrite Ey;
      assert (m = 0 \/ m = 1 \/ m = 2 \/ m = 3 \/ m = 4 \/ m = 5 \/ m = 6
              \/ m = 7 \/ m = 8 \/ m = 9 \/ m = 10 \/ m = 11) as Hc by lia;
      repeat (destruct Hc as [-> | Hc]); try subst m;
      cbn [monthStartDay daysInMonth] in *; lia. }
  assert (Hw : DayWithinYear t = monthStartDay m (leapOf y) + k)
    by (unfold DayWithinYear; rewrite Hy; lia).
  assert (Hl : InLeapYear t = leapOf y)
    by (unfold InLeapYear, leapOf; by rewrite Hy).
  assert (Hmo : MonthFromTime t = m).
  { unfold MonthFromTime. rewrite Hw, Hl.
    destruct (leapOf_cases y) as [[El _]|[El _]]; rewrite El in *;
      assert (m = 0 \/ m = 1 \/ m = 2 \/ m = 3 \/ m = 4 \/ m = 5 \/ m = 6
              \/ m = 7 \/ m = 8 \/ m = 9 \/ m = 10 \/ m = 11) as Hc by lia;
      repeat (destruct Hc as [-> | Hc]); try subst m;
      cbn [monthStartDay daysInMonth] in *;
      repeat match goal with
             | |- context [if ?a <? ?b then _ else _] =>
                 destruct (Z.ltb_spec a b); try lia
             end. }
  repeat split; [exact Hy|exact Hmo|].
  unfold DateFromTime. rewrite Hmo, Hw, Hl. lia.
Qed.

(** Conversely the date of a time is a day of its month. *)
Lemma DateFromTime_in_month t :
  1 <= DateFromTime t <= daysInMonth (MonthFromTime t) (InLeapYear t).
Proof.
  pose proof (DayWithinYear_range t) as Hd.
  assert (Hl : (InLeapYear t = 0 /\ DaysInYear (YearFromTime t) = 365)
               \/ (InLeapYear t = 1 /\ DaysInYear (YearFromTime t) = 366))
    by apply leapOf_cases.
  unfold DateFromTime, MonthFromTime.
  destruct Hl as [[El Ey]|[El Ey]]; rewrite El, Ey in *;
    repeat match goal with
           | |- context [if ?a <? ?b then _ else _] =>
               destruct (Z.ltb_spec a b)
           end; cbn [monthStartDay daysInMonth]; lia.
Qed.

End CalendarFacts.

(** ** Month boundaries *)

Section MonthBounds.
Context `{Platform}.
Import ES ESFacts CalendarFacts.

Lemma LocalTime_localMidnight d : LocalTime (localMidnight d) = d * msPerDay.
Proof. unfold localMidnight, UTC, LocalTime. lia. Qed.

Lemma Day_localMidnight d : Day (LocalTime (localMidnight d)) = d.
Proof.
  rewrite LocalTime_localMidnight. unfold Day.
  apply Z.div_mul. unfold msPerDay. lia.
Qed.

Lemma TimeWithinDay_localMidnight d :
  TimeWithinDay (LocalTime (localMidnight d)) = 0.
Proof.
  rewrite LocalTime_localMidnight. unfold TimeWithinDay.
  apply Z.mod_mul. unfold msPerDay. lia.
Qed.

Lemma new_Date_ymd_Num y m dt :
  ~ (0 <= y <= 99) ->
  new_Date_ymd (Num y) (Num m) (Num dt)
  = TimeClip (localMidnight (MakeDay y m dt)).
Proof.
  intros Hy. unfold new_Date_ymd, localMidnight, MakeDate.
  destruct (Z.leb_spec 0 y), (Z.leb_spec y 99); cbn [andb]; try lia;
    repeat f_equal; unfold MakeTime; lia.
Qed.

Lemma firstDayOfMonth_day t :
  firstDayOfMonth t
  = DayFromYear (YearFromTime (LocalTime t))
    + monthStartDay (MonthFromTime (LocalTime t)) (leapOf (YearFromTime (LocalTime t))).
Proof.
  unfold firstDayOfMonth, DateFromTime, DayWithinYear, InLeapYear, leapOf. lia.
Qed.

Lemma MakeDay_first t :
  MakeDay (YearFromTime (LocalTime t)) (MonthFromTime (LocalTime t)) 1
  = firstDayOfMonth t.
Proof.
  pose proof (MakeDay_DateFromTime (LocalTime t)
                (1 - DateFromTime (LocalTime t))) as E.
  replace (DateFromTime (LocalTime t) + (1 - DateFromTime (LocalTime t)))
    with 1 in E by lia.
  rewrite E. unfold firstDayOfMonth. lia.
Qed.

Lemma monthStartDay_next m leap :
  0 <= m <= 11 ->
  monthStartDay m leap + daysInMonth m leap
  = if m =? 11 then 365 + leap else monthStartDay (m + 1) leap.
Proof.
  intros Hm.
  assert (m = 0 \/ m = 1 \/ m = 2 \/ m = 3 \/ m = 4 \/ m = 5 \/ m = 6
          \/ m = 7 \/ m = 8 \/ m = 9 \/ m = 10 \/ m = 11) as Hc by lia.
  repeat (destruct Hc as [-> | Hc]); try subst m;
    match goal with
    | |- context [monthStartDay (?a + 1) _] =>
        let v := eval vm_compute in (a + 1) in change (a + 1) with v
    end;
    cbn [monthStartDay daysInMonth Z.eqb Pos.eqb]; lia.
Qed.

Lemma MakeDay_last t :
  MakeDay (YearFromTime (LocalTime t)) (MonthFromTime (LocalTime t) + 1) 0
  = lastDayOfMonth t.
Proof.
  unfold lastDayOfMonth. rewrite firstDayOfMonth_day.
  set (y := YearFromTime (LocalTime t)).
  set (m := MonthFromTime (LocalTime t)).
  assert (Hm : 0 <= m <= 11) by apply MonthFromTime_range.
  assert (El : InLeapYear (LocalTime t) = leapOf y) by reflexivity.
  rewrite El.
  pose proof (monthStartDay_next m (leapOf y) Hm) as Hn.
  unfold MakeDay. destruct (Z.eqb_spec m 11) as [E|Hne].
  - rewrite E in *. change ((11 + 1) / 12) with 1.
    change ((11 + 1) mod 12) with 0. cbn [monthStartDay].
    rewrite DayFromYear_next.
    destruct (leapOf_cases y) as [[E1 E2]|[E1 E2]]; rewrite E1, E2 in *;
      cbn [daysInMonth monthStartDay] in *; clearbody y m; lia.
  - rewrite (Z.div_small (m + 1) 12), (Z.mod_small (m + 1) 12) by lia.
    rewrite !Z.add_0_r. fold (leapOf y). lia.
Qed.

(** The first and the last day of the month have the year and the month of
    [t] and the dates 1 and the length of the month. *)
Lemma firstDayOfMonth_components t s :
  Day s = firstDayOfMonth t ->
  YearFromTime s = YearFromTime (LocalTime t)
  /\ MonthFromTime s = MonthFromTime (LocalTime t)
  /\ DateFromTime s = 1.
Proof.
  intros Hs. rewrite firstDayOfMonth_day in Hs.
  pose proof (MonthFromTime_range (LocalTime t)) as Hm.
  apply (components_of_day s _ _ 0); [exact Hm| |lia].
  pose proof (DateFromTime_in_month (LocalTime t)). 
  change (InLeapYear (LocalTime t)) with (leapOf (YearFromTime (LocalTime t))) in *.
  lia.
Qed.

Lemma lastDayOfMonth_components t s :
  Day s = lastDayOfMonth t ->
  YearFromTime s = YearFromTime (LocalTime t)
  /\ MonthFromTime s = MonthFromTime (LocalTime t)
  /\ DateFromTime s
     = daysInMonth (MonthFromTime (LocalTime t)) (InLeapYear (LocalTime t)).
Proof.
  intros Hs. unfold lastDayOfMonth in Hs. rewrite firstDayOfMonth_day in Hs.
  pose proof (MonthFromTime_range (LocalTime t)) as Hm.
  pose proof (DateFromTime_in_month (LocalTime t)) as Hd.
  change (InLeapYear (LocalTime t)) with (leapOf (YearFromTime (LocalTime t))) in *.
  destruct (components_of_day s (YearFromTime (LocalTime t))
              (MonthFromTime (LocalTime t))
              (daysInMonth (MonthFromTime (LocalTime t))
                 (leapOf (YearFromTime (LocalTime t))) - 1))
    as (Ey & Em & Ed); [exact Hm|lia|lia|].
  repeat split; [exact Ey|exact Em|lia].
Qed.

Lemma daysInMonth_pos m leap : 0 <= leap <= 1 -> 28 <= daysInMonth m leap <= 31.
Proof.
  intros Hl. unfold daysInMonth.
  repeat match goal with |- context [match ?x with _ => _ end] => destruct x end;
    lia.
Qed.

Lemma leapOf_range y : 0 <= leapOf y <= 1.
Proof. destruct (leapOf_cases y) as [[-> _]|[-> _]]; lia. Qed.

(** The day after the last day of a month is a first of the month. *)
Lemma day_after_lastDayOfMonth t s :
  Day s = lastDayOfMonth t + 1 -> DateFromTime s = 1.
Proof.
  intros Hs. unfold lastDayOfMonth in Hs. rewrite firstDayOfMonth_day in Hs.
  set (y := YearFromTime (LocalTime t)) in *.
  set (m := MonthFromTime (LocalTime t)) in *.
  assert (Hm : 0 <= m <= 11) by apply MonthFromTime_range.
  change (InLeapYear (LocalTime t)) with (leapOf y) in Hs.
  pose proof (monthStartDay_next m (leapOf y) Hm) as Hn.
  destruct (Z.eqb_spec m 11) as [E|Hne].
  - destruct (components_of_day s (y + 1) 0 0) as (_ & _ & Ed);
      [lia|pose proof (daysInMonth_pos 0 _ (leapOf_range (y + 1))); lia| |exact Ed].
    rewrite DayFromYear_next. cbn [monthStartDay].
    destruct (leapOf_cases y) as [[E1 E2]|[E1 E2]]; rewrite E1, E2 in *; lia.
  - destruct (components_of_day s y (m + 1) 0) as (_ & _ & Ed);
      [lia|pose proof (daysInMonth_pos (m + 1) _ (leapOf_range y)); lia|lia|exact Ed].
Qed.

Lemma getMonthStart_Num t :
  ~ (0 <= YearFromTime (LocalTime t) <= 99) ->
  Utils.getMonthStart (Num t) = TimeClip (localMidnight (firstDayOfMonth t)).
Proof.
  intros Hy. unfold Utils.getMonthStart, getFullYear, getMonth.
  rewrite new_Date_ymd_Num by exact Hy. by rewrite MakeDay_first.
Qed.

Lemma getMonthEnd_Num t :
  ~ (0 <= YearFromTime (LocalTime t) <= 99) ->
  Utils.getMonthEnd (Num t) = TimeClip (localMidnight (lastDayOfMonth t)).
Proof.
  intros Hy. unfold Utils.getMonthEnd, getFullYear, getMonth. cbn [num_add].
  rewrite new_Date_ymd_Num by exact Hy. by rewrite MakeDay_last.
Qed.

(** X1: [getMonthStart]: for a date whose local year is not one of 0 to 99 the
    result is local midnight of the first day of the month of the date: same
    year, same month, date 1, not after the date. *)
Theorem getMonthStart_first_of_month (t : Z) :
  ~ (0 <= YearFromTime (LocalTime t) <= 99) ->
  let s := localMidnight (firstDayOfMonth t) in
  Utils.getMonthStart (Num t) = TimeClip s
  /\ YearFromTime (LocalTime s) = YearFromTime (LocalTime t)
  /\ MonthFromTime (LocalTime s) = MonthFromTime (LocalTime t)
  /\ DateFromTime (LocalTime s) = 1
  /\ TimeWithinDay (LocalTime s) = 0
  /\ s <= t.
Proof.
  intros Hy s.
  destruct (firstDayOfMonth_components t (LocalTime s)) as (Ey & Em & Ed);
    [apply Day_localMidnight|].
  repeat apply conj; try assumption.
  - by apply getMonthStart_Num.
  - apply TimeWithinDay_localMidnight.
  - pose proof (DateFromTime_range (LocalTime t)) as Hd.
    pose proof (Day_TimeWithinDay (LocalTime t)) as Ht.
    pose proof (TimeWithinDay_range (LocalTime t)) as Hr.
    unfold s, localMidnight, UTC, firstDayOfMonth, LocalTime, msPerDay in *.
    lia.
Qed.

(** X2: [getMonthEnd]: for such a date the result is local midnight of the last
    day of its month: same year, same month, the date being the length of
    the month, and the day after it is a first of the month. *)
Theorem getMonthEnd_last_of_month (t : Z) :
  ~ (0 <= YearFromTime (LocalTime t) <= 99) ->
  let e := localMidnight (lastDayOfMonth t) in
  Utils.getMonthEnd (Num t) = TimeClip e
  /\ YearFromTime (LocalTime e) = YearFromTime (LocalTime t)
  /\ MonthFromTime (LocalTime e) = MonthFromTime (LocalTime t)
  /\ DateFromTime (LocalTime e)
     = daysInMonth (MonthFromTime (LocalTime t)) (InLeapYear (LocalTime t))
  /\ DateFromTime (LocalTime t) <= DateFromTime (LocalTime e)
  /\ DateFromTime (LocalTime e + msPerDay) = 1
  /\ TimeWithinDay (LocalTime e) = 0.
Proof.
  intros Hy e.
  destruct (lastDayOfMonth_components t (LocalTime e)) as (Ey & Em & Ed);
    [apply Day_localMidnight|].
  pose proof (DateFromTime_in_month (LocalTime t)) as Hin.
  repeat apply conj; try assumption.
  - by apply getMonthEnd_Num.
  - lia.
  - apply (day_after_lastDayOfMonth t).
    replace (LocalTime e + msPerDay) with (LocalTime e + 1 * msPerDay) by lia.
    rewrite Day_shift. unfold e. by rewrite Day_localMidnight.
  - apply TimeWithinDay_localMidnight.
Qed.

End MonthBounds.

(** ** Entries of a day *)

Section DayFacts.
Context `{Platform}.
Import ES ESFacts CalendarFacts Storage.

(** Two dates show the same calendar day exactly when they fall on the
    same local day, or are both the Invalid Date. *)
Lemma toDateString_eq (a b : number) :
  toDateString a = toDateString b
  <-> match a, b with
      | Num x, Num y => Day (LocalTime x) = Day (LocalTime y)
      | NaN, NaN => True
      | _, _ => False
      end.
Proof.
  destruct a as [|x], b as [|y]; cbn; try (split; [discriminate|tauto]);
    [tauto|].
  split.
  - intros [= _ Em Ed Ey]. by apply Day_of_components.
  - intros E. f_equal.
    + by apply WeekDay_Day.
    + by apply MonthFromTime_Day.
    + by apply DateFromTime_Day.
    + by apply YearFromTime_Day.
Qed.

Lemma getFoodEntriesByDate_Num ls t :
  getFoodEntriesByDate ls (Num t)
  = filter (fun e : obj => on_day (Day (LocalTime t)) (dateOf e))
           (getFoodEntries ls).
Proof.
  unfold getFoodEntriesByDate. apply list_filter_iff. intros e.
  fold (dateOf e). rewrite toDateString_eq.
  unfold on_day. destruct (dateOf e) as [|te]; [tauto|].
  rewrite Is_true_true, Z.eqb_eq. tauto.
Qed.

(** A time lies between the bounds of a day exactly when it is on it. *)
Lemma within_days s e te :
  within (startOfDay s) (endOfDay e) (Num te)
  <-> Day (LocalTime s) <= Day (LocalTime te) <= Day (LocalTime e).
Proof.
  unfold within. rewrite Is_true_true, andb_true_iff, !Z.leb_le.
  unfold endOfDay, startOfDay.
  pose proof (Day_TimeWithinDay (LocalTime s)) as Es.
  pose proof (TimeWithinDay_range (LocalTime s)) as Rs.
  pose proof (Day_TimeWithinDay (LocalTime e)) as Ee.
  pose proof (TimeWithinDay_range (LocalTime e)) as Re.
  pose proof (Day_TimeWithinDay (LocalTime te)) as Et.
  pose proof (TimeWithinDay_range (LocalTime te)) as Rt.
  unfold LocalTime, msPerDay in *. lia.
Qed.

(** X3: [getFoodEntriesByDate]: for a date the query returns, in their order,
    the entries dated on the same local day, which is what the range query
    from the date to itself returns; for the Invalid Date it returns the
    entries whose own date is not a date. *)
Theorem getFoodEntriesByDate_is_one_day_range (ls : localStorage) (t : Z) :
  Z.abs (startOfDay t) <= maxTime -> Z.abs (endOfDay t) <= maxTime ->
  getFoodEntriesByDate ls (Num t)
  = filter (fun e : obj => on_day (Day (LocalTime t)) (dateOf e))
           (getFoodEntries ls)
  /\ getFoodEntriesByDate ls (Num t)
     = getFoodEntriesByDateRange ls (Num t) (Num t)
  /\ getFoodEntriesByDate ls NaN
     = filter (fun e : obj => is_NaN (dateOf e)) (getFoodEntries ls)
  /\ getFoodEntriesByDateRange ls NaN NaN = [].
Proof.
  intros Hs He. repeat apply conj.
  - apply getFoodEntriesByDate_Num.
  - rewrite getFoodEntriesByDate_Num, getFoodEntriesByDateRange_Num by assumption.
    apply list_filter_iff. intros e. destruct (dateOf e) as [|te]; [tauto|].
    rewrite within_days. unfold on_day. rewrite Is_true_true, Z.eqb_eq. lia.
  - unfold getFoodEntriesByDate. apply list_filter_iff. intros e.
    fold (dateOf e). rewrite toDateString_eq.
    destruct (dateOf e); cbn; tauto.
  - unfold getFoodEntriesByDateRange. cbn [setHours].
    induction (getFoodEntries ls) as [|e l IH]; [reflexivity|].
    rewrite filter_cons_False; [exact IH|].
    destruct (new_Date (e !! "date")); cbn; tauto.
Qed.

End DayFacts.

(** ** Days between two dates *)

Section DaysBetweenFacts.
Import ES.

Lemma ceil_div_spec a b q : 0 < b -> Utils.ceil_div a b = q <-> (q - 1) * b < a <= q * b.
Proof.
  intros Hb. unfold Utils.ceil_div.
  pose proof (Z.div_mod (- a) b ltac:(lia)) as Hdm.
  pose proof (Z.mod_pos_bound (- a) b Hb) as Hr.
  split; intros Hq; nia.
Qed.

Lemma ceil_div_add a k b : 0 < b -> Utils.ceil_div (k * b + a) b = k + Utils.ceil_div a b.
Proof.
  intros Hb. unfold Utils.ceil_div.
  replace (- (k * b + a)) with (- a + (- k) * b) by lia.
  rewrite Z.div_add by lia. lia.
Qed.

(** X4: [getDaysBetween] of two dates, time values [a] and [b] at most 2^53
    milliseconds apart, so that their difference is exact: the count does
    not depend on the order of the two dates and is at least 1: it is the
    number [k] with [(k - 2) days < |b - a| <= (k - 1) days]; dates a whole
    number [n] of days apart give [|n| + 1], the same date gives 1.  The
    count is not a number as soon as one of the two is not a date. *)
Theorem getDaysBetween_counts_started_days (a b n : Z) :
  Z.abs a <= maxTime -> Z.abs b <= maxTime -> Z.abs (b - a) <= 2 ^ 53 ->
  (TimeClip a = Num a /\ TimeClip b = Num b
   /\ Binary64.of_Z (b - a) = Binary64.Int (b - a))
  /\ Utils.getDaysBetween (Num a) (Num b) = Utils.getDaysBetween (Num b) (Num a)
  /\ (forall d, Utils.getDaysBetween NaN d = NaN
                /\ Utils.getDaysBetween d NaN = NaN)
  /\ (exists k, Utils.getDaysBetween (Num a) (Num b) = Num k
                /\ 1 <= k
                /\ (k - 2) * msPerDay < Z.abs (b - a) <= (k - 1) * msPerDay)
  /\ (b = a + n * msPerDay ->
      Utils.getDaysBetween (Num a) (Num b) = Num (Z.abs n + 1))
  /\ (b = a -> Utils.getDaysBetween (Num a) (Num b) = Num 1).
Proof.
  intros Ha Hb Hdiff.
  assert (Hd : 1000 * 60 * 60 * 24 = msPerDay) by reflexivity.
  split; [|repeat apply conj].
  - split; [|split].
    + unfold TimeClip. by destruct (Z.leb_spec (Z.abs a) maxTime); [|lia].
    + unfold TimeClip. by destruct (Z.leb_spec (Z.abs b) maxTime); [|lia].
    + by apply of_Z_safe.
  - unfold Utils.getDaysBetween, num_sub.
    replace (Z.abs (a - b)) with (Z.abs (b - a)) by lia. reflexivity.
  - intros d. split; destruct d; reflexivity.
  - unfold Utils.getDaysBetween, num_sub. rewrite Hd.
    eexists. split; [reflexivity|].
    pose proof (proj1 (ceil_div_spec (Z.abs (b - a)) msPerDay _ ltac:(reflexivity))
                  eq_refl) as Hc.
    unfold msPerDay in *. lia.
  - intros ->. unfold Utils.getDaysBetween, num_sub. rewrite Hd. f_equal. f_equal.
    apply ceil_div_spec; [reflexivity|]. unfold msPerDay. lia.
  - intros ->. unfold Utils.getDaysBetween, num_sub. rewrite Z.sub_diag.
    reflexivity.
Qed.

End DaysBetweenFacts.

(** ** The weekly figures *)

Section WeekFigures.
Context `{Platform}.
Import ES ESFacts CalendarFacts Storage.

Lemma daysSinceMonday_range t : 0 <= daysSinceMonday t <= 6.
Proof.
  unfold daysSinceMonday. pose proof (WeekDay_range (LocalTime t)).
  destruct (Z.eqb_spec (WeekDay (LocalTime t)) 0); lia.
Qed.

Lemma getWeekStart_in_range t :
  - maxTime + 7 * msPerDay <= t <= maxTime ->
  Utils.getWeekStart (Num t) = Num (t - daysSinceMonday t * msPerDay).
Proof.
  intros Ht. rewrite getWeekStart_Num. fold (daysSinceMonday t).
  apply TimeClip_in_range. pose proof (daysSinceMonday_range t).
  unfold maxTime, msPerDay in *. lia.
Qed.

(** X5: The divisor of the weekly average, in a time zone whose offset from
    UTC is the same all week ([LocalTZA]: no daylight-saving change between
    Monday and now): with the clock at [now1] when the week start is taken
    and at [now3], not earlier and at most a day later, when the days are
    counted, the week started a whole number of days before [now1], from 0
    to 6, and the divisor is the days from Monday to today, today included,
    from 1 to 7, when the clock has not moved, and one more as soon as it
    has.  Where the offset changes within the week the week start is an
    hour more or less than whole days back, and the count differs; that
    case is not covered here. *)
Theorem weekDays_counts_days_since_monday (now1 now3 : Z) :
  - maxTime + 7 * msPerDay <= now1 <= maxTime ->
  now1 <= now3 <= now1 + msPerDay ->
  Utils.getWeekStart (Num now1) = Num (now1 - daysSinceMonday now1 * msPerDay)
  /\ LocalTime (now1 - daysSinceMonday now1 * msPerDay)
     = LocalTime now1 - daysSinceMonday now1 * msPerDay
  /\ App.weekDays now1 now3
     = Num (daysSinceMonday now1 + 1 + Utils.ceil_div (now3 - now1) msPerDay)
  /\ (now3 = now1 ->
      App.weekDays now1 now3 = Num (daysSinceMonday now1 + 1)
      /\ 1 <= daysSinceMonday now1 + 1 <= 7)
  /\ (now1 < now3 ->
      App.weekDays now1 now3 = Num (daysSinceMonday now1 + 2)).
Proof.
  intros Hr [Hle Hday].
  split; [exact (getWeekStart_in_range now1 Hr)|].
  split; [unfold LocalTime; lia|].
  assert (E : App.weekDays now1 now3
              = Num (daysSinceMonday now1 + 1
                     + Utils.ceil_div (now3 - now1) msPerDay)).
  { unfold App.weekDays. rewrite (getWeekStart_in_range now1 Hr).
    unfold Utils.getDaysBetween, num_sub.
    change (1000 * 60 * 60 * 24) with msPerDay.
    pose proof (daysSinceMonday_range now1) as Hb.
    rewrite Z.abs_eq by (unfold msPerDay; lia).
    replace (now3 - (now1 - daysSinceMonday now1 * msPerDay))
      with (daysSinceMonday now1 * msPerDay + (now3 - now1)) by lia.
    rewrite ceil_div_add by reflexivity. f_equal. lia. }
  repeat apply conj.
  - exact E.
  - intros ->. rewrite E, Z.sub_diag.
    pose proof (daysSinceMonday_range now1).
    change (Utils.ceil_div 0 msPerDay) with 0.
    split; [f_equal; lia|lia].
  - intros Hd. rewrite E. f_equal.
    assert (Utils.ceil_div (now3 - now1) msPerDay = 1) as ->; [|lia].
    apply ceil_div_spec; [reflexivity|lia].
Qed.

End WeekFigures.

Section WeekSeries.
Context `{Platform}.
Import ES ESFacts CalendarFacts Storage.










End WeekSeries.

(** ** The monthly figures *)

Section MonthFigures.
Context `{Platform}.
Import ES ESFacts CalendarFacts Storage.







End MonthFigures.

(** ** Creating, finding and deleting records *)

Section CrudFacts.
Context `{Platform}.
Import Storage.

Lemma set_other (ls : localStorage) key v key' :
  key' <> key -> (set ls key v).1 !! key' = ls !! key'.
Proof.
  intros Hne. destruct (set_spec ls key v) as [[_ ->]|[_ ->]]; [|reflexivity].
  by apply lookup_insert_ne.
Qed.

Lemma set_array (ls : localStorage) key (l : list obj) :
  (setItem_fits ls key (SArray l) = true
   /\ get_array (set ls key (SArray l)).1 key = l)
  \/ (setItem_fits ls key (SArray l) = false /\ (set ls key (SArray l)).1 = ls).
Proof.
  destruct (set_spec ls key (SArray l)) as [[Hf ->]|[Hf ->]]; [left|right];
    (split; [exact Hf|]); [apply get_array_insert|reflexivity].
Qed.

Lemma stamped_lookup now (entry : obj) k :
  stamped now entry !! k
  = if decide (k = "createdAt") then Some (JStr (toISOString now))
    else if decide (k = "id") then Some (JStr (Number_toString now))
    else entry !! k.
Proof.
  unfold stamped. rewrite lookup_insert.
  destruct (decide ("createdAt" = k)) as [<-|Hne].
  - by rewrite decide_True.
  - rewrite decide_False by done. rewrite lookup_insert.
    destruct (decide ("id" = k)) as [<-|Hne'].
    + by rewrite decide_True.
    + by rewrite decide_False.
Qed.

Lemma saveFoodEntry_entries ls now entry :
  (setItem_fits ls KEYS.FOOD_ENTRIES
     (SArray (getFoodEntries ls ++ [stamped now entry])) = true
   /\ getFoodEntries (saveFoodEntry ls now entry).1
      = getFoodEntries ls ++ [stamped now entry])
  \/ (setItem_fits ls KEYS.FOOD_ENTRIES
        (SArray (getFoodEntries ls ++ [stamped now entry])) = false
      /\ (saveFoodEntry ls now entry).1 = ls).
Proof.
  unfold saveFoodEntry. cbn [fst].
  apply (set_array ls KEYS.FOOD_ENTRIES (getFoodEntries ls ++ [stamped now entry])).
Qed.

Lemma saveRecipe_entries ls now recipe :
  (setItem_fits ls KEYS.RECIPES
     (SArray (getRecipes ls ++ [stamped now recipe])) = true
   /\ getRecipes (saveRecipe ls now recipe).1
      = getRecipes ls ++ [stamped now recipe])
  \/ (setItem_fits ls KEYS.RECIPES
        (SArray (getRecipes ls ++ [stamped now recipe])) = false
      /\ (saveRecipe ls now recipe).1 = ls).
Proof.
  unfold saveRecipe. cbn [fst].
  apply (set_array ls KEYS.RECIPES (getRecipes ls ++ [stamped now recipe])).
Qed.

(** X8: [saveFoodEntry] and [saveRecipe]: the record returned is the one given
    with its [id], the clock reading in decimal, and its [createdAt] set,
    every other property as given; a write that is taken puts it after the
    records there were, a refused one leaves the store as it was. *)
Theorem save_appends_the_stamped_record
    (ls : localStorage) (now : Z) (entry : obj) :
  let e := (saveFoodEntry ls now entry).2 in
  let r := (saveRecipe ls now entry).2 in
  (e = r
   /\ e !! "id" = Some (JStr (Number_toString now))
   /\ e !! "createdAt" = Some (JStr (toISOString now))
   /\ forall k, k <> "id" -> k <> "createdAt" -> e !! k = entry !! k)
  /\ (setItem_fits ls KEYS.FOOD_ENTRIES (SArray (getFoodEntries ls ++ [e])) = true ->
      getFoodEntries (saveFoodEntry ls now entry).1 = getFoodEntries ls ++ [e])
  /\ (setItem_fits ls KEYS.FOOD_ENTRIES (SArray (getFoodEntries ls ++ [e])) = false ->
      (saveFoodEntry ls now entry).1 = ls)
  /\ (setItem_fits ls KEYS.RECIPES (SArray (getRecipes ls ++ [r])) = true ->
      getRecipes (saveRecipe ls now entry).1 = getRecipes ls ++ [r])
  /\ (setItem_fits ls KEYS.RECIPES (SArray (getRecipes ls ++ [r])) = false ->
      (saveRecipe ls now entry).1 = ls).
Proof.
  intros e r.
  change e with (stamped now entry). change r with (stamped now entry).
  repeat apply conj.
  - reflexivity.
  - by rewrite stamped_lookup.
  - by rewrite stamped_lookup.
  - intros k H1 H2. rewrite stamped_lookup.
    by rewrite !decide_False.
  - intros Hf.
    destruct (saveFoodEntry_entries ls now entry) as [[_ E]|[E _]];
      [exact E|congruence].
  - intros Hf.
    destruct (saveFoodEntry_entries ls now entry) as [[E _]|[_ E]];
      [congruence|exact E].
  - intros Hf.
    destruct (saveRecipe_entries ls now entry) as [[_ E]|[E _]];
      [exact E|congruence].
  - intros Hf.
    destruct (saveRecipe_entries ls now entry) as [[E _]|[_ E]];
      [congruence|exact E].
Qed.

Lemma getRecipeById_first ls id i r :
  first_with_id id (getRecipes ls) i r -> getRecipeById ls id = Some r.
Proof.
  intros (Hi & Hr & Hfirst). unfold getRecipeById.
  assert (list_find (fun r : obj => strict_eq_str (r !! "id") id) (getRecipes ls)
          = Some (i, r)) as ->; [|reflexivity].
  apply list_find_Some. repeat split; auto.
Qed.

Lemma getRecipeById_none ls id :
  no_id id (getRecipes ls) -> getRecipeById ls id = None.
Proof.
  intros Hno. unfold getRecipeById.
  assert (list_find (fun r : obj => strict_eq_str (r !! "id") id) (getRecipes ls)
          = None) as ->; [|reflexivity].
  by apply list_find_None.
Qed.

(** X9: Saving a recipe and looking its id up: the saved recipe is found when
    no recipe stored before has the same id; when one has, made within the
    same millisecond, the lookup returns that older recipe instead. *)
Theorem saved_recipe_is_found_unless_an_older_one_has_its_id
    (ls : localStorage) (now : Z) (recipe : obj) :
  let saved := (saveRecipe ls now recipe).2 in
  let ls' := (saveRecipe ls now recipe).1 in
  let id := Number_toString now in
  setItem_fits ls KEYS.RECIPES (SArray (getRecipes ls ++ [saved])) = true ->
  (no_id id (getRecipes ls) -> getRecipeById ls' id = Some saved)
  /\ (forall i older, first_with_id id (getRecipes ls) i older ->
        getRecipeById ls' id = Some older).
Proof.
  intros saved ls' id Hf.
  change saved with (stamped now recipe) in *.
  assert (E : getRecipes ls' = getRecipes ls ++ [stamped now recipe]).
  { destruct (saveRecipe_entries ls now recipe) as [[_ E]|[E _]];
      [exact E|congruence]. }
  assert (Hid : stamped now recipe !! "id" = Some (JStr id))
    by (by rewrite stamped_lookup).
  split.
  - intros Hno.
    apply (getRecipeById_first ls' id (length (getRecipes ls))).
    rewrite E. repeat split.
    + by rewrite lookup_app_r, Nat.sub_diag.
    + exact Hid.
    + intros j e' Hj Hlt. rewrite lookup_app_l in Hj by exact Hlt.
      unfold no_id in Hno. rewrite Forall_forall in Hno.
      apply Hno. by eapply list_elem_of_lookup_2.
  - intros i older (Hi & Ho & Hfirst).
    apply (getRecipeById_first ls' id i).
    rewrite E. repeat split.
    + rewrite lookup_app_l by (by eapply lookup_lt_Some). exact Hi.
    + exact Ho.
    + intros j e' Hj Hlt.
      rewrite lookup_app_l in Hj
        by (apply lookup_lt_Some in Hi; lia).
      by apply (Hfirst j).
Qed.

(** X10: A deletion that is written leaves no record with the id, whether one
    or several had it, and keeps the other records in their order; an
    update or a lookup with that id then finds nothing. *)
Theorem delete_removes_every_record_with_the_id
    (ls : localStorage) (id : string) (updates : obj) :
  let kept :=
    filter (fun e : obj => ~ strict_eq_str (e !! "id") id) (getRecipes ls) in
  let ls' := (deleteRecipe ls id).1 in
  setItem_fits ls KEYS.RECIPES (SArray kept) = true ->
  getRecipes ls' = kept
  /\ no_id id (getRecipes ls')
  /\ (forall r, r ∈ getRecipes ls -> r !! "id" <> Some (JStr id) ->
        r ∈ getRecipes ls')
  /\ getRecipeById ls' id = None
  /\ updateRecipe ls' id updates = (ls', None).
Proof.
  intros kept ls' Hf.
  assert (E : getRecipes ls' = kept).
  { unfold ls', deleteRecipe. cbn [fst].
    destruct (set_array ls KEYS.RECIPES kept) as [[_ E]|[E _]];
      [exact E|]. fold kept in E. congruence. }
  assert (Hno : no_id id (getRecipes ls')).
  { rewrite E. apply Forall_forall. intros e [He _]%list_elem_of_filter.
    exact He. }
  repeat apply conj.
  - exact E.
  - exact Hno.
  - intros r Hr Hid. rewrite E. apply list_elem_of_filter. by split.
  - by apply getRecipeById_none.
  - by apply (update_in_absent KEYS.RECIPES).
Qed.

Lemma update_in_other key ls id updates key' :
  key' <> key -> (update_in key ls id updates).1 !! key' = ls !! key'.
Proof.
  intros Hne. unfold update_in.
  destruct (findIndex _ _); [|reflexivity]. cbn [fst]. by apply set_other.
Qed.

(** X11: Every writer of the store changes the value under the key of its own
    collection and under no other key; the five keys in use are distinct,
    so that no operation on one collection, on the settings or on the PIN
    reaches another. *)
Theorem writers_change_only_their_own_key
    (ls : localStorage) (now : Z) (entry updates : obj) (id key : string) :
  NoDup [KEYS.FOOD_ENTRIES; KEYS.WEIGHT_ENTRIES; KEYS.RECIPES; KEYS.SETTINGS;
         Auth.STORAGE_KEY]
  /\ (key <> KEYS.FOOD_ENTRIES ->
      (saveFoodEntry ls now entry).1 !! key = ls !! key
      /\ (updateFoodEntry ls id updates).1 !! key = ls !! key
      /\ (deleteFoodEntry ls id).1 !! key = ls !! key)
  /\ (key <> KEYS.WEIGHT_ENTRIES ->
      (saveWeightEntry ls now entry).1 !! key = ls !! key
      /\ (deleteWeightEntry ls id).1 !! key = ls !! key)
  /\ (key <> KEYS.RECIPES ->
      (saveRecipe ls now entry).1 !! key = ls !! key
      /\ (updateRecipe ls id updates).1 !! key = ls !! key
      /\ (deleteRecipe ls id).1 !! key = ls !! key)
  /\ (key <> KEYS.SETTINGS -> saveSettings ls updates !! key = ls !! key)
  /\ (key <> Auth.STORAGE_KEY ->
      (Auth.setPin ls id).1 !! key = ls !! key).
Proof.
  repeat apply conj.
  - refine (bool_decide_unpack _ _). vm_compute. exact I.
  - intros Hne. repeat apply conj.
    + by apply set_other.
    + by apply (update_in_other KEYS.FOOD_ENTRIES).
    + by apply set_other.
  - intros Hne. split; by apply set_other.
  - intros Hne. repeat apply conj.
    + by apply set_other.
    + by apply (update_in_other KEYS.RECIPES).
    + by apply set_other.
  - intros Hne. by apply set_other.
  - intros Hne. unfold Auth.setPin, localStorage_setItem.
    destruct (String.length id <? 4)%nat; [reflexivity|].
    destruct (setItem_fits _ _ _); [|reflexivity].
    cbn [fst]. by apply lookup_insert_ne.
Qed.

(** X12: Submitting the recipe form for a stored recipe writes the four text
    fields and the image over it and keeps its other properties, its id
    among them; with no file chosen the image written is [null], whatever
    image the recipe had.  With an empty id the form adds a recipe. *)
Theorem recipe_form_overwrites_the_image
    (ls : localStorage) (now : Z)
    (id name calories ingredients instructions : string)
    (image : option string) (i : nat) (r : obj) :
  let ls' := App.recipeFormSubmit ls now id name calories ingredients
               instructions image in
  let form : obj :=
    {[ "name" := JStr name; "calories" := JStr calories;
       "ingredients" := JStr ingredients;
       "instructions" := JStr instructions;
       "image" := match image with Some url => JStr url | None => JNull end ]} in
  (id <> EmptyString -> first_with_id id (getRecipes ls) i r ->
   setItem_fits ls KEYS.RECIPES (SArray (<[i := spread r form]> (getRecipes ls)))
   = true ->
   exists r',
     getRecipes ls' = <[i := r']> (getRecipes ls)
     /\ r' !! "name" = Some (JStr name)
     /\ r' !! "calories" = Some (JStr calories)
     /\ r' !! "ingredients" = Some (JStr ingredients)
     /\ r' !! "instructions" = Some (JStr instructions)
     /\ r' !! "image"
        = Some (match image with Some url => JStr url | None => JNull end)
     /\ r' !! "id" = r !! "id"
     /\ r' !! "createdAt" = r !! "createdAt")
  /\ (id <> EmptyString -> no_id id (getRecipes ls) -> ls' = ls)
  /\ (id = EmptyString -> ls' = (saveRecipe ls now form).1).
Proof.
  intros ls' form. unfold ls', App.recipeFormSubmit. fold form.
  repeat apply conj.
  - intros Hid Hfirst Hf. rewrite bool_decide_eq_false_2 by exact Hid.
    destruct (update_in_found KEYS.RECIPES ls id form i r Hfirst)
      as (_ & Hk & Hw & _).
    exists (spread r form). split; [exact (Hw Hf)|].
    repeat apply conj; rewrite Hk; try reflexivity.
    all: destruct image; reflexivity.
  - intros Hid Hno. rewrite bool_decide_eq_false_2 by exact Hid.
    change (updateRecipe ls id form) with (update_in KEYS.RECIPES ls id form).
    by rewrite (update_in_absent KEYS.RECIPES ls id form Hno).
  - intros ->. reflexivity.
Qed.

End CrudFacts.

(** ** The PIN hash *)

Section HashFacts.
Import Auth.

Lemma ToInt32_add_l x y : ToInt32 (ToInt32 x + y) = ToInt32 (x + y).
Proof.
  unfold ToInt32. f_equal.
  replace ((x + 2 ^ 31) mod 2 ^ 32 - 2 ^ 31 + y + 2 ^ 31)
    with ((x + 2 ^ 31) mod 2 ^ 32 + y) by lia.
  rewrite Zplus_mod_idemp_l. f_equal. lia.
Qed.

Lemma ToInt32_mul_r k x y : ToInt32 (k * ToInt32 x + y) = ToInt32 (k * x + y).
Proof.
  unfold ToInt32. f_equal.
  rewrite <- (Zplus_mod_idemp_l (k * ((x + 2 ^ 31) mod 2 ^ 32 - 2 ^ 31) + y)).
  rewrite <- (Zplus_mod_idemp_l (k * x + y)).
  f_equal. f_equal.
  rewrite <- (Zplus_mod_idemp_l (k * ((x + 2 ^ 31) mod 2 ^ 32 - 2 ^ 31))).
  rewrite <- (Zplus_mod_idemp_l (k * x)).
  f_equal. f_equal.
  rewrite Z.mul_sub_distr_l.
  rewrite Zminus_mod, Zmult_mod_idemp_r, <- Zminus_mod.
  f_equal. lia.
Qed.

Lemma ToInt32_range x : - 2 ^ 31 <= ToInt32 x < 2 ^ 31.
Proof.
  unfold ToInt32. pose proof (Z.mod_pos_bound (x + 2 ^ 31) (2 ^ 32) ltac:(lia)).
  lia.
Qed.

(** A round of the hash is [31 * hash + char], wrapped to 32 bits. *)
Lemma hashStep_31 h c : hashStep h c = ToInt32 (31 * h + c).
Proof.
  unfold hashStep. rewrite Z.land_diag, Z.shiftl_mul_pow2 by lia.
  replace (ToInt32 (ToInt32 h * 2 ^ 5) - h + c)
    with (ToInt32 (2 ^ 5 * ToInt32 h + 0) + (- h + c))
    by (rewrite Z.add_0_r, (Z.mul_comm (2 ^ 5)); lia).
  rewrite ToInt32_add_l, <- Z.add_assoc, ToInt32_mul_r.
  f_equal. lia.
Qed.

Lemma charCodes_app p s : charCodes (p ++ s) = charCodes p ++ charCodes s.
Proof.
  induction p as [|c p IH]; [reflexivity|].
  change (charCodes (String c p ++ s))
    with (Z.of_nat (nat_of_ascii c) :: charCodes (p ++ s)).
  rewrite IH. reflexivity.
Qed.

Lemma string_length_app p s :
  String.length (p ++ s) = (String.length p + String.length s)%nat.
Proof.
  induction p as [|c p IH]; [reflexivity|].
  change (S (String.length (p ++ s)) = S (String.length p + String.length s)).
  by rewrite IH.
Qed.

Lemma hash_Aa_BB h : hashStep (hashStep h 65) 97 = hashStep (hashStep h 66) 66.
Proof.
  rewrite !hashStep_31, !ToInt32_mul_r. f_equal. lia.
Qed.

(** The hash does not tell [Aa] from [BB]: two PINs that differ by these
    two letters at one place have the same hash. *)
Lemma hashPin_collision p s :
  hashPin (p ++ "Aa" ++ s) = hashPin (p ++ "BB" ++ s).
Proof.
  unfold hashPin.
  rewrite !charCodes_app, !fold_left_app, !string_length_app.
  cbn [charCodes list_ascii_of_string fmap list_fmap fold_left
       nat_of_ascii String.length].
  change (Z.of_nat (nat_of_ascii "A")) with 65.
  change (Z.of_nat (nat_of_ascii "a")) with 97.
  change (Z.of_nat (nat_of_ascii "B")) with 66.
  by rewrite hash_Aa_BB.
Qed.

Lemma hashPin_not_empty pin : hashPin pin <> EmptyString.
Proof. unfold hashPin. cbn. discriminate. Qed.

End HashFacts.

Section PinFacts.
Context `{Platform}.
Import Auth.

Lemma setPin_stored ls pin :
  (4 <= String.length pin)%nat ->
  setItem_fits ls STORAGE_KEY (SText (hashPin pin)) = true ->
  (setPin ls pin).1 !! STORAGE_KEY = Some (SText (hashPin pin)).
Proof.
  intros Hlong Hfit. unfold setPin, localStorage_setItem.
  destruct (Nat.ltb_spec (String.length pin) 4) as [Hlt|_]; [lia|].
  rewrite Hfit. apply lookup_insert_eq.
Qed.

Lemma verifyPin_stored ls pin pin' :
  ls !! STORAGE_KEY = Some (SText (hashPin pin)) ->
  verifyPin ls pin' = bool_decide (hashPin pin' = hashPin pin).
Proof.
  intros E. unfold verifyPin. rewrite E.
  rewrite bool_decide_eq_false_2 by apply hashPin_not_empty. reflexivity.
Qed.

(** X13: A PIN that was set verifies: after [setPin] has stored a PIN of at
    least 4 characters, [isPinSet] holds and [verifyPin] accepts that PIN;
    a PIN too short to be set changes nothing of this. *)
Theorem set_pin_then_verify (ls : localStorage) (pin : string) :
  ((4 <= String.length pin)%nat ->
   setItem_fits ls STORAGE_KEY (SText (hashPin pin)) = true ->
   verifyPin (setPin ls pin).1 pin = true
   /\ isPinSet (setPin ls pin).1 = true)
  /\ ((String.length pin < 4)%nat ->
      forall pin', verifyPin (setPin ls pin).1 pin' = verifyPin ls pin'
                   /\ isPinSet (setPin ls pin).1 = isPinSet ls).
Proof.
  split.
  - intros Hlong Hfit.
    pose proof (setPin_stored ls pin Hlong Hfit) as E.
    split.
    + rewrite (verifyPin_stored _ pin pin E). by apply bool_decide_eq_true_2.
    + unfold isPinSet. rewrite E. by apply bool_decide_eq_true_2.
  - intros Hshort pin'. unfold setPin.
    destruct (Nat.ltb_spec (String.length pin) 4) as [_|Hge]; [|lia].
    split; reflexivity.
Qed.

(** X14: The hash is not injective: once a PIN with [Aa] in it is set, the PIN
    with [BB] at that place, a different one, is accepted as well. *)
Theorem verifyPin_accepts_a_colliding_pin (ls : localStorage) (p s : string) :
  let pin := (p ++ "Aa" ++ s)%string in
  let other := (p ++ "BB" ++ s)%string in
  (4 <= String.length pin)%nat ->
  setItem_fits ls STORAGE_KEY (SText (hashPin pin)) = true ->
  other <> pin /\ verifyPin (setPin ls pin).1 other = true.
Proof.
  intros pin other Hlong Hfit. split.
  - unfold other, pin. clear. induction p as [|c p IH]; cbn.
    + discriminate.
    + intros [= E]. by apply IH.
  - rewrite (verifyPin_stored _ pin other (setPin_stored ls pin Hlong Hfit)).
    apply bool_decide_eq_true_2. symmetry. apply hashPin_collision.
Qed.

(** X15: After [resetPin] no PIN is set, no PIN verifies and the session is not
    authenticated; everything else in the store is as it was.  In a store
    without a PIN no PIN verifies. *)
Theorem resetPin_clears_pin_and_session
    (ls : localStorage) (ss : gmap string string) (pin key : string) :
  isPinSet (resetPin ls ss).1 = false
  /\ verifyPin (resetPin ls ss).1 pin = false
  /\ isAuthenticated (resetPin ls ss).2 = false
  /\ (key <> STORAGE_KEY -> (resetPin ls ss).1 !! key = ls !! key)
  /\ (ls !! STORAGE_KEY = None -> verifyPin ls pin = false).
Proof.
  unfold resetPin, logout. cbn [fst snd]. repeat apply conj.
  - unfold isPinSet. rewrite lookup_delete_eq.
    apply bool_decide_eq_false_2. by intros [? ?].
  - unfold verifyPin. by rewrite lookup_delete_eq.
  - unfold isAuthenticated. rewrite lookup_delete_eq.
    by apply bool_decide_eq_false_2.
  - intros Hne. by apply lookup_delete_ne.
  - intros E. unfold verifyPin. by rewrite E.
Qed.

End PinFacts.

(** ** Date strings *)

Section DateStrings.
Import ES ESFacts CalendarFacts.

Lemma pad0_2_table :
  forallb (fun k : nat =>
             let n := Z.of_nat k in
             String.eqb (pad0 2 n)
               (String (digit_char (n / 10))
                  (String (digit_char (n mod 10)) EmptyString)))
          (seq 0 100) = true.
Proof. vm_compute. reflexivity. Qed.

Lemma pad0_2_digits n :
  0 <= n <= 99 ->
  pad0 2 n = String (digit_char (n / 10)) (String (digit_char (n mod 10)) EmptyString).
Proof.
  intros Hn. pose proof pad0_2_table as Ht.
  rewrite forallb_forall in Ht.
  specialize (Ht (Z.to_nat n)). cbv zeta in Ht.
  rewrite Z2Nat.id in Ht by lia.
  apply String.eqb_eq, Ht, in_seq. lia.
Qed.

Lemma pad0_4_table :
  forallb (fun k : nat =>
             let n := Z.of_nat k in
             String.eqb (pad0 4 n)
               (String (digit_char (n / 1000))
                  (String (digit_char (n / 100 mod 10))
                     (String (digit_char (n / 10 mod 10))
                        (String (digit_char (n mod 10)) EmptyString)))))
          (seq 0 (Z.to_nat 10000)) = true.
Proof. vm_compute. reflexivity. Qed.

Lemma pad0_4_digits n :
  0 <= n <= 9999 ->
  pad0 4 n
  = String (digit_char (n / 1000))
      (String (digit_char (n / 100 mod 10))
         (String (digit_char (n / 10 mod 10))
            (String (digit_char (n mod 10)) EmptyString))).
Proof.
  intros Hn. pose proof pad0_4_table as Ht.
  rewrite forallb_forall in Ht.
  specialize (Ht (Z.to_nat n)). cbv zeta in Ht.
  rewrite Z2Nat.id in Ht by lia.
  apply String.eqb_eq, Ht, in_seq. lia.
Qed.

Lemma digit_table :
  forallb (fun k : nat =>
             let d := Z.of_nat k in
             match digit_value (digit_char d) with
             | Some v => (v =? d) && negb (Ascii.eqb (digit_char d) "T")
             | None => false
             end)
          (seq 0 10) = true.
Proof. vm_compute. reflexivity. Qed.

Lemma digit_char_spec d :
  0 <= d <= 9 ->
  digit_value (digit_char d) = Some d /\ Ascii.eqb (digit_char d) "T" = false.
Proof.
  intros Hd. pose proof digit_table as Ht.
  rewrite forallb_forall in Ht.
  specialize (Ht (Z.to_nat d)). cbv zeta in Ht.
  rewrite Z2Nat.id in Ht by lia.
  specialize (Ht ltac:(apply in_seq; lia)).
  destruct (digit_value (digit_char d)) as [v|]; [|discriminate].
  apply andb_true_iff in Ht as [Hv Hc].
  apply Z.eqb_eq in Hv as ->. split; [reflexivity|].
  by apply negb_true_iff.
Qed.

(** The date part of the ISO text of a time in the years 0 to 9999. *)
Lemma getToday_text t :
  0 <= YearFromTime t <= 9999 ->
  Utils.getToday t
  = ymd_text (YearFromTime t) (MonthFromTime t + 1) (DateFromTime t).
Proof.
  intros Hy. unfold Utils.getToday, toISOString.
  destruct (Z.leb_spec 0 (YearFromTime t)), (Z.leb_spec (YearFromTime t) 9999);
    try lia. cbn [andb].
  pose proof (MonthFromTime_range t) as Hm.
  pose proof (DateFromTime_range t) as Hd.
  rewrite (pad0_4_digits _ Hy).
  rewrite (pad0_2_digits (MonthFromTime t + 1)) by lia.
  rewrite (pad0_2_digits (DateFromTime t)) by lia.
  unfold ymd_text.
  assert (D : forall d, 0 <= d <= 9 -> Ascii.eqb (digit_char d) "T" = false)
    by (intros d Hd'; apply digit_char_spec, Hd').
  cbv [String.append]. cbn [Utils.split_T_0].
  rewrite !D by (Z.div_mod_to_equations; lia).
  reflexivity.
Qed.

End DateStrings.

Section DateStringParse.
Import ES ESFacts CalendarFacts.

Lemma read_digit_char d :
  0 <= d <= 9 ->
  (v ← digit_value (digit_char d); guard (v < 10);; Some v) = Some d.
Proof.
  intros Hd. destruct (digit_char_spec d Hd) as [-> _]. cbn.
  rewrite option_guard_True by lia. reflexivity.
Qed.

(** What the date grammar makes of the text of a year, a month and a
    date. *)
Lemma iso_date_parse_text y m d :
  0 <= y <= 9999 -> 0 <= m <= 99 -> 0 <= d <= 99 ->
  iso_date_parse (ymd_text y m d)
  = if (1 <=? m) && (m <=? 12) && (1 <=? d)
       && (d <=? MakeDay y m 1 - MakeDay y (m - 1) 1)
    then Num (MakeDate (MakeDay y (m - 1) 1 + d - 1) 0)
    else NaN.
Proof.
  intros Hy Hm Hd. unfold iso_date_parse, ymd_text.
  cbn [list_ascii_of_string fmap list_fmap].
  rewrite !read_digit_char by (Z.div_mod_to_equations; lia).
  replace (1000 * (y / 1000) + 100 * (y / 100 mod 10) + 10 * (y / 10 mod 10)
           + y mod 10) with y by (Z.div_mod_to_equations; lia).
  replace (10 * (m / 10) + m mod 10) with m by (Z.div_mod_to_equations; lia).
  replace (10 * (d / 10) + d mod 10) with d by (Z.div_mod_to_equations; lia).
  reflexivity.
Qed.

End DateStringParse.

Section DateRoundTrip.
Import ES ESFacts CalendarFacts.

Lemma MakeDay_date y m d : MakeDay y m d = MakeDay y m 1 + d - 1.
Proof. unfold MakeDay. lia. Qed.

Lemma MakeDay_month_length y m :
  0 <= m <= 11 -> MakeDay y (m + 1) 1 - MakeDay y m 1 = daysInMonth m (leapOf y).
Proof.
  intros Hm. pose proof (monthStartDay_next m (leapOf y) Hm) as Hn.
  unfold MakeDay.
  rewrite (Z.div_small m 12), (Z.mod_small m 12), !Z.add_0_r by lia.
  fold (leapOf y).
  destruct (Z.eqb_spec m 11) as [E|Hne].
  - rewrite E in *. change ((11 + 1) / 12) with 1.
    change ((11 + 1) mod 12) with 0. cbn [monthStartDay].
    rewrite DayFromYear_next.
    destruct (leapOf_cases y) as [[E1 E2]|[E1 E2]]; rewrite E1, E2 in *;
      cbn [daysInMonth monthStartDay] in *; lia.
  - rewrite (Z.div_small (m + 1) 12), (Z.mod_small (m + 1) 12) by lia.
    rewrite !Z.add_0_r. fold (leapOf y). lia.
Qed.

Lemma getToday_Day t t' :
  0 <= YearFromTime t <= 9999 -> Day t = Day t' ->
  Utils.getToday t = Utils.getToday t'.
Proof.
  intros Hy E.
  rewrite !getToday_text by (by rewrite <- ?(YearFromTime_Day t t' E)).
  by rewrite (YearFromTime_Day t t' E), (MonthFromTime_Day t t' E),
    (DateFromTime_Day t t' E).
Qed.

Lemma getToday_parse t :
  0 <= YearFromTime t <= 9999 ->
  iso_date_parse (Utils.getToday t) = Num (Day t * msPerDay).
Proof.
  intros Hy.
  pose proof (MonthFromTime_range t) as Hm.
  pose proof (DateFromTime_range t) as Hd.
  pose proof (DateFromTime_in_month t) as Hin.
  change (InLeapYear t) with (leapOf (YearFromTime t)) in Hin.
  rewrite getToday_text, iso_date_parse_text by lia.
  replace (MonthFromTime t + 1 - 1) with (MonthFromTime t) by lia.
  rewrite MakeDay_month_length by lia.
  rewrite <- MakeDay_date.
  pose proof (MakeDay_DateFromTime t 0) as Eday.
  rewrite Z.add_0_r in Eday. rewrite Eday.
  destruct (Z.leb_spec 1 (MonthFromTime t + 1)); [|lia].
  destruct (Z.leb_spec (MonthFromTime t + 1) 12); [|lia].
  destruct (Z.leb_spec 1 (DateFromTime t)); [|lia].
  destruct (Z.leb_spec (DateFromTime t)
              (daysInMonth (MonthFromTime t) (leapOf (YearFromTime t)))); [|lia].
  cbn [andb]. unfold MakeDate. f_equal. lia.
Qed.

(** The day of a time in the years 0 to 9999, and the range it leaves. *)
Lemma Day_of_year_range t :
  0 <= YearFromTime t <= 9999 -> -719528 <= Day t < 2932897.
Proof.
  intros Hy. pose proof (YearFromTime_spec t) as Hs.
  pose proof (DayFromYear_mono 0 (YearFromTime t) ltac:(lia)) as H0.
  pose proof (DayFromYear_mono (YearFromTime t + 1) 10000 ltac:(lia)) as H1.
  change (DayFromYear 0) with (-719528) in H0.
  change (DayFromYear 10000) with 2932897 in H1. lia.
Qed.

(** X17: [getToday] and [formatDateForInput]: for a time in the years 0 to 9999
    the text is the ten characters [YYYY-MM-DD] of its UTC day, the same
    for every time of that day, and the date grammar reads it back as
    midnight UTC of that day; the Invalid Date makes [formatDateForInput]
    throw. *)
Theorem getToday_is_the_utc_day_and_parses_back (t t' : Z) :
  0 <= YearFromTime t <= 9999 ->
  Utils.formatDateForInput (Num t) = Some (Utils.getToday t)
  /\ Utils.getToday t
     = ymd_text (YearFromTime t) (MonthFromTime t + 1) (DateFromTime t)
  /\ String.length (Utils.getToday t) = 10%nat
  /\ iso_date_parse (Utils.getToday t) = Num (Day t * msPerDay)
  /\ (Day t = Day t' -> Utils.getToday t = Utils.getToday t')
  /\ Utils.formatDateForInput NaN = None.
Proof.
  intros Hy. repeat apply conj.
  - reflexivity.
  - by apply getToday_text.
  - by rewrite getToday_text.
  - by apply getToday_parse.
  - by apply getToday_Day.
  - reflexivity.
Qed.

End DateRoundTrip.

Section DayButtons.
Context `{Platform}.
Import ES ESFacts CalendarFacts.

Lemma shift_day_text (t k : Z) :
  reads_iso_dates ->
  0 <= YearFromTime t <= 9999 ->
  0 <= YearFromTime (t + k * msPerDay) <= 9999 ->
  Utils.formatDateForInput
    (Utils.addDays (new_Date (Some (JStr (Utils.getToday t)))) k)
  = Some (Utils.getToday (t + k * msPerDay)).
Proof.
  intros Hiso Hy Hy'. cbn [new_Date].
  rewrite (Hiso t Hy), getToday_parse by exact Hy.
  rewrite addDays_Num.
  pose proof (Day_of_year_range _ Hy') as Hr. rewrite Day_shift in Hr.
  rewrite TimeClip_in_range by (unfold maxTime, msPerDay; lia).
  cbn [Utils.formatDateForInput]. f_equal.
  symmetry. apply getToday_Day; [exact Hy'|].
  rewrite Day_shift.
  replace (Day t * msPerDay + k * msPerDay) with (0 + (Day t + k) * msPerDay) by lia.
  rewrite Day_shift. reflexivity.
Qed.

(** X18: The day buttons of the food log: on the text of a day, in any time
    zone, [nextDay] gives the text of the day after and [prevDay] that of
    the day before, so that one undoes the other. *)
Theorem day_buttons_move_by_one_day (t : Z) :
  reads_iso_dates ->
  0 <= YearFromTime (t - msPerDay) <= 9999 ->
  0 <= YearFromTime t <= 9999 ->
  0 <= YearFromTime (t + msPerDay) <= 9999 ->
  App.nextDay (Utils.getToday t) = Some (Utils.getToday (t + msPerDay))
  /\ App.prevDay (Utils.getToday t) = Some (Utils.getToday (t - msPerDay))
  /\ App.prevDay (Utils.getToday (t + msPerDay)) = Some (Utils.getToday t)
  /\ App.nextDay (Utils.getToday (t - msPerDay)) = Some (Utils.getToday t).
Proof.
  intros Hiso Hp Hy Hn. unfold App.nextDay, App.prevDay.
  repeat apply conj.
  - rewrite (shift_day_text t 1 Hiso Hy);
      replace (t + 1 * msPerDay) with (t + msPerDay) by lia; done.
  - rewrite (shift_day_text t (-1) Hiso Hy);
      replace (t + -1 * msPerDay) with (t - msPerDay) by lia; done.
  - rewrite (shift_day_text (t + msPerDay) (-1) Hiso Hn);
      replace (t + msPerDay + -1 * msPerDay) with t by lia; done.
  - rewrite (shift_day_text (t - msPerDay) 1 Hiso Hp);
      replace (t - msPerDay + 1 * msPerDay) with t by lia; done.
Qed.

End DayButtons.

(** ** The latest weight *)

Section LatestWeight.
Context `{Platform}.
Import Storage.

Lemma carries_spread (old e : obj) : carries e (spread old e).
Proof. intros k v Hk. by rewrite spread_lookup, Hk. Qed.

Lemma upsert_elements (l : list obj) (e x : obj) :
  x ∈ upsert l e -> x ∈ l \/ carries e x.
Proof.
  unfold upsert. destruct (findIndex _ l) as [i|].
  - intros Hx. apply list_elem_of_lookup in Hx as [j Hj].
    destruct (decide (i = j)) as [<-|Hne].
    + rewrite list_lookup_alter_eq in Hj.
      destruct (l !! i) as [old|]; [|discriminate].
      injection Hj as <-. right. apply carries_spread.
    + rewrite list_lookup_alter_ne in Hj by done.
      left. by eapply list_elem_of_lookup_2.
  - intros [Hx|Hx%list_elem_of_singleton]%elem_of_app; [by left|].
    right. subst x. by intros k v.
Qed.

Lemma upsert_has_carrier (l : list obj) (e : obj) :
  exists x, x ∈ upsert l e /\ carries e x.
Proof.
  unfold upsert, findIndex.
  destruct (list_find _ l) as [[i old]|] eqn:Hfind; cbn.
  - apply list_find_Some in Hfind as (Hi & _ & _).
    exists (spread old e). split; [|apply carries_spread].
    apply list_elem_of_lookup. exists i.
    by rewrite list_lookup_alter_eq, Hi.
  - exists e. split; [|by intros k v].
    apply elem_of_app. right. by apply list_elem_of_singleton.
Qed.

Lemma carries_date (e x : obj) :
  dated e -> carries e x -> dateOf x = dateOf e.
Proof.
  unfold dated, dateOf. intros Hd Hc.
  destruct (e !! "date") as [v|] eqn:E; [|by destruct Hd].
  by rewrite (Hc "date" v E).
Qed.

(** X19: Saving an entry dated after every stored one makes it the latest:
    [getLatestWeight] then returns a record with the date, the weight, the
    id and every other property of the entry as it was stored. *)
Theorem saved_latest_entry_is_the_latest_weight
    (ls : localStorage) (now : Z) (entry : obj) :
  let saved := (saveWeightEntry ls now entry).2 in
  let ls' := (saveWeightEntry ls now entry).1 in
  sorted_by_date (getWeightEntries ls) -> dated entry ->
  (forall e, e ∈ getWeightEntries ls -> time_of e < time_of entry) ->
  setItem_fits ls KEYS.WEIGHT_ENTRIES
    (SArray (Array_sort by_date (upsert (getWeightEntries ls) saved))) = true ->
  exists latest,
    getLatestWeight ls' = Some latest
    /\ carries saved latest
    /\ (forall w, entry !! "weight" = Some w -> latest !! "weight" = Some w)
    /\ dateOf latest = dateOf entry.
Proof.
  intros saved ls' [Hd Hs] He Hlater Hfit.
  change saved with (stamped now entry) in *.
  set (l' := upsert (getWeightEntries ls) (stamped now entry)) in *.
  assert (Hst : dated (stamped now entry))
    by (unfold dated; by rewrite dateOf_stamped).
  assert (E : getWeightEntries ls' = Array_sort by_date l').
  { destruct (saveWeightEntry_entries ls now entry) as [[_ E]|[E _]];
      [exact E|]. fold l' in E. congruence. }
  assert (Hsorted : sorted_by_date (Array_sort by_date l'))
    by (apply Array_sort_by_date, upsert_dated; assumption).
  destruct (upsert_has_carrier (getWeightEntries ls) (stamped now entry))
    as (c & Hc & Hcarry). fold l' in Hc.
  assert (Hcin : c ∈ Array_sort by_date l')
    by (by rewrite Array_sort_Permutation).
  destruct (last (Array_sort by_date l')) as [x|] eqn:Hlast.
  2:{ apply last_None in Hlast. rewrite Hlast in Hcin. inversion Hcin. }
  assert (Hx : x ∈ l').
  { rewrite <- (Array_sort_Permutation by_date l').
    rewrite last_lookup in Hlast. by eapply list_elem_of_lookup_2. }
  pose proof (sorted_last_latest _ x Hsorted Hlast c Hcin) as Hle.
  assert (Hcx : carries (stamped now entry) x).
  { destruct (upsert_elements _ _ _ Hx) as [Hold|Hcx]; [|exact Hcx].
    exfalso. specialize (Hlater x Hold).
    pose proof (carries_date _ c Hst Hcarry) as Hdc.
    rewrite dateOf_stamped in Hdc.
    unfold date_le, time_of, dated in *. rewrite Hdc in Hle.
    destruct (dateOf entry), (dateOf x); try done. lia. }
  exists x. repeat apply conj.
  - by rewrite getLatestWeight_last, E.
  - exact Hcx.
  - intros w Ew. apply Hcx. by rewrite stamped_lookup.
  - rewrite <- (dateOf_stamped now entry). by apply carries_date.
Qed.

End LatestWeight.

(** ** The length in the PIN hash *)

Section HashLength.
Import Auth.

Lemma string_app_cons c (s r : string) : (String c s ++ r)%string = String c (s ++ r).
Proof. reflexivity. Qed.

Lemma to_radix_go_app fuel r n (acc rest : string) :
  (to_radix_go fuel r n acc ++ rest)%string = to_radix_go fuel r n (acc ++ rest).
Proof.
  revert n acc. induction fuel as [|f IH]; intros n acc; [reflexivity|].
  cbn [to_radix_go]. destruct (n / r =? 0); [reflexivity|].
  by rewrite IH.
Qed.

Lemma digit_char_table :
  forallb (fun k : nat => negb (Ascii.eqb (digit_char (Z.of_nat k)) "_"))
          (seq 0 36) = true.
Proof. vm_compute. reflexivity. Qed.

Lemma digit_char_not_underscore d :
  0 <= d < 36 -> Ascii.eqb (digit_char d) "_" = false.
Proof.
  intros Hd. pose proof digit_char_table as Ht.
  rewrite forallb_forall in Ht. specialize (Ht (Z.to_nat d)).
  rewrite Z2Nat.id in Ht by lia.
  apply negb_true_iff, Ht, in_seq. lia.
Qed.

(** The digits of a number in a radix up to 36 have no underscore. *)
Lemma after_underscore_to_radix_go fuel r n acc :
  0 < r <= 36 ->
  after_underscore (to_radix_go fuel r n acc) = after_underscore acc.
Proof.
  intros Hr. revert n acc. induction fuel as [|f IH]; intros n acc;
    [reflexivity|].
  cbn [to_radix_go].
  assert (Hc : after_underscore (String (digit_char (n mod r)) acc)
               = after_underscore acc).
  { cbn [after_underscore]. rewrite digit_char_not_underscore; [reflexivity|].
    pose proof (Z.mod_pos_bound n r ltac:(lia)). lia. }
  destruct (n / r =? 0); [exact Hc|]. by rewrite IH.
Qed.

Lemma to_radix_go_S f r n acc :
  to_radix_go (S f) r n acc
  = if n / r =? 0 then String (digit_char (n mod r)) acc
    else to_radix_go f r (n / r) (String (digit_char (n mod r)) acc).
Proof. reflexivity. Qed.

(** Reading back the decimal digits of a number. *)
Lemma read_to_radix_go f n acc :
  0 <= n < 2 ^ Z.of_nat (S f) ->
  exists k, forall seen a,
    read_digits 10 (to_radix_go (S f) 10 n acc) seen a
    = read_digits 10 acc true (a * 10 ^ k + n) /\ 0 <= k.
Proof.
  revert n acc. induction f as [|f IH]; intros n acc Hn.
  - exists 1. intros seen a. split; [|lia].
    assert (n / 10 = 0) as E by (apply Z.div_small; cbn in Hn; lia).
    cbn [to_radix_go]. rewrite E. cbn [Z.eqb read_digits].
    rewrite Z.mod_small by (cbn in Hn; lia).
    destruct (digit_char_spec n ltac:(cbn in Hn; lia)) as [-> _].
    destruct (Z.ltb_spec n 10); [|cbn in Hn; lia].
    f_equal; lia.
  - rewrite (to_radix_go_S (S f)).
    destruct (Z.eqb_spec (n / 10) 0) as [E|Hne].
    + exists 1. intros seen a. split; [|lia].
      cbn [read_digits].
      assert (0 <= n < 10) as Hs by (Z.div_mod_to_equations; lia).
      rewrite Z.mod_small by lia.
      destruct (digit_char_spec n ltac:(lia)) as [-> _].
      destruct (Z.ltb_spec n 10); [|lia]. f_equal; lia.
    + assert (Hq : 0 <= n / 10 < 2 ^ Z.of_nat (S f)).
      { rewrite (Nat2Z.inj_succ (S f)), Z.pow_succ_r in Hn by lia.
        Z.div_mod_to_equations; lia. }
      destruct (IH (n / 10) (String (digit_char (n mod 10)) acc) Hq) as [k Hk].
      exists (k + 1). intros seen a.
      destruct (Hk seen a) as [-> Hk0]. split; [|lia].
      cbn [read_digits].
      pose proof (Z.mod_pos_bound n 10 ltac:(lia)) as Hm.
      destruct (digit_char_spec (n mod 10) ltac:(lia)) as [-> _].
      destruct (Z.ltb_spec (n mod 10) 10); [|lia].
      f_equal. rewrite Z.pow_add_r by lia.
      pose proof (Z.div_mod n 10 ltac:(lia)). lia.
Qed.

Lemma read_to_radix n :
  0 <= n -> read_digits 10 (to_radix 10 n) false 0 = Num n.
Proof.
  intros Hn. unfold to_radix.
  destruct (read_to_radix_go (Z.to_nat (Z.log2 n)) n EmptyString) as [k Hk].
  - rewrite Nat2Z.inj_succ, Z2Nat.id by apply Z.log2_nonneg.
    destruct (Z.eq_dec n 0) as [->|Hne]; [cbn; lia|].
    pose proof (Z.log2_spec n ltac:(lia)). lia.
  - destruct (Hk false 0) as [-> _]. cbn [read_digits]. f_equal; lia.
Qed.

(** The decimal text of the length is what follows the second underscore
    of the hash. *)
Lemma hashPin_length_text pin :
  after_underscore (after_underscore (hashPin pin))
  = to_radix 10 (Z.of_nat (String.length pin)).
Proof.
  unfold hashPin, Number_toString.
  destruct (Z.ltb_spec (Z.of_nat (String.length pin)) 0); [lia|].
  change ("cf_" ++ ?x)%string with (String "c" (String "f" (String "_" x))).
  cbn [after_underscore Ascii.eqb Bool.eqb].
  unfold to_radix at 1. rewrite to_radix_go_app.
  rewrite after_underscore_to_radix_go by lia.
  reflexivity.
Qed.

Lemma hashPin_length pin pin' :
  hashPin pin = hashPin pin' -> String.length pin = String.length pin'.
Proof.
  intros E.
  pose proof (hashPin_length_text pin) as H1.
  pose proof (hashPin_length_text pin') as H2.
  rewrite E, H2 in H1.
  pose proof (read_to_radix (Z.of_nat (String.length pin)) ltac:(lia)) as R1.
  pose proof (read_to_radix (Z.of_nat (String.length pin')) ltac:(lia)) as R2.
  rewrite <- H1, R2 in R1. injection R1 as R1. lia.
Qed.

End HashLength.

Section PinLength.
Context `{Platform}.
Import Auth.

(** X16: The stored hash ends with the length of the PIN, so that no PIN of
    another length is ever accepted. *)
Theorem verifyPin_rejects_another_length (ls : localStorage) (pin pin' : string) :
  ls !! STORAGE_KEY = Some (SText (hashPin pin)) ->
  String.length pin' <> String.length pin ->
  verifyPin ls pin' = false.
Proof.
  intros E Hlen. rewrite (verifyPin_stored ls pin pin' E).
  apply bool_decide_eq_false_2. intros Hh. apply Hlen.
  by apply hashPin_length.
Qed.

End PinLength.

(** ** Saving and the total of a day *)

Section SaveAndTotal.
Context `{Platform}.
Import ES Storage.




End SaveAndTotal.

(** ** Adding days *)

Section AddDays.
Context `{Platform}.
Import ES ESFacts.

(** X21: [addDays] moves a date by whole days, across the ends of months and
    years: the local day moves by [days], the time of day stays, the
    weekday turns with it; adding [a] and then [b] days is adding [a + b],
    and adding [- a] comes back, as long as the dates stay in range.  The
    Invalid Date stays invalid. *)
Theorem addDays_moves_by_whole_days (t a b : Z) :
  Z.abs (t + a * msPerDay) <= maxTime ->
  let d := Utils.addDays (Num t) a in
  d = Num (t + a * msPerDay)
  /\ Day (LocalTime (t + a * msPerDay)) = Day (LocalTime t) + a
  /\ TimeWithinDay (LocalTime (t + a * msPerDay)) = TimeWithinDay (LocalTime t)
  /\ WeekDay (LocalTime (t + a * msPerDay)) = (WeekDay (LocalTime t) + a) mod 7
  /\ Utils.addDays d b = Utils.addDays (Num t) (a + b)
  /\ (Z.abs t <= maxTime -> Utils.addDays d (- a) = Num t)
  /\ Utils.addDays NaN a = NaN.
Proof.
  intros Hr d.
  assert (E : d = Num (t + a * msPerDay))
    by (unfold d; rewrite addDays_Num; by apply TimeClip_in_range).
  rewrite E. repeat apply conj.
  - reflexivity.
  - rewrite LocalTime_shift. apply Day_shift.
  - rewrite LocalTime_shift. apply TimeWithinDay_shift.
  - rewrite LocalTime_shift. apply WeekDay_shift.
  - rewrite !addDays_Num. f_equal. lia.
  - intros Ht. rewrite addDays_Num.
    replace (t + a * msPerDay + - a * msPerDay) with t by lia.
    by apply TimeClip_in_range.
  - reflexivity.
Qed.

End AddDays.

(** ** The further properties at concrete inputs *)

Lemma getMonthStart_witness :
  let P := western_browser in
  ~ (0 <= ES.YearFromTime (LocalTime noon_jan10) <= 99)
  /\ Utils.getMonthStart (Num noon_jan10) = Num 1704085200000.
Proof.
  intros P.
  assert (Hy : ~ (0 <= ES.YearFromTime (LocalTime noon_jan10) <= 99)).
  { replace (ES.YearFromTime (LocalTime noon_jan10)) with 2024
      by (vm_compute; reflexivity). lia. }
  destruct (getMonthStart_first_of_month noon_jan10 Hy) as (E & _).
  split; [exact Hy|]. rewrite E. vm_compute. reflexivity.
Defined.

Lemma getMonthEnd_witness :
  let P := western_browser in
  ~ (0 <= ES.YearFromTime (LocalTime noon_jan10) <= 99)
  /\ Utils.getMonthEnd (Num noon_jan10) = Num 1706677200000.
Proof.
  intros P.
  assert (Hy : ~ (0 <= ES.YearFromTime (LocalTime noon_jan10) <= 99)).
  { replace (ES.YearFromTime (LocalTime noon_jan10)) with 2024
      by (vm_compute; reflexivity). lia. }
  destruct (getMonthEnd_last_of_month noon_jan10 Hy) as (E & _).
  split; [exact Hy|]. rewrite E. vm_compute. reflexivity.
Defined.

Lemma getFoodEntriesByDate_witness :
  let P := western_browser in
  Z.abs (startOfDay noon_jan10) <= ES.maxTime
  /\ Z.abs (endOfDay noon_jan10) <= ES.maxTime
  /\ Storage.getFoodEntriesByDate sample_foods (Num noon_jan10)
     = Storage.getFoodEntriesByDateRange sample_foods (Num noon_jan10)
         (Num noon_jan10).
Proof.
  intros P.
  assert (Hs : Z.abs (startOfDay noon_jan10) <= ES.maxTime) by (by vm_compute).
  assert (He : Z.abs (endOfDay noon_jan10) <= ES.maxTime) by (by vm_compute).
  destruct (getFoodEntriesByDate_is_one_day_range sample_foods noon_jan10 Hs He)
    as (_ & E & _).
  exact (conj Hs (conj He E)).
Defined.

Lemma weekDays_witness :
  let P := utc_browser in
  - ES.maxTime + 7 * ES.msPerDay <= noon_jan10 <= ES.maxTime
  /\ noon_jan10 <= noon_jan10 + 1 <= noon_jan10 + ES.msPerDay
  /\ noon_jan10 < noon_jan10 + 1
  /\ App.weekDays noon_jan10 (noon_jan10 + 1) = Num (daysSinceMonday noon_jan10 + 2).
Proof.
  intros P.
  assert (Hr : - ES.maxTime + 7 * ES.msPerDay <= noon_jan10 <= ES.maxTime)
    by (by vm_compute).
  assert (Hle : noon_jan10 <= noon_jan10 + 1 <= noon_jan10 + ES.msPerDay)
    by (unfold ES.msPerDay; lia).
  assert (Hd : noon_jan10 < noon_jan10 + 1) by lia.
  destruct (weekDays_counts_days_since_monday noon_jan10 (noon_jan10 + 1) Hr Hle)
    as (_ & _ & _ & _ & Hmoved).
  exact (conj Hr (conj Hle (conj Hd (Hmoved Hd)))).
Defined.

Lemma getDaysBetween_witness :
  let a := noon_jan10 in
  let b := noon_jan10 + 3 * ES.msPerDay + 1 in
  Z.abs a <= ES.maxTime /\ Z.abs b <= ES.maxTime /\ Z.abs (b - a) <= 2 ^ 53
  /\ Utils.getDaysBetween (Num a) (Num b) = Utils.getDaysBetween (Num b) (Num a)
  /\ Utils.getDaysBetween (Num a) (Num b) = Num 5.
Proof.
  intros a b.
  assert (Ha : Z.abs a <= ES.maxTime) by (by vm_compute).
  assert (Hb : Z.abs b <= ES.maxTime) by (by vm_compute).
  assert (Hd : Z.abs (b - a) <= 2 ^ 53) by (by vm_compute).
  destruct (getDaysBetween_counts_started_days a b 0 Ha Hb Hd)
    as (_ & Hsym & _).
  split; [exact Ha|]. split; [exact Hb|]. split; [exact Hd|].
  split; [exact Hsym|]. vm_compute. reflexivity.
Defined.



Lemma save_appends_witness :
  let P := utc_browser in
  let entry : obj := {[ "name" := JStr "Tea"; "calories" := JNum 2 ]} in
  let saved := (Storage.saveFoodEntry sample_foods noon_jan10 entry).2 in
  setItem_fits sample_foods Storage.KEYS.FOOD_ENTRIES
    (SArray (Storage.getFoodEntries sample_foods ++ [saved])) = true
  /\ Storage.getFoodEntries (Storage.saveFoodEntry sample_foods noon_jan10 entry).1
     = Storage.getFoodEntries sample_foods ++ [saved].
Proof.
  intros P entry saved.
  destruct (save_appends_the_stamped_record sample_foods noon_jan10 entry)
    as (_ & Happ & _).
  split; [reflexivity|]. apply Happ. reflexivity.
Defined.

Lemma saved_recipe_witness :
  let P := utc_browser in
  let recipe : obj := {[ "name" := JStr "Tart" ]} in
  let saved := (Storage.saveRecipe sample_recipes 11 recipe).2 in
  setItem_fits sample_recipes Storage.KEYS.RECIPES
    (SArray (Storage.getRecipes sample_recipes ++ [saved])) = true
  /\ first_with_id (Number_toString 11) (Storage.getRecipes sample_recipes) 0 soup
  /\ Storage.getRecipeById (Storage.saveRecipe sample_recipes 11 recipe).1
       (Number_toString 11) = Some soup.
Proof.
  intros P recipe saved.
  assert (Hfirst : first_with_id (Number_toString 11)
                     (Storage.getRecipes sample_recipes) 0 soup).
  { repeat apply conj; [reflexivity|reflexivity|]. intros j e' _ Hj. lia. }
  assert (Hf : setItem_fits sample_recipes Storage.KEYS.RECIPES
                 (SArray (Storage.getRecipes sample_recipes ++ [saved])) = true)
    by reflexivity.
  destruct (saved_recipe_is_found_unless_an_older_one_has_its_id
              sample_recipes 11 recipe Hf) as (_ & Holder).
  exact (conj Hf (conj Hfirst (Holder 0%nat soup Hfirst))).
Defined.

Lemma delete_removes_witness :
  let P := utc_browser in
  setItem_fits sample_recipes Storage.KEYS.RECIPES
    (SArray (filter (fun e : obj => ~ strict_eq_str (e !! "id") "11")
                    (Storage.getRecipes sample_recipes))) = true
  /\ Storage.getRecipeById (Storage.deleteRecipe sample_recipes "11").1 "11" = None
  /\ length (Storage.getRecipes (Storage.deleteRecipe sample_recipes "11").1)
     = 1%nat.
Proof.
  intros P.
  assert (Hf : setItem_fits sample_recipes Storage.KEYS.RECIPES
                 (SArray (filter (fun e : obj => ~ strict_eq_str (e !! "id") "11")
                            (Storage.getRecipes sample_recipes))) = true)
    by reflexivity.
  destruct (delete_removes_every_record_with_the_id sample_recipes "11" ∅ Hf)
    as (E & _ & _ & Hnone & _).
  split; [exact Hf|]. split; [exact Hnone|].
  rewrite E. vm_compute. reflexivity.
Defined.

Lemma writers_witness :
  let P := utc_browser in
  Storage.KEYS.RECIPES <> Storage.KEYS.FOOD_ENTRIES
  /\ (Storage.deleteFoodEntry sample_recipes "11").1 !! Storage.KEYS.RECIPES
     = sample_recipes !! Storage.KEYS.RECIPES.
Proof.
  intros P.
  assert (Hne : Storage.KEYS.RECIPES <> Storage.KEYS.FOOD_ENTRIES)
    by (vm_compute; discriminate).
  destruct (writers_change_only_their_own_key sample_recipes 0 ∅ ∅ "11"
              Storage.KEYS.RECIPES) as (_ & Hfood & _).
  destruct (Hfood Hne) as (_ & _ & Hdel).
  exact (conj Hne Hdel).
Defined.

Lemma recipe_form_witness :
  let P := utc_browser in
  let ls' := App.recipeFormSubmit sample_recipes 0 "11" "Soup" "" "" "" None in
  "11"%string <> EmptyString
  /\ first_with_id "11" (Storage.getRecipes sample_recipes) 0 soup
  /\ exists r', Storage.getRecipes ls' = <[0%nat := r']> (Storage.getRecipes sample_recipes)
                /\ r' !! "image" = Some JNull.
Proof.
  intros P ls'.
  assert (Hid : "11"%string <> EmptyString) by discriminate.
  assert (Hfirst : first_with_id "11" (Storage.getRecipes sample_recipes) 0 soup).
  { repeat apply conj; [reflexivity|reflexivity|]. intros j e' _ Hj. lia. }
  destruct (recipe_form_overwrites_the_image sample_recipes 0 "11" "Soup" "" "" ""
              None 0 soup) as (Hedit & _).
  assert (Hf : setItem_fits sample_recipes Storage.KEYS.RECIPES
                 (SArray (<[0%nat := spread soup
                              {[ "name" := JStr "Soup"; "calories" := JStr "";
                                 "ingredients" := JStr "";
                                 "instructions" := JStr "";
                                 "image" := JNull ]}]>
                            (Storage.getRecipes sample_recipes))) = true)
    by reflexivity.
  destruct (Hedit Hid Hfirst Hf) as (r' & E & _ & _ & _ & _ & Himg & _).
  split; [exact Hid|]. split; [exact Hfirst|].
  exists r'. split; [exact E|exact Himg].
Defined.

Lemma set_pin_then_verify_witness :
  let P := utc_browser in
  (4 <= String.length "2468")%nat
  /\ setItem_fits ∅ Auth.STORAGE_KEY (SText (Auth.hashPin "2468")) = true
  /\ Auth.verifyPin (Auth.setPin ∅ "2468").1 "2468" = true.
Proof.
  intros P.
  assert (Hlong : (4 <= String.length "2468")%nat) by (cbn; lia).
  assert (Hf : setItem_fits ∅ Auth.STORAGE_KEY (SText (Auth.hashPin "2468"))
               = true) by reflexivity.
  destruct (set_pin_then_verify ∅ "2468") as (Hset & _).
  destruct (Hset Hlong Hf) as (Hv & _).
  exact (conj Hlong (conj Hf Hv)).
Defined.

Lemma colliding_pin_witness :
  let P := utc_browser in
  (4 <= String.length ("12" ++ "Aa" ++ "34"))%nat
  /\ setItem_fits ∅ Auth.STORAGE_KEY (SText (Auth.hashPin ("12" ++ "Aa" ++ "34")))
     = true
  /\ Auth.verifyPin (Auth.setPin ∅ "12Aa34").1 "12BB34" = true.
Proof.
  intros P.
  assert (Hlong : (4 <= String.length ("12" ++ "Aa" ++ "34"))%nat)
    by (vm_compute; lia).
  assert (Hf : setItem_fits ∅ Auth.STORAGE_KEY
                 (SText (Auth.hashPin ("12" ++ "Aa" ++ "34"))) = true)
    by reflexivity.
  destruct (verifyPin_accepts_a_colliding_pin ∅ "12" "34" Hlong Hf)
    as (_ & Hv).
  exact (conj Hlong (conj Hf Hv)).
Defined.

Lemma resetPin_witness :
  let P := utc_browser in
  (∅ : localStorage) !! Auth.STORAGE_KEY = None
  /\ Auth.verifyPin ∅ "2468" = false.
Proof.
  intros P.
  destruct (resetPin_clears_pin_and_session ∅ ∅ "2468" "x")
    as (_ & _ & _ & _ & Hnone).
  assert (Hst : (∅ : localStorage) !! Auth.STORAGE_KEY = None) by reflexivity.
  exact (conj Hst (Hnone Hst)).
Defined.

Lemma verifyPin_length_witness :
  let P := utc_browser in
  let ls : localStorage := {[ Auth.STORAGE_KEY := SText (Auth.hashPin "2468") ]} in
  ls !! Auth.STORAGE_KEY = Some (SText (Auth.hashPin "2468"))
  /\ String.length "24680" <> String.length "2468"
  /\ Auth.verifyPin ls "24680" = false.
Proof.
  intros P ls.
  assert (Hlen : String.length "24680" <> String.length "2468") by (cbn; lia).
  assert (Hst : ls !! Auth.STORAGE_KEY = Some (SText (Auth.hashPin "2468")))
    by reflexivity.
  exact (conj Hst (conj Hlen
           (verifyPin_rejects_another_length ls "2468" "24680" Hst Hlen))).
Defined.

Lemma getToday_witness :
  0 <= ES.YearFromTime noon_jan10 <= 9999
  /\ Utils.getToday noon_jan10 = "2024-01-10"%string
  /\ iso_date_parse (Utils.getToday noon_jan10)
     = Num (ES.Day noon_jan10 * ES.msPerDay).
Proof.
  assert (Hy : 0 <= ES.YearFromTime noon_jan10 <= 9999).
  { replace (ES.YearFromTime noon_jan10) with 2024 by (vm_compute; reflexivity).
    lia. }
  destruct (getToday_is_the_utc_day_and_parses_back noon_jan10 noon_jan10 Hy)
    as (_ & _ & _ & Hparse & _).
  split; [exact Hy|]. split; [vm_compute; reflexivity|exact Hparse].
Defined.

Lemma day_buttons_witness :
  let P := western_browser in
  reads_iso_dates
  /\ 0 <= ES.YearFromTime (noon_jan10 - ES.msPerDay) <= 9999
  /\ 0 <= ES.YearFromTime noon_jan10 <= 9999
  /\ 0 <= ES.YearFromTime (noon_jan10 + ES.msPerDay) <= 9999
  /\ App.nextDay (Utils.getToday noon_jan10)
     = Some (Utils.getToday (noon_jan10 + ES.msPerDay)).
Proof.
  intros P.
  assert (Hiso : reads_iso_dates) by (intros t _; reflexivity).
  assert (Hp : 0 <= ES.YearFromTime (noon_jan10 - ES.msPerDay) <= 9999).
  { replace (ES.YearFromTime (noon_jan10 - ES.msPerDay)) with 2024
      by (vm_compute; reflexivity). lia. }
  assert (Hy : 0 <= ES.YearFromTime noon_jan10 <= 9999).
  { replace (ES.YearFromTime noon_jan10) with 2024 by (vm_compute; reflexivity).
    lia. }
  assert (Hn : 0 <= ES.YearFromTime (noon_jan10 + ES.msPerDay) <= 9999).
  { replace (ES.YearFromTime (noon_jan10 + ES.msPerDay)) with 2024
      by (vm_compute; reflexivity). lia. }
  destruct (day_buttons_move_by_one_day noon_jan10 Hiso Hp Hy Hn) as (Hnext & _).
  exact (conj Hiso (conj Hp (conj Hy (conj Hn Hnext)))).
Defined.

Lemma saved_latest_witness :
  let P := utc_browser in
  let entry : obj := {[ "date" := JStr "2024-01-08"; "weight" := JNum 69 ]} in
  sorted_by_date (Storage.getWeightEntries sample_weights)
  /\ dated entry
  /\ exists latest,
       Storage.getLatestWeight
         (Storage.saveWeightEntry sample_weights noon_jan10 entry).1 = Some latest
       /\ latest !! "weight" = Some (JNum 69).
Proof.
  intros P entry.
  assert (Hs : sorted_by_date (Storage.getWeightEntries sample_weights)).
  { apply (apply_writes_sorted (take 3 sample_writes) ∅);
      [split; constructor|].
    repeat constructor; vm_compute; discriminate. }
  assert (Hd : dated entry) by (vm_compute; discriminate).
  assert (Hlater : forall e, e ∈ Storage.getWeightEntries sample_weights ->
                             time_of e < time_of entry).
  { intros e He. vm_compute in He.
    repeat (apply elem_of_cons in He as [->|He]; [vm_compute; reflexivity|]).
    inversion He. }
  assert (Hf : setItem_fits sample_weights Storage.KEYS.WEIGHT_ENTRIES
                 (SArray (Array_sort by_date
                            (upsert (Storage.getWeightEntries sample_weights)
                               (Storage.saveWeightEntry sample_weights
                                  noon_jan10 entry).2))) = true)
    by reflexivity.
  destruct (saved_latest_entry_is_the_latest_weight sample_weights noon_jan10
              entry Hs Hd Hlater Hf) as (latest & Hl & _ & Hw & _).
  split; [exact Hs|]. split; [exact Hd|].
  exists latest. split; [exact Hl|]. apply Hw. reflexivity.
Defined.


Lemma addDays_witness :
  let P := western_browser in
  Z.abs (noon_jan10 + 25 * ES.msPerDay) <= ES.maxTime
  /\ Utils.addDays (Num noon_jan10) 25 = Num (noon_jan10 + 25 * ES.msPerDay)
  /\ toDateString (Num (noon_jan10 + 25 * ES.msPerDay)) = DateString 0 1 4 2024.
Proof.
  intros P.
  assert (Hr : Z.abs (noon_jan10 + 25 * ES.msPerDay) <= ES.maxTime)
    by (by vm_compute).
  destruct (addDays_moves_by_whole_days noon_jan10 25 0 Hr) as (E & _).
  split; [exact Hr|]. split; [exact E|]. vm_compute. reflexivity.
Defined.
